(** * The asynchronous routing dispatcher of routing/async_router.cpp

    A shallow embedding of [routing::AsyncRouter], of its per-request
    [RouterDelegateProxy] and of the statistics helpers of the anonymous
    namespace.  Shared objects (the proxies held through [shared_ptr]) live
    in a heap indexed by handles, the GUI thread's queue is a list of
    closures, and everything user code or a collaborator can observe is
    recorded as an event. *)

From Stdlib Require Import ZArith PrimFloat.
From stdpp Require Import base list strings gmap sorting.

(** ** Data *)

(** A C++ [double]. *)
Definition double := float.

Module m2.
Record PointD := mkPointD { x : double; y : double }.
End m2.

(** Modelled from the spec: routing/checkpoints.hpp is not among the sources.
    "An ordered sequence of geographic points with at least a start and a
    finish; intermediate points are optional." *)
Record Checkpoints := mkCheckpoints {
  GetStart : m2.PointD;
  GetIntermediate : list m2.PointD;
  GetFinish : m2.PointD
}.

(** The enumeration, with the constructors that [AsyncRouter::LogCode]
    switches over. *)
Inductive RouterResultCode :=
| StartPointNotFound
| EndPointNotFound
| PointsInDifferentMWM
| RouteNotFound
| RouteFileNotExist
| NeedMoreMaps
| Cancelled
| NoError
| NoCurrentPosition
| InconsistentMWMandRoute
| InternalError
| FileTooOld
| IntermediatePointNotFound
| TransitRouteNotFoundNoNetwork
| TransitRouteNotFoundTooLongPedestrian
| RouteNotFoundRedressRouteError.

#[global] Instance RouterResultCode_eq_dec : EqDecision RouterResultCode.
Proof. solve_decision. Defined.

(** [uint64_t] arithmetic: [++m_routeCounter] wraps at 2^64. *)
Definition uint64_max : Z := 2 ^ 64 - 1.
Definition uint64_incr (n : Z) : Z := ((n + 1) mod 2 ^ 64)%Z.

(** Modelled from the spec: routing/route.hpp is not among the sources.
    "An opaque artifact produced by the engine, tagged with the engine's name
    and a [...] route id assigned by the dispatcher.  It carries a total
    distance in meters."  The distance stands for whatever the engine writes
    through the [Route &] it is handed. *)
Record Route := mkRoute {
  route_router : string;
  route_id : Z;
  GetTotalDistanceMeters : double
}.

(** [make_shared<Route>(router->GetName(), routeId)]: nothing written yet. *)
Definition new_Route (routerName : string) (routeId : Z) : Route :=
  mkRoute routerName routeId 0%float.

(** Modelled from the spec: routing/router_delegate.hpp is not among the
    sources.  The engine-delegate sub-object "conveys cancellation and timeout
    into the engine"; [Cancel] sets its cancellation flag, [Reset] clears
    it. *)
Record RouterDelegate := mkRouterDelegate {
  cancelled : bool;
  timeoutSec : Z
}.

Definition RouterDelegate_Reset (d : RouterDelegate) : RouterDelegate :=
  mkRouterDelegate false (timeoutSec d).
Definition RouterDelegate_SetTimeout (t : Z) (d : RouterDelegate) : RouterDelegate :=
  mkRouterDelegate (cancelled d) t.
Definition RouterDelegate_Cancel (d : RouterDelegate) : RouterDelegate :=
  mkRouterDelegate true (timeoutSec d).
Definition RouterDelegate_IsCancelled (d : RouterDelegate) : bool := cancelled d.

(** A non-empty [std::function] is named by a number; [None] is [nullptr]. *)
Abbreviation Callback := nat (only parsing).

(** A handle of a [shared_ptr<RouterDelegateProxy>]: an index of the heap. *)
Abbreviation Handle := nat (only parsing).

(** ** What the outside world sees *)

(** An invocation of user code. *)
Inductive UserCall :=
| CallReady (cb : Callback) (route : Route) (code : RouterResultCode)
| CallNeedMoreMaps (cb : Callback) (routeId : Z) (absent : list string)
| CallRemoveRoute (cb : Callback) (code : RouterResultCode)
| CallProgress (cb : Callback) (progress : double)
| CallPointCheck (cb : Callback) (pt : m2.PointD)
| CallStatistics (cb : Callback) (statistics : gmap string string).

(** A closure handed to the GUI thread, with what it captures. *)
Inductive UiTask :=
| GuiSendStatistics (checkpoints : Checkpoints) (startDirection : m2.PointD)
    (code : RouterResultCode) (routeLengthM elapsedSec : double)
    (routingStatisticsCallback : option Callback) (routerName : string)
| GuiSendStatisticsException (checkpoints : Checkpoints)
    (startDirection : m2.PointD) (msg : string)
    (routingStatisticsCallback : option Callback) (routerName : string)
| GuiOnReady (delegate : Handle) (route : Route) (code : RouterResultCode)
| GuiOnNeedMoreMaps (delegate : Handle) (routeId : Z) (absent : list string)
| GuiOnRemoveRoute (delegate : Handle) (code : RouterResultCode)
| GuiProgress (onProgress : Callback) (progress : double)
| GuiPointCheck (onPointCheck : Callback) (point : m2.PointD).

(** ** AsyncRouter::RouterDelegateProxy *)

Module RouterDelegateProxy.

Record t := mk {
  m_onReadyOwnership : option Callback;
  m_onNeedMoreMaps : option Callback;
  m_removeRoute : option Callback;
  m_onPointCheck : option Callback;
  m_onProgress : option Callback;
  m_delegate : RouterDelegate
}.

(** The constructor: the callbacks are stored, the sub-object is reset and
    given the timeout.  (The two [bind]s make the sub-object's progress and
    point-check listeners the methods [OnProgress] and [OnPointCheck]
    below.) *)
Definition make (onReady onNeedMoreMaps removeRoute onPointCheck onProgress : option Callback)
    (timeout : Z) : t :=
  mk onReady onNeedMoreMaps removeRoute onPointCheck onProgress
     (RouterDelegate_SetTimeout timeout
        (RouterDelegate_Reset (mkRouterDelegate false 0))).

Definition GetDelegate (p : t) : RouterDelegate := m_delegate p.

(** [OnReady], [OnNeedMoreMaps] and [OnRemoveRoute] run on the GUI thread
    and call the user callback themselves; the result is the list of user
    invocations made.  A call of a method is one step: the flag is tested
    once, under [m_guard], and what the method does follows from that
    test. *)
Definition OnReady (p : t) (route : Route) (resultCode : RouterResultCode)
    : list UserCall :=
  match m_onReadyOwnership p with
  | None => []
  | Some cb =>
      if RouterDelegate_IsCancelled (m_delegate p) then []
      else [CallReady cb route resultCode]
  end.

Definition OnNeedMoreMaps (p : t) (routeId : Z) (absentCounties : list string)
    : list UserCall :=
  match m_onNeedMoreMaps p with
  | None => []
  | Some cb =>
      if RouterDelegate_IsCancelled (m_delegate p) then []
      else [CallNeedMoreMaps cb routeId absentCounties]
  end.

Definition OnRemoveRoute (p : t) (resultCode : RouterResultCode)
    : list UserCall :=
  match m_removeRoute p with
  | None => []
  | Some cb =>
      if RouterDelegate_IsCancelled (m_delegate p) then []
      else [CallRemoveRoute cb resultCode]
  end.

Definition Cancel (p : t) : t :=
  mk (m_onReadyOwnership p) (m_onNeedMoreMaps p) (m_removeRoute p)
     (m_onPointCheck p) (m_onProgress p)
     (RouterDelegate_Cancel (m_delegate p)).

(** [OnProgress] is called by the engine on the worker thread and only
    posts a closure, holding a copy of the callback, to the GUI thread. *)
Definition OnProgress (p : t) (progress : double) : list UiTask :=
  match m_onProgress p with
  | None => []
  | Some onProgress =>
      if RouterDelegate_IsCancelled (m_delegate p) then []
      else [GuiProgress onProgress progress]
  end.

(** [OnPointCheck]: the body is compiled only under
    [SHOW_ROUTE_DEBUG_MARKS]; there [CHECK(m_onPointCheck, ())] aborts the
    process ([None]) on an empty callback, before the flag is looked at. *)
Definition OnPointCheck (SHOW_ROUTE_DEBUG_MARKS : bool) (p : t) (pt : m2.PointD)
    : option (list UiTask) :=
  if SHOW_ROUTE_DEBUG_MARKS then
    match m_onPointCheck p with
    | None => None
    | Some onPointCheck =>
        if RouterDelegate_IsCancelled (m_delegate p) then Some []
        else Some [GuiPointCheck onPointCheck pt]
    end
  else Some [].

(** A call of one of the proxy's methods. *)
Inductive Op :=
| DoOnReady (route : Route) (resultCode : RouterResultCode)
| DoOnNeedMoreMaps (routeId : Z) (absentCounties : list string)
| DoOnRemoveRoute (resultCode : RouterResultCode)
| DoOnProgress (progress : double)
| DoOnPointCheck (pt : m2.PointD)
| DoCancel.

(** What a call, or a run of calls, did: the user invocations made, the
    closures posted to the GUI thread, and whether a [CHECK] stopped it. *)
Record Effects := mkEffects {
  invoked : list UserCall;
  posted : list UiTask;
  aborted : bool
}.

Definition perform (dbg : bool) (op : Op) (p : t) : t * Effects :=
  match op with
  | DoOnReady route code => (p, mkEffects (OnReady p route code) [] false)
  | DoOnNeedMoreMaps routeId absent =>
      (p, mkEffects (OnNeedMoreMaps p routeId absent) [] false)
  | DoOnRemoveRoute code => (p, mkEffects (OnRemoveRoute p code) [] false)
  | DoOnProgress progress => (p, mkEffects [] (OnProgress p progress) false)
  | DoOnPointCheck pt =>
      match OnPointCheck dbg p pt with
      | Some tasks => (p, mkEffects [] tasks false)
      | None => (p, mkEffects [] [] true)
      end
  | DoCancel => (Cancel p, mkEffects [] [] false)
  end.

(** Calls made one after the other on the same proxy; nothing runs after an
    abort. *)
Fixpoint perform_all (dbg : bool) (ops : list Op) (p : t) : t * Effects :=
  match ops with
  | [] => (p, mkEffects [] [] false)
  | op :: rest =>
      let '(p1, e1) := perform dbg op p in
      if aborted e1 then (p1, e1)
      else
        let '(p2, e2) := perform_all dbg rest p1 in
        (p2, mkEffects (invoked e1 ++ invoked e2) (posted e1 ++ posted e2)
               (aborted e2))
  end.

End RouterDelegateProxy.

(** ** Statistics (the anonymous namespace) *)

(** [std::map::emplace]: an existing key keeps its value. *)
Definition emplace (k v : string) (m : gmap string string) : gmap string string :=
  match m !! k with
  | Some _ => m
  | None => <[k := v]> m
  end.

(** The conversions and printers the statistics code calls; none of them is
    among the sources, so they are parameters of the development. *)
Record Formatting := mkFormatting {
  XToLon : double -> double;
  YToLat : double -> double;
  to_string_dac : double -> Z -> string;
  to_string : double -> string;
  DebugPrint : RouterResultCode -> string
}.

Section Statistics.
Context (fmt : Formatting).

Definition PrepareStatisticsData (routerName : string)
    (startPoint startDirection finalPoint : m2.PointD) : gmap string string :=
  let precision := 5%Z in
  list_to_map
    [("name", routerName);
     ("startLon", to_string_dac fmt (XToLon fmt (m2.x startPoint)) precision);
     ("startLat", to_string_dac fmt (YToLat fmt (m2.y startPoint)) precision);
     ("startDirectionX", to_string_dac fmt (m2.x startDirection) precision);
     ("startDirectionY", to_string_dac fmt (m2.y startDirection) precision);
     ("finalLon", to_string_dac fmt (XToLon fmt (m2.x finalPoint)) precision);
     ("finalLat", to_string_dac fmt (YToLat fmt (m2.y finalPoint)) precision)].

(** The record [SendStatistics] builds for a result code. *)
Definition result_statistics (startPoint startDirection finalPoint : m2.PointD)
    (resultCode : RouterResultCode) (routeLenM elapsedSec : double)
    (routerName : string) : gmap string string :=
  let statistics := PrepareStatisticsData routerName startPoint startDirection finalPoint in
  let statistics := emplace "result" (DebugPrint fmt resultCode) statistics in
  let statistics := emplace "elapsed" (to_string fmt elapsedSec) statistics in
  if decide (NoError = resultCode)
  then emplace "distance" (to_string fmt routeLenM) statistics
  else statistics.

Definition SendStatistics (startPoint startDirection finalPoint : m2.PointD)
    (resultCode : RouterResultCode) (routeLenM elapsedSec : double)
    (routingStatisticsCallback : option Callback) (routerName : string)
    : list UserCall :=
  match routingStatisticsCallback with
  | None => []
  | Some sink =>
      [CallStatistics sink
         (result_statistics startPoint startDirection finalPoint resultCode
            routeLenM elapsedSec routerName)]
  end.

(** The record the exception overload builds. *)
Definition exception_statistics (startPoint startDirection finalPoint : m2.PointD)
    (exceptionMessage routerName : string) : gmap string string :=
  let statistics := PrepareStatisticsData routerName startPoint startDirection finalPoint in
  emplace "exception" exceptionMessage statistics.

Definition SendStatisticsException (startPoint startDirection finalPoint : m2.PointD)
    (exceptionMessage : string)
    (routingStatisticsCallback : option Callback) (routerName : string)
    : list UserCall :=
  match routingStatisticsCallback with
  | None => []
  | Some sink =>
      [CallStatistics sink
         (exception_statistics startPoint startDirection finalPoint
            exceptionMessage routerName)]
  end.

(** The GUI thread runs a closure; the proxies are read from the heap of
    shared objects as they are at that moment. *)
Definition run_task (heap : list RouterDelegateProxy.t) (task : UiTask)
    : list UserCall :=
  match task with
  | GuiSendStatistics checkpoints startDirection code routeLengthM elapsedSec
      sink routerName =>
      SendStatistics (GetStart checkpoints) startDirection (GetFinish checkpoints)
        code routeLengthM elapsedSec sink routerName
  | GuiSendStatisticsException checkpoints startDirection msg sink routerName =>
      SendStatisticsException (GetStart checkpoints) startDirection
        (GetFinish checkpoints) msg sink routerName
  | GuiOnReady delegate route code =>
      match heap !! delegate with
      | Some p => RouterDelegateProxy.OnReady p route code
      | None => []
      end
  | GuiOnNeedMoreMaps delegate routeId absent =>
      match heap !! delegate with
      | Some p => RouterDelegateProxy.OnNeedMoreMaps p routeId absent
      | None => []
      end
  | GuiOnRemoveRoute delegate code =>
      match heap !! delegate with
      | Some p => RouterDelegateProxy.OnRemoveRoute p code
      | None => []
      end
  | GuiProgress onProgress progress => [CallProgress onProgress progress]
  | GuiPointCheck onPointCheck point => [CallPointCheck onPointCheck point]
  end.

End Statistics.

(** ** The collaborators: engine, fetcher, timer, log *)

(** What the engine tells the engine-delegate while it computes; the
    proxy's constructor bound these listeners to [OnProgress] and
    [OnPointCheck]. *)
Inductive DelegateCall :=
| EngineOnProgress (progress : double)
| EngineOnPointCheck (pt : m2.PointD).

(** The engine and the fetcher are collaborators behind interfaces; they are
    modelled by how [AsyncRouter] calls them, and any behaviour is allowed.
    The engine returns a code or throws an exception of the [RootException]
    family, with its [Msg()]. *)
Inductive EngineOutcome :=
| Returns (code : RouterResultCode)
| Throws (msg : string).

(** One call of the engine: the listener calls it made, in order, the route
    object as it left it, and how the call ended. *)
Record EngineRun := mkEngineRun {
  reported : list DelegateCall;
  route_after : Route;
  outcome : EngineOutcome
}.

Module IRouter.
Record t := mk {
  GetName : string;
  CalculateRoute :
    Checkpoints -> m2.PointD -> bool -> RouterDelegate -> Route -> EngineRun
}.
End IRouter.

(** [GenerateRequest(checkpoints)] starts the request, [GetAbsentCountries]
    blocks for its reply and fills the (empty) vector it is given. *)
Module IOnlineFetcher.
Record t := mk {
  GetAbsentCountries : Checkpoints -> list string
}.
End IOnlineFetcher.

(** The two readings of [timer.ElapsedSeconds()] of one request. *)
Record Timer := mkTimer {
  routing_time : double;
  routing_and_fetch_time : double
}.

Inductive LogLevel := LINFO | LWARNING | LERROR.

(** What the worker and the GUI thread do that others can see.  Of a log
    line the level and the fixed text are kept, and of the values printed
    after it the elapsed seconds only. *)
Inductive Event :=
| EvLog (level : LogLevel) (message : string) (elapsedSec : option double)
| EvGenerateRequest (checkpoints : Checkpoints)
| EvCalculateRoute (routerName : string) (checkpoints : Checkpoints)
    (startDirection : m2.PointD) (adjustToPrevRoute : bool)
    (delegate : RouterDelegate) (route : Route)
| EvGetAbsentCountries
| EvClearState (routerName : string)
| EvUser (call : UserCall).

(** ** AsyncRouter *)

Module AsyncRouter.

Record t := mk {
  m_threadExit : bool;
  m_hasRequest : bool;
  m_clearState : bool;
  m_checkpoints : Checkpoints;
  m_startDirection : m2.PointD;
  m_adjustToPrevRoute : bool;
  m_delegate : option Handle;
  m_absentFetcher : option IOnlineFetcher.t;
  m_router : option IRouter.t;
  m_routingStatisticsCallback : option Callback;
  m_pointCheckCallback : option Callback;
  m_routeCounter : Z
}.

Definition set_threadExit (b : bool) (a : t) : t :=
  mk b (m_hasRequest a) (m_clearState a) (m_checkpoints a) (m_startDirection a)
     (m_adjustToPrevRoute a) (m_delegate a) (m_absentFetcher a) (m_router a)
     (m_routingStatisticsCallback a) (m_pointCheckCallback a) (m_routeCounter a).

Definition set_hasRequest (b : bool) (a : t) : t :=
  mk (m_threadExit a) b (m_clearState a) (m_checkpoints a) (m_startDirection a)
     (m_adjustToPrevRoute a) (m_delegate a) (m_absentFetcher a) (m_router a)
     (m_routingStatisticsCallback a) (m_pointCheckCallback a) (m_routeCounter a).

Definition set_clearState (b : bool) (a : t) : t :=
  mk (m_threadExit a) (m_hasRequest a) b (m_checkpoints a) (m_startDirection a)
     (m_adjustToPrevRoute a) (m_delegate a) (m_absentFetcher a) (m_router a)
     (m_routingStatisticsCallback a) (m_pointCheckCallback a) (m_routeCounter a).

Definition set_request (checkpoints : Checkpoints) (direction : m2.PointD)
    (adjustToPrevRoute : bool) (a : t) : t :=
  mk (m_threadExit a) (m_hasRequest a) (m_clearState a) checkpoints direction
     adjustToPrevRoute (m_delegate a) (m_absentFetcher a) (m_router a)
     (m_routingStatisticsCallback a) (m_pointCheckCallback a) (m_routeCounter a).

Definition set_delegate (d : option Handle) (a : t) : t :=
  mk (m_threadExit a) (m_hasRequest a) (m_clearState a) (m_checkpoints a)
     (m_startDirection a) (m_adjustToPrevRoute a) d (m_absentFetcher a)
     (m_router a) (m_routingStatisticsCallback a) (m_pointCheckCallback a)
     (m_routeCounter a).

Definition set_router (router : option IRouter.t)
    (fetcher : option IOnlineFetcher.t) (a : t) : t :=
  mk (m_threadExit a) (m_hasRequest a) (m_clearState a) (m_checkpoints a)
     (m_startDirection a) (m_adjustToPrevRoute a) (m_delegate a) fetcher router
     (m_routingStatisticsCallback a) (m_pointCheckCallback a) (m_routeCounter a).

Definition set_routeCounter (n : Z) (a : t) : t :=
  mk (m_threadExit a) (m_hasRequest a) (m_clearState a) (m_checkpoints a)
     (m_startDirection a) (m_adjustToPrevRoute a) (m_delegate a)
     (m_absentFetcher a) (m_router a) (m_routingStatisticsCallback a)
     (m_pointCheckCallback a) n.

(** The dispatcher's members, the heap of proxies, the GUI thread's queue
    (oldest closure first) and the events so far. *)
Record World := mkWorld {
  self : t;
  heap : list RouterDelegateProxy.t;
  gui : list UiTask;
  log : list Event
}.

(** Modelled from the spec: the initialiser of [m_routeCounter] is in
    routing/async_router.hpp, which is not among the sources.  "A
    monotonically increasing route counter (starts at 0)". *)
Definition initial_routeCounter : Z := 0.

(** The constructor.  The request slot is not written before the first
    [CalculateRoute], so its first content is left to the caller.  (The
    thread it starts is [Worker.ThreadFunc] below.) *)
Definition make (routingStatisticsCallback pointCheckCallback : option Callback)
    (checkpoints : Checkpoints) (direction : m2.PointD) (adjust : bool) : World :=
  mkWorld
    (mk false false false checkpoints direction adjust None None None
        routingStatisticsCallback pointCheckCallback initial_routeCounter)
    [] [] [].

Definition ResetDelegate (w : World) : World :=
  match m_delegate (self w) with
  | Some d =>
      mkWorld (set_delegate None (self w))
              (alter RouterDelegateProxy.Cancel d (heap w)) (gui w) (log w)
  | None => w
  end.

(** The part of the destructor that runs under the lock; [m_thread.join()]
    then waits for [ThreadFunc] to return. *)
Definition Destroy (w : World) : World :=
  let w := ResetDelegate w in
  mkWorld (set_threadExit true (self w)) (heap w) (gui w) (log w).

Definition SetRouter (router : option IRouter.t)
    (fetcher : option IOnlineFetcher.t) (w : World) : World :=
  let w := ResetDelegate w in
  mkWorld (set_router router fetcher (self w)) (heap w) (gui w) (log w).

(** The public [CalculateRoute]: [make_shared] puts the new proxy at the
    end of the heap. *)
Definition CalculateRoute (checkpoints : Checkpoints) (direction : m2.PointD)
    (adjustToPrevRoute : bool)
    (readyCallback needMoreMapsCallback removeRouteCallback progressCallback
       : option Callback)
    (timeout : Z) (w : World) : World :=
  let w := mkWorld (set_request checkpoints direction adjustToPrevRoute (self w))
                   (heap w) (gui w) (log w) in
  let w := ResetDelegate w in
  let proxy :=
    RouterDelegateProxy.make readyCallback needMoreMapsCallback
      removeRouteCallback (m_pointCheckCallback (self w)) progressCallback
      timeout in
  mkWorld (set_hasRequest true (set_delegate (Some (length (heap w))) (self w)))
          (heap w ++ [proxy]) (gui w) (log w).

Definition ClearState (w : World) : World :=
  let w := mkWorld (set_clearState true (self w)) (heap w) (gui w) (log w) in
  ResetDelegate w.

Definition LogCode (code : RouterResultCode) (elapsedSec : double) : Event :=
  match code with
  | StartPointNotFound => EvLog LWARNING "Can't find start or end node" None
  | EndPointNotFound => EvLog LWARNING "Can't find end point node" None
  | PointsInDifferentMWM => EvLog LWARNING "Points are in different MWMs" None
  | RouteNotFound => EvLog LWARNING "Route not found" None
  | RouteFileNotExist => EvLog LWARNING "There is no routing file" None
  | NeedMoreMaps =>
      EvLog LINFO
        "Routing can find a better way with additional maps, elapsed seconds:"
        (Some elapsedSec)
  | Cancelled =>
      EvLog LINFO "Route calculation cancelled, elapsed seconds:" (Some elapsedSec)
  | NoError => EvLog LINFO "Route found, elapsed seconds:" (Some elapsedSec)
  | NoCurrentPosition => EvLog LINFO "No current position" None
  | InconsistentMWMandRoute => EvLog LINFO "Inconsistent mwm and route" None
  | InternalError => EvLog LINFO "Internal error" None
  | FileTooOld => EvLog LINFO "File too old" None
  | IntermediatePointNotFound =>
      EvLog LWARNING "Can't find intermediate point node" None
  | TransitRouteNotFoundNoNetwork =>
      EvLog LWARNING
        "No transit route is found because there's no transit network in the mwm of the route point"
        None
  | TransitRouteNotFoundTooLongPedestrian =>
      EvLog LWARNING "No transit route is found because pedestrian way is too long"
        None
  | RouteNotFoundRedressRouteError =>
      EvLog LWARNING "Route not found because of a redress route error" None
  end.

End AsyncRouter.

(** ** The worker thread *)

Module Worker.
Import AsyncRouter.

(** The body of the private [CalculateRoute()] posts closures and calls the
    collaborators; a failed [CHECK] inside a listener stops it.  [M A] is a
    computation that yields an [A] together with the closures it posted and
    the events it caused, in order, or [None] when it was stopped. *)
Record Out := mkOut {
  scheduled : list UiTask;
  emitted : list Event
}.

Definition M (A : Type) : Type := option (A * Out).

Definition ret {A} (a : A) : M A := Some (a, mkOut [] []).

Definition bind {A B} (m : M A) (k : A -> M B) : M B :=
  match m with
  | Some (a, o1) =>
      match k a with
      | Some (b, o2) =>
          Some (b, mkOut (scheduled o1 ++ scheduled o2) (emitted o1 ++ emitted o2))
      | None => None
      end
  | None => None
  end.

Notation "x <- m ;; k" := (bind m (fun x => k))
  (at level 100, m at level 99, k at level 200, right associativity).
Notation "m ;; k" := (bind m (fun _ => k))
  (at level 100, k at level 200, right associativity).

Definition RunOnGuiThread (task : UiTask) : M unit :=
  Some (tt, mkOut [task] []).

Definition emit (e : Event) : M unit :=
  Some (tt, mkOut [] [e]).

Definition abort {A} : M A := None.

Definition when (b : bool) (m : M unit) : M unit := if b then m else ret tt.

Fixpoint for_each {A} (f : A -> M unit) (l : list A) : M unit :=
  match l with
  | [] => ret tt
  | a :: rest => f a ;; for_each f rest
  end.

Definition RunOnReadyOnGuiThread (delegate : Handle) (route : Route)
    (code : RouterResultCode) : M unit :=
  RunOnGuiThread (GuiOnReady delegate route code).

(** The locals of [CalculateRoute()] once the block under the lock is
    through. *)
Record Locals := mkLocals {
  delegate : Handle;
  checkpoints : Checkpoints;
  startDirection : m2.PointD;
  adjustToPrevRoute : bool;
  absentFetcher : option IOnlineFetcher.t;
  router : IRouter.t;
  routeId : Z;
  routingStatisticsCallback : option Callback;
  routerName : string
}.

(** The block under the lock: the members after it, and the locals unless
    one of the three early [return]s was taken. *)
Definition Snapshot (a : t) : t * option Locals :=
  let hasRequest := m_hasRequest a in
  let a := set_hasRequest false a in
  if negb hasRequest then (a, None)
  else
    match m_router a with
    | None => (a, None)
    | Some router =>
        match m_delegate a with
        | None => (a, None)
        | Some delegate =>
            let routeId := uint64_incr (m_routeCounter a) in
            (set_routeCounter routeId a,
             Some (mkLocals delegate (m_checkpoints a) (m_startDirection a)
                     (m_adjustToPrevRoute a) (m_absentFetcher a) router routeId
                     (m_routingStatisticsCallback a) (IRouter.GetName router)))
        end
    end.

(** A listener call of the engine reaches the proxy on the worker thread. *)
Definition listener (dbg : bool) (proxy : RouterDelegateProxy.t)
    (call : DelegateCall) : M unit :=
  match call with
  | EngineOnProgress progress =>
      for_each RunOnGuiThread (RouterDelegateProxy.OnProgress proxy progress)
  | EngineOnPointCheck pt =>
      match RouterDelegateProxy.OnPointCheck dbg proxy pt with
      | Some tasks => for_each RunOnGuiThread tasks
      | None => abort
      end
  end.

(** The absent-countries step: the fetcher is asked only when there is one
    and the engine did not report a cancellation; [absent] stays empty
    otherwise. *)
Definition FetchAbsent (l : Locals) (code : RouterResultCode)
    : M (list string) :=
  let needFetchAbsent := bool_decide (code <> Cancelled) in
  match absentFetcher l with
  | Some fetcher =>
      if needFetchAbsent
      then emit EvGetAbsentCountries ;;
           ret (IOnlineFetcher.GetAbsentCountries fetcher (checkpoints l))
      else ret []
  | None => ret []
  end.

(** [if (!absent.empty() && code == NoError) code = NeedMoreMaps;] *)
Definition Upgrade (absent : list string) (code : RouterResultCode)
    : RouterResultCode :=
  if negb (bool_decide (absent = [])) && bool_decide (code = NoError)
  then NeedMoreMaps else code.

(** "Call callback only if we have some new data." *)
Definition SecondaryDelivery (l : Locals) (absent : list string)
    (code : RouterResultCode) : M unit :=
  if bool_decide (code <> NoError)
  then
    if bool_decide (code = NeedMoreMaps)
    then RunOnGuiThread (GuiOnNeedMoreMaps (delegate l) (routeId l) absent)
    else RunOnGuiThread (GuiOnRemoveRoute (delegate l) code)
  else ret tt.

(** What follows the [try] block when the engine returned [code]. *)
Definition Deliver (timer : Timer) (l : Locals) (route : Route)
    (code : RouterResultCode) : M unit :=
  let routeLengthM := GetTotalDistanceMeters route in
  RunOnGuiThread
    (GuiSendStatistics (checkpoints l) (startDirection l) code routeLengthM
       (routing_time timer) (routingStatisticsCallback l) (routerName l)) ;;
  when (bool_decide (code = NoError))
    (RunOnReadyOnGuiThread (delegate l) route code) ;;
  absent <- FetchAbsent l code ;;
  let code := Upgrade absent code in
  emit (LogCode code (routing_and_fetch_time timer)) ;;
  SecondaryDelivery l absent code.

(** The events before the engine's call ends. *)
Definition prologue (l : Locals) (proxy : RouterDelegateProxy.t) : list Event :=
  EvLog LINFO "Calculating the route." None
  :: (if bool_decide (is_Some (absentFetcher l))
      then [EvGenerateRequest (checkpoints l)] else [])
  ++ [EvCalculateRoute (IRouter.GetName (router l)) (checkpoints l)
        (startDirection l) (adjustToPrevRoute l)
        (RouterDelegateProxy.GetDelegate proxy)
        (new_Route (IRouter.GetName (router l)) (routeId l))].

(** The handler of [catch (RootException const & e)]. *)
Definition Catch (l : Locals) (route : Route) (msg : string) : M unit :=
  let code := InternalError in
  emit (EvLog LERROR "Exception happened while calculating route:" None) ;;
  RunOnGuiThread
    (GuiSendStatisticsException (checkpoints l) (startDirection l) msg
       (routingStatisticsCallback l) (routerName l)) ;;
  RunOnReadyOnGuiThread (delegate l) route code.

(** What the body does once the engine's call has ended: the rest of the
    [try] block and what follows it, or the handler. *)
Definition Conclude (timer : Timer) (l : Locals) (run : EngineRun) : M unit :=
  match outcome run with
  | Returns code =>
      emit (LogCode code (routing_time timer)) ;;
      Deliver timer l (route_after run) code
  | Throws msg => Catch l (route_after run) msg
  end.

(** The body of [CalculateRoute()] after the block under the lock.  The
    proxy is the object the local [shared_ptr] points to; a handle outside
    the heap cannot arise from the operations of [AsyncRouter]. *)
Definition Execute (dbg : bool) (heap : list RouterDelegateProxy.t)
    (timer : Timer) (l : Locals) : M unit :=
  match heap !! delegate l with
  | None => abort
  | Some proxy =>
      let route := new_Route (IRouter.GetName (router l)) (routeId l) in
      emit (EvLog LINFO "Calculating the route." None) ;;
      when (bool_decide (is_Some (absentFetcher l)))
        (emit (EvGenerateRequest (checkpoints l))) ;;
      emit (EvCalculateRoute (IRouter.GetName (router l)) (checkpoints l)
              (startDirection l) (adjustToPrevRoute l)
              (RouterDelegateProxy.GetDelegate proxy) route) ;;
      let run :=
        IRouter.CalculateRoute (router l) (checkpoints l) (startDirection l)
          (adjustToPrevRoute l) (RouterDelegateProxy.GetDelegate proxy) route in
      for_each (listener dbg proxy) (reported run) ;;
      Conclude timer l run
  end.

(** The private [CalculateRoute()]: [None] when a [CHECK] aborted the
    process. *)
Definition CalculateRoute (dbg : bool) (timer : Timer) (w : World)
    : option World :=
  match Snapshot (self w) with
  | (a, None) => Some (mkWorld a (heap w) (gui w) (log w))
  | (a, Some l) =>
      match Execute dbg (heap w) timer l with
      | Some (_, out) =>
          Some (mkWorld a (heap w) (gui w ++ scheduled out)
                        (log w ++ emitted out))
      | None => None
      end
  end.

(** One turn of the loop of [ThreadFunc].  After the block under the lock
    the body of [CalculateRoute()] reads its locals and the proxy only, so a
    turn is taken as one step; what the GUI thread does meanwhile is ordered
    before or after it. *)
Inductive Turn :=
| Waits
| Breaks (w : World)
| Continues (w : World)
| Aborts.

Definition clear_state_handling (w : World) : World :=
  match m_router (self w) with
  | Some router =>
      if m_clearState (self w)
      then mkWorld (set_clearState false (self w)) (heap w) (gui w)
                   (log w ++ [EvClearState (IRouter.GetName router)])
      else w
  | None => w
  end.

Definition ThreadFunc_turn (dbg : bool) (timer : Timer) (w : World) : Turn :=
  let a := self w in
  if negb (m_threadExit a || m_hasRequest a || m_clearState a) then Waits
  else
    let w := clear_state_handling w in
    if m_threadExit (self w) then Breaks w
    else if negb (m_hasRequest (self w)) then Continues w
    else
      match CalculateRoute dbg timer w with
      | Some w' => Continues w'
      | None => Aborts
      end.

(** [ThreadFunc], given the timer readings of the turns it may take:
    [Some] of where the thread stops (sleeping on the condition variable,
    with [false], or returned, with [true]), [None] when the readings run
    out or a [CHECK] aborted. *)
Fixpoint ThreadFunc (dbg : bool) (timers : list Timer) (w : World)
    : option (bool * World) :=
  match timers with
  | [] => None
  | timer :: rest =>
      match ThreadFunc_turn dbg timer w with
      | Waits => Some (false, w)
      | Breaks w' => Some (true, w')
      | Continues w' => ThreadFunc dbg rest w'
      | Aborts => None
      end
  end.

End Worker.

(** ** The GUI thread *)

(** The GUI thread takes the oldest closure of its queue and runs it. *)
Definition RunGuiTask (fmt : Formatting) (w : AsyncRouter.World)
    : AsyncRouter.World :=
  match AsyncRouter.gui w with
  | [] => w
  | task :: rest =>
      AsyncRouter.mkWorld (AsyncRouter.self w) (AsyncRouter.heap w) rest
        (AsyncRouter.log w ++ (EvUser <$> run_task fmt (AsyncRouter.heap w) task))
  end.

(** ** Runs of the whole system *)

(** What can happen next: a call of the public interface on the GUI thread,
    a turn of the worker's loop, or the GUI thread running its oldest
    closure. *)
Inductive Action :=
| DoSetRouter (router : option IRouter.t) (fetcher : option IOnlineFetcher.t)
| DoCalculateRoute (checkpoints : Checkpoints) (direction : m2.PointD)
    (adjustToPrevRoute : bool)
    (readyCallback needMoreMapsCallback removeRouteCallback progressCallback
       : option Callback)
    (timeout : Z)
| DoClearState
| DoWorkerTurn (timer : Timer)
| DoGuiTask.

Definition step (dbg : bool) (fmt : Formatting) (act : Action)
    (w : AsyncRouter.World) : option AsyncRouter.World :=
  match act with
  | DoSetRouter router fetcher => Some (AsyncRouter.SetRouter router fetcher w)
  | DoCalculateRoute checkpoints direction adjust ready needMoreMaps removeRoute
      progress timeout =>
      Some (AsyncRouter.CalculateRoute checkpoints direction adjust ready
              needMoreMaps removeRoute progress timeout w)
  | DoClearState => Some (AsyncRouter.ClearState w)
  | DoWorkerTurn timer =>
      match Worker.ThreadFunc_turn dbg timer w with
      | Worker.Waits => Some w
      | Worker.Breaks w' => Some w'
      | Worker.Continues w' => Some w'
      | Worker.Aborts => None
      end
  | DoGuiTask => Some (RunGuiTask fmt w)
  end.

Fixpoint run (dbg : bool) (fmt : Formatting) (acts : list Action)
    (w : AsyncRouter.World) : option AsyncRouter.World :=
  match acts with
  | [] => Some w
  | act :: rest =>
      match step dbg fmt act w with
      | Some w' => run dbg fmt rest w'
      | None => None
      end
  end.

(** The calls of the public interface that begin with [ResetDelegate]. *)
Definition cancels_delegate (act : Action) : bool :=
  match act with
  | DoSetRouter _ _ | DoCalculateRoute _ _ _ _ _ _ _ _ | DoClearState => true
  | DoWorkerTurn _ | DoGuiTask => false
  end.

(** ** Reading queues and logs *)

(** The [OnReady] closures of a queue, with what they capture. *)
Definition OnReady_tasks (tasks : list UiTask)
    : list (Handle * Route * RouterResultCode) :=
  omap (fun task =>
          match task with
          | GuiOnReady delegate route code => Some (delegate, route, code)
          | _ => None
          end) tasks.

(** The [OnNeedMoreMaps] and [OnRemoveRoute] closures of a queue. *)
Definition secondary_tasks (tasks : list UiTask) : list UiTask :=
  omap (fun task =>
          match task with
          | GuiOnNeedMoreMaps _ _ _ | GuiOnRemoveRoute _ _ => Some task
          | _ => None
          end) tasks.

(** The closures that call into the proxy behind a handle when they run. *)
Definition calls_into (d : Handle) (task : UiTask) : bool :=
  match task with
  | GuiOnReady delegate _ _
  | GuiOnNeedMoreMaps delegate _ _
  | GuiOnRemoveRoute delegate _ => bool_decide (delegate = d)
  | _ => false
  end.

(** The closures the proxy's listeners post: they hold a copy of the user
    callback, not the proxy. *)
Definition listener_task (task : UiTask) : Prop :=
  match task with
  | GuiProgress _ _ | GuiPointCheck _ _ => True
  | _ => False
  end.

(** The route objects handed to the engine, one per [EvCalculateRoute]. *)
Definition routes_handed (events : list Event) : list Route :=
  omap (fun e =>
          match e with
          | EvCalculateRoute _ _ _ _ _ route => Some route
          | _ => None
          end) events.

Definition issued_ids (events : list Event) : list Z :=
  route_id <$> routes_handed events.

(** The calls of the fetcher's [GetAbsentCountries] in a log. *)
Definition absent_fetches (events : list Event) : nat :=
  length (omap (fun e => match e with
                         | EvGetAbsentCountries => Some tt
                         | _ => None
                         end) events).

(** The active delegate, if any, is an object of the heap. *)
Definition handles_valid (w : AsyncRouter.World) : Prop :=
  forall d : nat,
    AsyncRouter.m_delegate (AsyncRouter.self w) = Some d ->
    d < length (AsyncRouter.heap w).

(** What a worker step added to the queue and to the log. *)
Definition new_tasks (w w' : AsyncRouter.World) : list UiTask :=
  drop (length (AsyncRouter.gui w)) (AsyncRouter.gui w').
Definition new_events (w w' : AsyncRouter.World) : list Event :=
  drop (length (AsyncRouter.log w)) (AsyncRouter.log w').

(** The list [absent] after the absent-countries step of the body. *)
Definition drained (l : Worker.Locals) (code : RouterResultCode) : list string :=
  match Worker.FetchAbsent l code with
  | Some (absent, _) => absent
  | None => []
  end.

(** The call of the engine the worker makes for the locals [l]. *)
Definition engine_run (heap : list RouterDelegateProxy.t) (l : Worker.Locals)
    : option EngineRun :=
  match heap !! Worker.delegate l with
  | Some proxy =>
      Some (IRouter.CalculateRoute (Worker.router l) (Worker.checkpoints l)
              (Worker.startDirection l) (Worker.adjustToPrevRoute l)
              (RouterDelegateProxy.GetDelegate proxy)
              (new_Route (IRouter.GetName (Worker.router l)) (Worker.routeId l)))
  | None => None
  end.

(** ** Sample collaborators and requests *)

Module Scenario.

Definition checkpoints : Checkpoints :=
  mkCheckpoints (m2.mkPointD 1%float 2%float) [] (m2.mkPointD 3%float 4%float).
Definition direction : m2.PointD := m2.mkPointD 0%float 0%float.

(** An engine that reports progress once, writes the route and succeeds. *)
Definition vehicle : IRouter.t :=
  IRouter.mk "vehicle"
    (fun _ _ _ _ route =>
       mkEngineRun [EngineOnProgress 0.5%float]
         (mkRoute (route_router route) (route_id route) 1200%float)
         (Returns NoError)).

(** An engine that finds nothing. *)
Definition lost : IRouter.t :=
  IRouter.mk "pedestrian"
    (fun _ _ _ _ route => mkEngineRun [] route (Returns RouteNotFound)).

(** An engine that has written to the route when it throws. *)
Definition faulty : IRouter.t :=
  IRouter.mk "vehicle"
    (fun _ _ _ _ route =>
       mkEngineRun []
         (mkRoute (route_router route) (route_id route) 1200%float)
         (Throws "bad mwm")).

Definition fetcher : IOnlineFetcher.t :=
  IOnlineFetcher.mk (fun _ => ["US_California"; "US_Nevada"]).

Definition fmt : Formatting :=
  mkFormatting (fun v => v) (fun v => v) (fun _ _ => "0.00000") (fun _ => "0")
    (fun _ => "code").

Definition timer : Timer := mkTimer 1%float 2%float.

(** A dispatcher just constructed, with the statistics sink 9. *)
Definition fresh : AsyncRouter.World :=
  AsyncRouter.make (Some 9) None checkpoints direction false.

(** A request is submitted with callbacks 1 (ready), 2 (need more maps),
    3 (remove route) and 4 (progress). *)
Definition submit : AsyncRouter.World -> AsyncRouter.World :=
  AsyncRouter.CalculateRoute checkpoints direction false
    (Some 1) (Some 2) (Some 3) (Some 4) 0.

(** An engine is installed and a request submitted; the worker has not
    looked at it yet. *)
Definition pending (router : IRouter.t) (fetcher : option IOnlineFetcher.t)
    : AsyncRouter.World :=
  submit (AsyncRouter.SetRouter (Some router) fetcher fresh).

(** The dispatcher after the worker has served the pending request, the
    locals of that execution and the call of the engine it made. *)
Definition served (router : IRouter.t) (fetcher : option IOnlineFetcher.t)
    : AsyncRouter.World :=
  default fresh (Worker.CalculateRoute false timer (pending router fetcher)).

Definition locals (router : IRouter.t) (fetcher : option IOnlineFetcher.t)
    : Worker.Locals :=
  Worker.mkLocals 0 checkpoints direction false fetcher router 1 (Some 9)
    (IRouter.GetName router).

Definition call (router : IRouter.t) : EngineRun :=
  IRouter.CalculateRoute router checkpoints direction false
    (mkRouterDelegate false 0) (new_Route (IRouter.GetName router) 1).

(** An engine that reports a point to check and then succeeds. *)
Definition marker : IRouter.t :=
  IRouter.mk "bicycle"
    (fun _ _ _ _ route =>
       mkEngineRun [EngineOnPointCheck (m2.mkPointD 5%float 6%float)] route
         (Returns NoError)).

(** A request is submitted and the worker takes a turn; [cycles n] does so
    [n] times. *)
Definition cycle : list Action :=
  [DoCalculateRoute checkpoints direction false (Some 1) (Some 2) (Some 3)
     (Some 4) 0;
   DoWorkerTurn timer].

Fixpoint cycles (n : nat) : list Action :=
  match n with
  | O => []
  | S n => cycles n ++ cycle
  end.

(** A dispatcher with the engine [lost] and no request yet. *)
Definition serving : AsyncRouter.World :=
  AsyncRouter.SetRouter (Some lost) None fresh.

(** The dispatcher after two requests were submitted and served. *)
Definition twice : AsyncRouter.World :=
  default fresh (run false fmt (cycles 2) serving).

(** The next request is submitted while the closures of the served one are
    still in the queue. *)
Definition resubmitted : AsyncRouter.World := submit (served vehicle None).

(** A second request, heading east with a timeout of 7 seconds and the
    ready callback 5 only, is submitted before the worker has looked at the
    pending one; then the worker takes its turn. *)
Definition superseded : AsyncRouter.World :=
  AsyncRouter.CalculateRoute checkpoints (m2.mkPointD 1%float 0%float) true
    (Some 5) None None None 7 (pending vehicle None).

Definition latest : AsyncRouter.World :=
  default fresh (Worker.CalculateRoute false timer superseded).

End Scenario.

(** ** The heap and the queue over a run *)

(** The closures that call a method of a proxy when they run. *)
Definition delegate_task (task : UiTask) : bool :=
  match task with
  | GuiOnReady _ _ _ | GuiOnNeedMoreMaps _ _ _ | GuiOnRemoveRoute _ _ => true
  | _ => false
  end.

(** The calls of the engine's [CalculateRoute] in a log, with the request
    and the engine-delegate they were given. *)
Definition engine_calls (events : list Event)
    : list (Checkpoints * m2.PointD * bool * RouterDelegate) :=
  omap (fun e =>
          match e with
          | EvCalculateRoute _ checkpoints startDirection adjust delegate _ =>
              Some (checkpoints, startDirection, adjust, delegate)
          | _ => None
          end) events.

(** Every proxy of the heap but the active delegate has its flag set. *)
Definition others_cancelled (w : AsyncRouter.World) : Prop :=
  forall (d : nat) (p : RouterDelegateProxy.t),
    AsyncRouter.heap w !! d = Some p ->
    AsyncRouter.m_delegate (AsyncRouter.self w) <> Some d ->
    RouterDelegate_IsCancelled (RouterDelegateProxy.m_delegate p) = true.

(** The proxy of the active delegate has its flag clear. *)
Definition active_live (w : AsyncRouter.World) : Prop :=
  forall (d : nat) (p : RouterDelegateProxy.t),
    AsyncRouter.m_delegate (AsyncRouter.self w) = Some d ->
    AsyncRouter.heap w !! d = Some p ->
    RouterDelegate_IsCancelled (RouterDelegateProxy.m_delegate p) = false.

(** The closures of the queue call into objects of the heap. *)
Definition queue_valid (w : AsyncRouter.World) : Prop :=
  forall (task : UiTask) (d : nat),
    task ∈ AsyncRouter.gui w ->
    calls_into d task = true ->
    d < length (AsyncRouter.heap w).

Definition consistent (w : AsyncRouter.World) : Prop :=
  handles_valid w /\ others_cancelled w /\ active_live w /\ queue_valid w.

(** The calls of the public interface, the destructor's part under the lock
    among them. *)
Inductive PublicCall :=
| CallSetRouter (router : option IRouter.t) (fetcher : option IOnlineFetcher.t)
| CallCalculateRoute (checkpoints : Checkpoints) (direction : m2.PointD)
    (adjustToPrevRoute : bool)
    (readyCallback needMoreMapsCallback removeRouteCallback progressCallback
       : option Callback)
    (timeout : Z)
| CallClearState
| CallDestroy.

Definition call_public (c : PublicCall) (w : AsyncRouter.World)
    : AsyncRouter.World :=
  match c with
  | CallSetRouter router fetcher => AsyncRouter.SetRouter router fetcher w
  | CallCalculateRoute checkpoints direction adjust ready needMoreMaps removeRoute
      progress timeout =>
      AsyncRouter.CalculateRoute checkpoints direction adjust ready needMoreMaps
        removeRoute progress timeout w
  | CallClearState => AsyncRouter.ClearState w
  | CallDestroy => AsyncRouter.Destroy w
  end.

(** The dispatcher has a point-check callback and has given it to every
    proxy. *)
Definition point_check_set (w : AsyncRouter.World) : Prop :=
  is_Some (AsyncRouter.m_pointCheckCallback (AsyncRouter.self w))
  /\ Forall (fun p => is_Some (RouterDelegateProxy.m_onPointCheck p))
            (AsyncRouter.heap w).

(** The calls of the fetcher's [GenerateRequest] in a log. *)
Definition fetcher_kicks (events : list Event) : list Checkpoints :=
  omap (fun e => match e with
                 | EvGenerateRequest checkpoints => Some checkpoints
                 | _ => None
                 end) events.

(** * Properties *)

(** ** The delegate proxy after [Cancel] *)

Section CancelledProxy.
Import RouterDelegateProxy.

Lemma Cancel_sets_flag (p : t) :
  RouterDelegate_IsCancelled (m_delegate (Cancel p)) = true.
Proof. reflexivity. Qed.

Lemma Cancel_idempotent (p : t) : Cancel (Cancel p) = Cancel p.
Proof. reflexivity. Qed.

(** No method of the proxy clears the flag. *)
Lemma perform_keeps_flag (dbg : bool) (op : Op) (p : t) :
  RouterDelegate_IsCancelled (m_delegate p) = true ->
  RouterDelegate_IsCancelled (m_delegate (perform dbg op p).1) = true.
Proof.
  intros Hp. destruct op; simpl; try exact Hp.
  - destruct (OnPointCheck dbg p pt); exact Hp.
  - reflexivity.
Qed.

(** With the flag set, a method neither calls nor posts anything. *)
Lemma perform_filtered (dbg : bool) (op : Op) (p : t) :
  RouterDelegate_IsCancelled (m_delegate p) = true ->
  invoked (perform dbg op p).2 = [] /\ posted (perform dbg op p).2 = [].
Proof.
  intros Hp. destruct op; simpl.
  - unfold OnReady. rewrite Hp. by destruct (m_onReadyOwnership p).
  - unfold OnNeedMoreMaps. rewrite Hp. by destruct (m_onNeedMoreMaps p).
  - unfold OnRemoveRoute. rewrite Hp. by destruct (m_removeRoute p).
  - unfold OnProgress. rewrite Hp. by destruct (m_onProgress p).
  - unfold OnPointCheck. rewrite Hp.
    by destruct dbg, (m_onPointCheck p).
  - done.
Qed.

Lemma perform_all_filtered (dbg : bool) (ops : list Op) (p : t) :
  RouterDelegate_IsCancelled (m_delegate p) = true ->
  RouterDelegate_IsCancelled (m_delegate (perform_all dbg ops p).1) = true
  /\ invoked (perform_all dbg ops p).2 = []
  /\ posted (perform_all dbg ops p).2 = [].
Proof.
  revert p. induction ops as [|op ops IH]; intros p Hp; simpl.
  - done.
  - pose proof (perform_keeps_flag dbg op p Hp) as Hk.
    destruct (perform_filtered dbg op p Hp) as [Hi Hs].
    destruct (perform dbg op p) as [p1 e1]; simpl in *.
    destruct (aborted e1); simpl.
    + done.
    + destruct (IH p1 Hk) as (Hk2 & Hi2 & Hs2).
      destruct (perform_all dbg ops p1) as [p2 e2]; simpl in *.
      by rewrite Hi, Hs, Hi2, Hs2.
Qed.

End CancelledProxy.

(** C1: for every proxy, whatever calls of [OnReady], [OnNeedMoreMaps],
    [OnRemoveRoute], [OnProgress], [OnPointCheck] (with or without
    [SHOW_ROUTE_DEBUG_MARKS]) and further [Cancel]s follow a [Cancel], the
    flag stays set, no user callback is invoked and no closure calling one is
    posted to the GUI thread. *)
Theorem cancelled_proxy_is_silent (dbg : bool) (p : RouterDelegateProxy.t)
    (ops : list RouterDelegateProxy.Op) :
  let after :=
    RouterDelegateProxy.perform_all dbg ops (RouterDelegateProxy.Cancel p) in
  RouterDelegate_IsCancelled (RouterDelegateProxy.m_delegate after.1) = true
  /\ RouterDelegateProxy.invoked after.2 = []
  /\ RouterDelegateProxy.posted after.2 = [].
Proof.
  apply perform_all_filtered, Cancel_sets_flag.
Qed.

(** ** Statistics records *)

Section StatisticsKeys.
Context (fmt : Formatting).

Lemma PrepareStatisticsData_other (routerName : string)
    (startPoint startDirection finalPoint : m2.PointD) :
  let statistics :=
    PrepareStatisticsData fmt routerName startPoint startDirection finalPoint in
  statistics !! "result" = None /\ statistics !! "elapsed" = None
  /\ statistics !! "distance" = None /\ statistics !! "exception" = None.
Proof. by vm_compute. Qed.

Lemma emplace_fresh (k v : string) (m : gmap string string) :
  m !! k = None -> emplace k v m = <[k := v]> m.
Proof. intros H. unfold emplace. by rewrite H. Qed.

Lemma result_statistics_lookup (startPoint startDirection finalPoint : m2.PointD)
    (resultCode : RouterResultCode) (routeLenM elapsedSec : double)
    (routerName : string) :
  let statistics :=
    result_statistics fmt startPoint startDirection finalPoint resultCode
      routeLenM elapsedSec routerName in
  statistics !! "result" = Some (DebugPrint fmt resultCode)
  /\ statistics !! "elapsed" = Some (to_string fmt elapsedSec)
  /\ statistics !! "distance" =
       (if decide (NoError = resultCode) then Some (to_string fmt routeLenM)
        else None)
  /\ statistics !! "exception" = None.
Proof.
  destruct (PrepareStatisticsData_other routerName startPoint startDirection
              finalPoint) as (Hr & He & Hd & Hx).
  unfold result_statistics.
  set (m0 := PrepareStatisticsData fmt routerName startPoint startDirection
               finalPoint) in *.
  rewrite (emplace_fresh "result" _ m0 Hr).
  rewrite (emplace_fresh "elapsed"); [|by rewrite lookup_insert_ne].
  destruct (decide (NoError = resultCode)); simpl.
  - rewrite (emplace_fresh "distance"); [|by rewrite !lookup_insert_ne].
    rewrite lookup_insert_ne, lookup_insert_ne, lookup_insert_eq by done.
    rewrite lookup_insert_ne, lookup_insert_eq by done.
    rewrite lookup_insert_eq.
    by rewrite !lookup_insert_ne.
  - rewrite lookup_insert_ne, lookup_insert_eq by done.
    rewrite lookup_insert_eq.
    by rewrite !lookup_insert_ne.
Qed.

Lemma exception_statistics_lookup (startPoint startDirection finalPoint : m2.PointD)
    (exceptionMessage routerName : string) :
  let statistics :=
    exception_statistics fmt startPoint startDirection finalPoint
      exceptionMessage routerName in
  statistics !! "exception" = Some exceptionMessage
  /\ statistics !! "result" = None /\ statistics !! "elapsed" = None
  /\ statistics !! "distance" = None.
Proof.
  destruct (PrepareStatisticsData_other routerName startPoint startDirection
              finalPoint) as (Hr & He & Hd & Hx).
  unfold exception_statistics.
  rewrite (emplace_fresh "exception") by done.
  rewrite lookup_insert_eq. by rewrite !lookup_insert_ne.
Qed.

End StatisticsKeys.

(** C5: without a sink neither form of [SendStatistics] emits anything.
    With a sink, the result form hands it one record that has the keys
    [result] and [elapsed], and has the key [distance] exactly when the code
    is [NoError]; the exception form hands it one record that has the key
    [exception] and none of [result], [elapsed], [distance]. *)
Theorem SendStatistics_keys (fmt : Formatting)
    (startPoint startDirection finalPoint : m2.PointD)
    (resultCode : RouterResultCode) (routeLenM elapsedSec : double)
    (exceptionMessage routerName : string) (sink : Callback) :
  SendStatistics fmt startPoint startDirection finalPoint resultCode routeLenM
    elapsedSec None routerName = []
  /\ (exists statistics : gmap string string,
        SendStatistics fmt startPoint startDirection finalPoint resultCode
          routeLenM elapsedSec (Some sink) routerName
        = [CallStatistics sink statistics]
        /\ statistics !! "result" = Some (DebugPrint fmt resultCode)
        /\ statistics !! "elapsed" = Some (to_string fmt elapsedSec)
        /\ (is_Some (statistics !! "distance") <-> resultCode = NoError)
        /\ (resultCode = NoError ->
            statistics !! "distance" = Some (to_string fmt routeLenM)))
  /\ SendStatisticsException fmt startPoint startDirection finalPoint
       exceptionMessage None routerName = []
  /\ (exists statistics : gmap string string,
        SendStatisticsException fmt startPoint startDirection finalPoint
          exceptionMessage (Some sink) routerName
        = [CallStatistics sink statistics]
        /\ statistics !! "exception" = Some exceptionMessage
        /\ statistics !! "result" = None
        /\ statistics !! "elapsed" = None
        /\ statistics !! "distance" = None).
Proof.
  split; [reflexivity|]. split; [|split; [reflexivity|]].
  - eexists. split; [reflexivity|].
    destruct (result_statistics_lookup fmt startPoint startDirection finalPoint
                resultCode routeLenM elapsedSec routerName)
      as (Hr & He & Hd & _).
    split; [exact Hr|]. split; [exact He|]. rewrite Hd.
    destruct (decide (NoError = resultCode)) as [E|N].
    + split; [|done]. split; [done|]. intros _. by eexists.
    + split.
      * split; [intros [? ?]; done|]. intros ->. done.
      * intros ->. done.
  - eexists. split; [reflexivity|].
    apply exception_statistics_lookup.
Qed.

(** ** The body of the worker's [CalculateRoute()] *)

Section WorkerBody.
Import AsyncRouter Worker.

Lemma bind_Some {A B} (m : M A) (k : A -> M B) (b : B) (o : Out) :
  bind m k = Some (b, o) ->
  exists a o1 o2,
    m = Some (a, o1) /\ k a = Some (b, o2)
    /\ scheduled o = scheduled o1 ++ scheduled o2
    /\ emitted o = emitted o1 ++ emitted o2.
Proof.
  unfold bind. destruct m as [[a o1]|]; [|done].
  destruct (k a) as [[b' o2]|] eqn:Hk; [|done].
  intros [= <- <-]. by exists a, o1, o2.
Qed.

Lemma for_each_RunOnGuiThread (tasks : list UiTask) :
  for_each RunOnGuiThread tasks = Some (tt, mkOut tasks []).
Proof.
  induction tasks as [|task tasks IH]; [done|].
  simpl. rewrite IH. reflexivity.
Qed.

Lemma listener_out (dbg : bool) (proxy : RouterDelegateProxy.t)
    (call : DelegateCall) (o : Out) :
  listener dbg proxy call = Some (tt, o) ->
  Forall listener_task (scheduled o) /\ emitted o = [].
Proof.
  destruct call as [progress|pt]; simpl.
  - rewrite for_each_RunOnGuiThread. intros [= <-]. simpl. split; [|done].
    unfold RouterDelegateProxy.OnProgress.
    destruct (RouterDelegateProxy.m_onProgress proxy); [|by constructor].
    destruct (RouterDelegate_IsCancelled _); repeat constructor.
  - destruct (RouterDelegateProxy.OnPointCheck dbg proxy pt) as [tasks|] eqn:E;
      [|done].
    rewrite for_each_RunOnGuiThread. intros [= <-]. simpl. split; [|done].
    unfold RouterDelegateProxy.OnPointCheck in E.
    destruct dbg; [|by injection E as <-; constructor].
    destruct (RouterDelegateProxy.m_onPointCheck proxy); [|done].
    destruct (RouterDelegate_IsCancelled _); injection E as <-;
      repeat constructor.
Qed.

Lemma listeners_out (dbg : bool) (proxy : RouterDelegateProxy.t)
    (calls : list DelegateCall) (o : Out) :
  for_each (listener dbg proxy) calls = Some (tt, o) ->
  Forall listener_task (scheduled o) /\ emitted o = [].
Proof.
  revert o. induction calls as [|call calls IH]; intros o; simpl.
  - intros [= <-]. by split.
  - intros H. apply bind_Some in H as ([] & o1 & o2 & H1 & H2 & Hs & He).
    apply listener_out in H1 as [Hf1 He1].
    apply IH in H2 as [Hf2 He2].
    rewrite Hs, He, He1, He2. split; [|done].
    by apply Forall_app.
Qed.

Lemma listener_tasks_OnReady (tasks : list UiTask) :
  Forall listener_task tasks -> OnReady_tasks tasks = [].
Proof.
  induction 1 as [|task tasks Ht _ IH]; [done|].
  destruct task; simpl in Ht; try contradiction; exact IH.
Qed.

Lemma listener_tasks_secondary (tasks : list UiTask) :
  Forall listener_task tasks -> secondary_tasks tasks = [].
Proof.
  induction 1 as [|task tasks Ht _ IH]; [done|].
  destruct task; simpl in Ht; try contradiction; exact IH.
Qed.

Lemma drained_eq (l : Locals) (code : RouterResultCode) :
  drained l code =
  match absentFetcher l with
  | Some fetcher =>
      if bool_decide (code <> Cancelled)
      then IOnlineFetcher.GetAbsentCountries fetcher (checkpoints l)
      else []
  | None => []
  end.
Proof.
  unfold drained, FetchAbsent.
  destruct (absentFetcher l); [|done].
  by destruct (bool_decide (code <> Cancelled)).
Qed.

Lemma FetchAbsent_out (l : Locals) (code : RouterResultCode) :
  FetchAbsent l code =
  Some (drained l code,
        mkOut []
          (if bool_decide (is_Some (absentFetcher l))
              && bool_decide (code <> Cancelled)
           then [EvGetAbsentCountries] else [])).
Proof.
  unfold drained, FetchAbsent.
  destruct (absentFetcher l) as [fetcher|]; [|done].
  rewrite (bool_decide_eq_true_2 (is_Some (Some fetcher))) by by eexists.
  by destruct (bool_decide (code <> Cancelled)).
Qed.

Lemma SecondaryDelivery_out (l : Locals) (absent : list string)
    (code : RouterResultCode) :
  SecondaryDelivery l absent code =
  Some (tt,
        mkOut (if bool_decide (code = NoError) then []
               else if bool_decide (code = NeedMoreMaps)
                    then [GuiOnNeedMoreMaps (delegate l) (routeId l) absent]
                    else [GuiOnRemoveRoute (delegate l) code])
              []).
Proof. by destruct code. Qed.

(** The part after the [try] block never stops, and posts and emits this. *)
Lemma Deliver_out (timer : Timer) (l : Locals) (route : Route)
    (code : RouterResultCode) :
  let absent := drained l code in
  let final := Upgrade absent code in
  Deliver timer l route code =
  Some (tt,
        mkOut
          ([GuiSendStatistics (checkpoints l) (startDirection l) code
              (GetTotalDistanceMeters route) (routing_time timer)
              (routingStatisticsCallback l) (routerName l)]
           ++ (if bool_decide (code = NoError)
               then [GuiOnReady (delegate l) route code] else [])
           ++ (if bool_decide (final = NoError) then []
               else if bool_decide (final = NeedMoreMaps)
                    then [GuiOnNeedMoreMaps (delegate l) (routeId l) absent]
                    else [GuiOnRemoveRoute (delegate l) final]))
          ((if bool_decide (is_Some (absentFetcher l))
               && bool_decide (code <> Cancelled)
            then [EvGetAbsentCountries] else [])
           ++ [LogCode final (routing_and_fetch_time timer)])).
Proof.
  intros absent final. unfold Deliver.
  rewrite FetchAbsent_out. fold absent. fold final.
  unfold bind at 3. rewrite SecondaryDelivery_out.
  unfold when. destruct (bool_decide (code = NoError)); simpl;
    by rewrite ?app_nil_r.
Qed.

Lemma Catch_out (l : Locals) (route : Route) (msg : string) :
  Catch l route msg =
  Some (tt,
        mkOut [GuiSendStatisticsException (checkpoints l) (startDirection l) msg
                 (routingStatisticsCallback l) (routerName l);
               GuiOnReady (delegate l) route InternalError]
              [EvLog LERROR "Exception happened while calculating route:" None]).
Proof. reflexivity. Qed.

Lemma Conclude_Returns (timer : Timer) (l : Locals) (run : EngineRun)
    (code : RouterResultCode) :
  outcome run = Returns code ->
  exists post,
    Deliver timer l (route_after run) code = Some (tt, post)
    /\ Conclude timer l run =
       Some (tt, mkOut (scheduled post)
                   (LogCode code (routing_time timer) :: emitted post)).
Proof.
  intros Ho. unfold Conclude. rewrite Ho.
  pose proof (Deliver_out timer l (route_after run) code) as Hd.
  simpl in Hd. rewrite Hd. eexists. split; reflexivity.
Qed.

Lemma Conclude_Throws (timer : Timer) (l : Locals) (run : EngineRun)
    (msg : string) :
  outcome run = Throws msg ->
  Conclude timer l run = Catch l (route_after run) msg.
Proof. intros Ho. unfold Conclude. by rewrite Ho. Qed.

Lemma Conclude_total (timer : Timer) (l : Locals) (run : EngineRun) :
  exists post, Conclude timer l run = Some (tt, post).
Proof.
  destruct (outcome run) as [code|msg] eqn:Ho.
  - destruct (Conclude_Returns timer l run code Ho) as (post & _ & ->).
    by eexists.
  - rewrite (Conclude_Throws timer l run msg Ho), Catch_out. by eexists.
Qed.

Lemma Execute_eq (dbg : bool) (heap : list RouterDelegateProxy.t)
    (timer : Timer) (l : Locals) (proxy : RouterDelegateProxy.t)
    (run : EngineRun) (post : Out) :
  heap !! delegate l = Some proxy ->
  engine_run heap l = Some run ->
  Conclude timer l run = Some (tt, post) ->
  Execute dbg heap timer l =
  match for_each (listener dbg proxy) (reported run) with
  | Some (_, pre) =>
      Some (tt, mkOut (scheduled pre ++ scheduled post)
                  (prologue l proxy ++ emitted pre ++ emitted post))
  | None => None
  end.
Proof.
  intros Hp Hr Hc. unfold engine_run in Hr. rewrite Hp in Hr.
  injection Hr as <-. unfold Execute, prologue. rewrite Hp. simpl.
  rewrite Hc.
  destruct (for_each _ _) as [[[] pre]|]; simpl.
  - destruct (bool_decide (is_Some (absentFetcher l))); simpl;
      by rewrite ?app_nil_r.
  - by destruct (bool_decide (is_Some (absentFetcher l))).
Qed.

Lemma Execute_inv (dbg : bool) (heap : list RouterDelegateProxy.t)
    (timer : Timer) (l : Locals) (out : Out) :
  Execute dbg heap timer l = Some (tt, out) ->
  exists proxy run pre post,
    heap !! delegate l = Some proxy
    /\ engine_run heap l = Some run
    /\ for_each (listener dbg proxy) (reported run) = Some (tt, pre)
    /\ Conclude timer l run = Some (tt, post)
    /\ scheduled out = scheduled pre ++ scheduled post
    /\ emitted out = prologue l proxy ++ emitted post.
Proof.
  intros H.
  destruct (heap !! delegate l) as [proxy|] eqn:Hp;
    [|by unfold Execute in H; rewrite Hp in H].
  assert (exists run, engine_run heap l = Some run) as [run Hr]
    by (unfold engine_run; rewrite Hp; by eexists).
  destruct (Conclude_total timer l run) as [post Hc].
  rewrite (Execute_eq dbg heap timer l proxy run post Hp Hr Hc) in H.
  destruct (for_each _ _) as [[[] pre]|] eqn:Hl; [|done].
  injection H as <-. exists proxy, run, pre, post.
  destruct (listeners_out dbg proxy _ pre Hl) as [_ He].
  simpl. by rewrite He.
Qed.

Lemma CalculateRoute_inv (dbg : bool) (timer : Timer) (w w' : World)
    (l : Locals) :
  Worker.CalculateRoute dbg timer w = Some w' ->
  (Snapshot (self w)).2 = Some l ->
  exists out,
    Execute dbg (heap w) timer l = Some (tt, out)
    /\ self w' = (Snapshot (self w)).1
    /\ heap w' = heap w
    /\ new_tasks w w' = scheduled out
    /\ new_events w w' = emitted out.
Proof.
  unfold Worker.CalculateRoute, new_tasks, new_events.
  destruct (Snapshot (self w)) as [a [l'|]]; simpl; [|done].
  intros H [= ->].
  destruct (Execute dbg (heap w) timer l) as [[[] out]|]; [|done].
  injection H as <-. exists out. simpl.
  by rewrite !drop_app_length.
Qed.

Lemma OnReady_tasks_app (t1 t2 : list UiTask) :
  OnReady_tasks (t1 ++ t2) = OnReady_tasks t1 ++ OnReady_tasks t2.
Proof. apply omap_app. Qed.

Lemma secondary_tasks_app (t1 t2 : list UiTask) :
  secondary_tasks (t1 ++ t2) = secondary_tasks t1 ++ secondary_tasks t2.
Proof. apply omap_app. Qed.

Lemma routes_handed_app (e1 e2 : list Event) :
  routes_handed (e1 ++ e2) = routes_handed e1 ++ routes_handed e2.
Proof. apply omap_app. Qed.

Lemma absent_fetches_app (e1 e2 : list Event) :
  absent_fetches (e1 ++ e2) = absent_fetches e1 + absent_fetches e2.
Proof. unfold absent_fetches. by rewrite omap_app, length_app. Qed.

(** An execution in which the engine returned, in full. *)
Lemma CalculateRoute_Returns (dbg : bool) (timer : Timer) (w w' : World)
    (l : Locals) (run : EngineRun) (code : RouterResultCode) :
  Worker.CalculateRoute dbg timer w = Some w' ->
  (Snapshot (self w)).2 = Some l ->
  engine_run (heap w) l = Some run ->
  outcome run = Returns code ->
  exists proxy pre,
    heap w !! delegate l = Some proxy
    /\ Forall listener_task pre
    /\ new_tasks w w' =
       pre
       ++ [GuiSendStatistics (checkpoints l) (startDirection l) code
             (GetTotalDistanceMeters (route_after run)) (routing_time timer)
             (routingStatisticsCallback l) (routerName l)]
       ++ (if bool_decide (code = NoError)
           then [GuiOnReady (delegate l) (route_after run) code] else [])
       ++ (if bool_decide (Upgrade (drained l code) code = NoError) then []
           else if bool_decide (Upgrade (drained l code) code = NeedMoreMaps)
                then [GuiOnNeedMoreMaps (delegate l) (routeId l)
                        (drained l code)]
                else [GuiOnRemoveRoute (delegate l)
                        (Upgrade (drained l code) code)])
    /\ new_events w w' =
       prologue l proxy
       ++ [LogCode code (routing_time timer)]
       ++ (if bool_decide (is_Some (absentFetcher l))
              && bool_decide (code <> Cancelled)
           then [EvGetAbsentCountries] else [])
       ++ [LogCode (Upgrade (drained l code) code)
             (routing_and_fetch_time timer)].
Proof.
  intros Hc Hs Hr Ho.
  destruct (CalculateRoute_inv dbg timer w w' l Hc Hs)
    as (out & He & _ & _ & -> & ->).
  destruct (Execute_inv dbg _ timer l out He)
    as (proxy & run' & pre & post & Hp & Hr' & Hl & Hpost & -> & ->).
  rewrite Hr in Hr'. injection Hr' as <-.
  destruct (Conclude_Returns timer l run code Ho) as (post' & Hd & Hc').
  rewrite Hc' in Hpost. injection Hpost as <-.
  pose proof (Deliver_out timer l (route_after run) code) as Hd'.
  cbv zeta in Hd'. rewrite Hd' in Hd. injection Hd as <-.
  exists proxy, (scheduled pre).
  split; [exact Hp|]. split; [exact (proj1 (listeners_out _ _ _ _ Hl))|].
  split; reflexivity.
Qed.

(** An execution in which the engine threw, in full. *)
Lemma CalculateRoute_Throws (dbg : bool) (timer : Timer) (w w' : World)
    (l : Locals) (run : EngineRun) (msg : string) :
  Worker.CalculateRoute dbg timer w = Some w' ->
  (Snapshot (self w)).2 = Some l ->
  engine_run (heap w) l = Some run ->
  outcome run = Throws msg ->
  exists proxy pre,
    heap w !! delegate l = Some proxy
    /\ Forall listener_task pre
    /\ new_tasks w w' =
       pre
       ++ [GuiSendStatisticsException (checkpoints l) (startDirection l) msg
             (routingStatisticsCallback l) (routerName l);
           GuiOnReady (delegate l) (route_after run) InternalError]
    /\ new_events w w' =
       prologue l proxy
       ++ [EvLog LERROR "Exception happened while calculating route:" None].
Proof.
  intros Hc Hs Hr Ho.
  destruct (CalculateRoute_inv dbg timer w w' l Hc Hs)
    as (out & He & _ & _ & -> & ->).
  destruct (Execute_inv dbg _ timer l out He)
    as (proxy & run' & pre & post & Hp & Hr' & Hl & Hpost & -> & ->).
  rewrite Hr in Hr'. injection Hr' as <-.
  rewrite (Conclude_Throws timer l run msg Ho), Catch_out in Hpost.
  injection Hpost as <-.
  exists proxy, (scheduled pre).
  split; [exact Hp|]. split; [exact (proj1 (listeners_out _ _ _ _ Hl))|].
  split; reflexivity.
Qed.

Lemma routes_handed_prologue (l : Locals) (proxy : RouterDelegateProxy.t) :
  routes_handed (prologue l proxy) =
  [new_Route (IRouter.GetName (router l)) (routeId l)].
Proof. unfold prologue. by destruct (bool_decide _). Qed.

Lemma absent_fetches_prologue (l : Locals) (proxy : RouterDelegateProxy.t) :
  absent_fetches (prologue l proxy) = 0.
Proof. unfold prologue. by destruct (bool_decide _). Qed.

Lemma routes_handed_LogCode (code : RouterResultCode) (t : double) :
  routes_handed [LogCode code t] = [].
Proof. by destruct code. Qed.

Lemma absent_fetches_LogCode (code : RouterResultCode) (t : double) :
  absent_fetches [LogCode code t] = 0.
Proof. by destruct code. Qed.

End WorkerBody.

(** C2 (as amended): in an execution of the worker's [CalculateRoute()] that
    reaches the engine, exactly one [OnReady] closure is posted when the
    engine returns [NoError], exactly one, with [InternalError], when it
    throws, and none for any other code; the closure holds the proxy of the
    request and the route object as the engine left it. *)
Theorem OnReady_scheduled_once (dbg : bool) (timer : Timer)
    (w w' : AsyncRouter.World) (l : Worker.Locals) (run : EngineRun) :
  Worker.CalculateRoute dbg timer w = Some w' ->
  (Worker.Snapshot (AsyncRouter.self w)).2 = Some l ->
  engine_run (AsyncRouter.heap w) l = Some run ->
  OnReady_tasks (new_tasks w w') =
  match outcome run with
  | Returns NoError => [(Worker.delegate l, route_after run, NoError)]
  | Returns _ => []
  | Throws _ => [(Worker.delegate l, route_after run, InternalError)]
  end.
Proof.
  intros Hc Hs Hr.
  destruct (CalculateRoute_inv dbg timer w w' l Hc Hs)
    as (out & He & _ & _ & -> & _).
  destruct (Execute_inv dbg _ timer l out He)
    as (proxy & run' & pre & post & Hp & Hr' & Hl & Hpost & -> & _).
  rewrite Hr in Hr'. injection Hr' as <-.
  rewrite OnReady_tasks_app.
  rewrite (listener_tasks_OnReady _ (proj1 (listeners_out dbg proxy _ pre Hl))).
  simpl. destruct (outcome run) as [code|msg] eqn:Ho.
  - destruct (Conclude_Returns timer l run code Ho) as (post' & Hd & Hc').
    rewrite Hc' in Hpost. injection Hpost as <-. simpl.
    pose proof (Deliver_out timer l (route_after run) code) as Hd'.
    simpl in Hd'. rewrite Hd' in Hd. injection Hd as <-. simpl.
    generalize (Worker.Upgrade (drained l code) code). intros final.
    destruct code; simpl; by destruct final.
  - rewrite (Conclude_Throws timer l run msg Ho), Catch_out in Hpost.
    by injection Hpost as <-.
Qed.

Lemma OnReady_scheduled_once_witness :
  Worker.CalculateRoute false Scenario.timer
    (Scenario.pending Scenario.vehicle (Some Scenario.fetcher))
  = Some (Scenario.served Scenario.vehicle (Some Scenario.fetcher))
  /\ (Worker.Snapshot
        (AsyncRouter.self
           (Scenario.pending Scenario.vehicle (Some Scenario.fetcher)))).2
     = Some (Scenario.locals Scenario.vehicle (Some Scenario.fetcher))
  /\ engine_run
       (AsyncRouter.heap
          (Scenario.pending Scenario.vehicle (Some Scenario.fetcher)))
       (Scenario.locals Scenario.vehicle (Some Scenario.fetcher))
     = Some (Scenario.call Scenario.vehicle)
  /\ OnReady_tasks
       (new_tasks (Scenario.pending Scenario.vehicle (Some Scenario.fetcher))
          (Scenario.served Scenario.vehicle (Some Scenario.fetcher)))
     = [(0, mkRoute "vehicle" 1 1200%float, NoError)].
Proof.
  assert (Worker.CalculateRoute false Scenario.timer
            (Scenario.pending Scenario.vehicle (Some Scenario.fetcher))
          = Some (Scenario.served Scenario.vehicle (Some Scenario.fetcher)))
    as Hc by (vm_compute; reflexivity).
  assert ((Worker.Snapshot
             (AsyncRouter.self
                (Scenario.pending Scenario.vehicle (Some Scenario.fetcher)))).2
          = Some (Scenario.locals Scenario.vehicle (Some Scenario.fetcher)))
    as Hs by (vm_compute; reflexivity).
  assert (engine_run
            (AsyncRouter.heap
               (Scenario.pending Scenario.vehicle (Some Scenario.fetcher)))
            (Scenario.locals Scenario.vehicle (Some Scenario.fetcher))
          = Some (Scenario.call Scenario.vehicle))
    as Hr by (vm_compute; reflexivity).
  split; [exact Hc|]. split; [exact Hs|]. split; [exact Hr|].
  exact (OnReady_scheduled_once false Scenario.timer _ _ _ _ Hc Hs Hr).
Defined.

(** C2 as stated fails: were the [OnReady] closure of the exception path to
    hold the route as constructed, an engine that has written to the route
    when it throws would not be possible; [Scenario.faulty] is one. *)
Lemma OnReady_after_throw_holds_written_route :
  ~ (forall (dbg : bool) (timer : Timer) (w w' : AsyncRouter.World)
            (l : Worker.Locals) (run : EngineRun),
        Worker.CalculateRoute dbg timer w = Some w' ->
        (Worker.Snapshot (AsyncRouter.self w)).2 = Some l ->
        engine_run (AsyncRouter.heap w) l = Some run ->
        OnReady_tasks (new_tasks w w') =
        match outcome run with
        | Returns NoError => [(Worker.delegate l, route_after run, NoError)]
        | Returns _ => []
        | Throws _ =>
            [(Worker.delegate l,
              new_Route (IRouter.GetName (Worker.router l)) (Worker.routeId l),
              InternalError)]
        end).
Proof.
  intros H.
  assert (Worker.CalculateRoute false Scenario.timer
            (Scenario.pending Scenario.faulty None)
          = Some (Scenario.served Scenario.faulty None))
    as Hc by (vm_compute; reflexivity).
  assert ((Worker.Snapshot
             (AsyncRouter.self (Scenario.pending Scenario.faulty None))).2
          = Some (Scenario.locals Scenario.faulty None))
    as Hs by (vm_compute; reflexivity).
  assert (engine_run (AsyncRouter.heap (Scenario.pending Scenario.faulty None))
            (Scenario.locals Scenario.faulty None)
          = Some (Scenario.call Scenario.faulty))
    as Hr by (vm_compute; reflexivity).
  specialize (H false Scenario.timer _ _ _ _ Hc Hs Hr).
  apply (f_equal (fun tasks =>
                    match tasks with
                    | [(_, route, _)] =>
                        PrimFloat.eqb (GetTotalDistanceMeters route) 0%float
                    | _ => true
                    end)) in H.
  vm_compute in H. discriminate H.
Qed.

(** C3: in an execution in which the engine returned [code], with [absent]
    the list after the absent-countries step and [final] the code after the
    upgrade, no [OnNeedMoreMaps] or [OnRemoveRoute] closure is posted when
    [final] is [NoError]; otherwise exactly one is:
    [OnNeedMoreMaps(routeId, absent)] when [final] is [NeedMoreMaps], else
    [OnRemoveRoute(final)]; and [routeId] is the id the route object handed
    to the engine was constructed with. *)
Theorem secondary_delivery (dbg : bool) (timer : Timer)
    (w w' : AsyncRouter.World) (l : Worker.Locals) (run : EngineRun)
    (code : RouterResultCode) :
  Worker.CalculateRoute dbg timer w = Some w' ->
  (Worker.Snapshot (AsyncRouter.self w)).2 = Some l ->
  engine_run (AsyncRouter.heap w) l = Some run ->
  outcome run = Returns code ->
  let absent := drained l code in
  let final := Worker.Upgrade absent code in
  secondary_tasks (new_tasks w w') =
    (if decide (final = NoError) then []
     else if decide (final = NeedMoreMaps)
          then [GuiOnNeedMoreMaps (Worker.delegate l) (Worker.routeId l) absent]
          else [GuiOnRemoveRoute (Worker.delegate l) final])
  /\ routes_handed (new_events w w') =
       [new_Route (IRouter.GetName (Worker.router l)) (Worker.routeId l)]
  /\ route_id (new_Route (IRouter.GetName (Worker.router l)) (Worker.routeId l))
     = Worker.routeId l.
Proof.
  intros Hc Hs Hr Ho absent final.
  destruct (CalculateRoute_Returns dbg timer w w' l run code Hc Hs Hr Ho)
    as (proxy & pre & _ & Hpre & -> & ->).
  fold absent. fold final.
  split; [|split; [|reflexivity]].
  - rewrite !secondary_tasks_app, (listener_tasks_secondary _ Hpre).
    assert (secondary_tasks
              (if bool_decide (code = NoError)
               then [GuiOnReady (Worker.delegate l) (route_after run) code]
               else []) = []) as -> by by destruct (bool_decide _).
    simpl. destruct (decide (final = NoError)) as [E|N].
    + by rewrite bool_decide_eq_true_2.
    + rewrite bool_decide_eq_false_2 by done.
      destruct (decide (final = NeedMoreMaps)).
      * by rewrite bool_decide_eq_true_2.
      * by rewrite bool_decide_eq_false_2.
  - rewrite !routes_handed_app, routes_handed_prologue, !routes_handed_LogCode.
    by destruct (_ && _).
Qed.

Lemma secondary_delivery_witness :
  Worker.CalculateRoute false Scenario.timer
    (Scenario.pending Scenario.vehicle (Some Scenario.fetcher))
  = Some (Scenario.served Scenario.vehicle (Some Scenario.fetcher))
  /\ (Worker.Snapshot
        (AsyncRouter.self
           (Scenario.pending Scenario.vehicle (Some Scenario.fetcher)))).2
     = Some (Scenario.locals Scenario.vehicle (Some Scenario.fetcher))
  /\ engine_run
       (AsyncRouter.heap
          (Scenario.pending Scenario.vehicle (Some Scenario.fetcher)))
       (Scenario.locals Scenario.vehicle (Some Scenario.fetcher))
     = Some (Scenario.call Scenario.vehicle)
  /\ outcome (Scenario.call Scenario.vehicle) = Returns NoError
  /\ secondary_tasks
       (new_tasks (Scenario.pending Scenario.vehicle (Some Scenario.fetcher))
          (Scenario.served Scenario.vehicle (Some Scenario.fetcher)))
     = [GuiOnNeedMoreMaps 0 1 ["US_California"; "US_Nevada"]].
Proof.
  assert (Worker.CalculateRoute false Scenario.timer
            (Scenario.pending Scenario.vehicle (Some Scenario.fetcher))
          = Some (Scenario.served Scenario.vehicle (Some Scenario.fetcher)))
    as Hc by (vm_compute; reflexivity).
  assert ((Worker.Snapshot
             (AsyncRouter.self
                (Scenario.pending Scenario.vehicle (Some Scenario.fetcher)))).2
          = Some (Scenario.locals Scenario.vehicle (Some Scenario.fetcher)))
    as Hs by (vm_compute; reflexivity).
  assert (engine_run
            (AsyncRouter.heap
               (Scenario.pending Scenario.vehicle (Some Scenario.fetcher)))
            (Scenario.locals Scenario.vehicle (Some Scenario.fetcher))
          = Some (Scenario.call Scenario.vehicle))
    as Hr by (vm_compute; reflexivity).
  assert (outcome (Scenario.call Scenario.vehicle) = Returns NoError)
    as Ho by reflexivity.
  split; [exact Hc|]. split; [exact Hs|]. split; [exact Hr|].
  split; [exact Ho|].
  exact (proj1 (secondary_delivery false Scenario.timer _ _ _ _ _ Hc Hs Hr Ho)).
Defined.

(** C4: in an execution in which the engine returned [code], the fetcher's
    [GetAbsentCountries] is called (once) exactly when a fetcher is present
    and [code] is not [Cancelled]; the list [absent] is its reply then and
    empty otherwise; and the code the body goes on with, which its last log
    line shows, differs from [code] exactly when [absent] is not empty and
    [code] is [NoError], and is [NeedMoreMaps] then. *)
Theorem absent_fetch_and_upgrade (dbg : bool) (timer : Timer)
    (w w' : AsyncRouter.World) (l : Worker.Locals) (run : EngineRun)
    (code : RouterResultCode) :
  Worker.CalculateRoute dbg timer w = Some w' ->
  (Worker.Snapshot (AsyncRouter.self w)).2 = Some l ->
  engine_run (AsyncRouter.heap w) l = Some run ->
  outcome run = Returns code ->
  let absent := drained l code in
  let final := Worker.Upgrade absent code in
  (absent_fetches (new_events w w') = 1 <->
   is_Some (Worker.absentFetcher l) /\ code <> Cancelled)
  /\ (absent_fetches (new_events w w') = 0 <->
      ~ (is_Some (Worker.absentFetcher l) /\ code <> Cancelled))
  /\ absent =
     match Worker.absentFetcher l with
     | Some fetcher =>
         if decide (code <> Cancelled)
         then IOnlineFetcher.GetAbsentCountries fetcher (Worker.checkpoints l)
         else []
     | None => []
     end
  /\ last (new_events w w') =
     Some (AsyncRouter.LogCode final (routing_and_fetch_time timer))
  /\ (final <> code <-> absent <> [] /\ code = NoError)
  /\ (final <> code -> final = NeedMoreMaps).
Proof.
  intros Hc Hs Hr Ho absent final.
  destruct (CalculateRoute_Returns dbg timer w w' l run code Hc Hs Hr Ho)
    as (proxy & pre & _ & _ & _ & ->).
  fold absent. fold final.
  assert (absent_fetches
            (Worker.prologue l proxy
             ++ [AsyncRouter.LogCode code (routing_time timer)]
             ++ (if bool_decide (is_Some (Worker.absentFetcher l))
                    && bool_decide (code <> Cancelled)
                 then [EvGetAbsentCountries] else [])
             ++ [AsyncRouter.LogCode final (routing_and_fetch_time timer)])
          = if bool_decide (is_Some (Worker.absentFetcher l))
               && bool_decide (code <> Cancelled)
            then 1 else 0) as Hn.
  { rewrite !absent_fetches_app, absent_fetches_prologue,
      !absent_fetches_LogCode.
    by destruct (_ && _). }
  rewrite Hn. clear Hn.
  split; [|split; [|split; [|split; [|split]]]].
  - destruct (bool_decide (is_Some (Worker.absentFetcher l))) eqn:Ef;
      destruct (bool_decide (code <> Cancelled)) eqn:Ec; simpl;
      try apply bool_decide_eq_true in Ef; try apply bool_decide_eq_true in Ec;
      try apply bool_decide_eq_false in Ef;
      try apply bool_decide_eq_false in Ec; split; try done; tauto.
  - destruct (bool_decide (is_Some (Worker.absentFetcher l))) eqn:Ef;
      destruct (bool_decide (code <> Cancelled)) eqn:Ec; simpl;
      try apply bool_decide_eq_true in Ef; try apply bool_decide_eq_true in Ec;
      try apply bool_decide_eq_false in Ef;
      try apply bool_decide_eq_false in Ec; split; try done; tauto.
  - unfold absent. rewrite drained_eq.
    destruct (Worker.absentFetcher l); [|done].
    destruct (decide (code <> Cancelled)).
    + by rewrite bool_decide_eq_true_2.
    + by rewrite bool_decide_eq_false_2.
  - by rewrite !app_assoc, last_snoc.
  - unfold final, Worker.Upgrade.
    destruct absent as [|region absent']; simpl.
    + split; [done|]. by intros [? _].
    + destruct (decide (code = NoError)) as [->|N].
      * done.
      * rewrite bool_decide_eq_false_2 by done. split; [done|]. by intros [_ ?].
  - unfold final, Worker.Upgrade.
    destruct (negb _ && _); done.
Qed.

Lemma absent_fetch_and_upgrade_witness :
  Worker.CalculateRoute false Scenario.timer
    (Scenario.pending Scenario.vehicle (Some Scenario.fetcher))
  = Some (Scenario.served Scenario.vehicle (Some Scenario.fetcher))
  /\ (Worker.Snapshot
        (AsyncRouter.self
           (Scenario.pending Scenario.vehicle (Some Scenario.fetcher)))).2
     = Some (Scenario.locals Scenario.vehicle (Some Scenario.fetcher))
  /\ engine_run
       (AsyncRouter.heap
          (Scenario.pending Scenario.vehicle (Some Scenario.fetcher)))
       (Scenario.locals Scenario.vehicle (Some Scenario.fetcher))
     = Some (Scenario.call Scenario.vehicle)
  /\ outcome (Scenario.call Scenario.vehicle) = Returns NoError
  /\ last (new_events
             (Scenario.pending Scenario.vehicle (Some Scenario.fetcher))
             (Scenario.served Scenario.vehicle (Some Scenario.fetcher)))
     = Some (AsyncRouter.LogCode NeedMoreMaps 2%float).
Proof.
  assert (Worker.CalculateRoute false Scenario.timer
            (Scenario.pending Scenario.vehicle (Some Scenario.fetcher))
          = Some (Scenario.served Scenario.vehicle (Some Scenario.fetcher)))
    as Hc by (vm_compute; reflexivity).
  assert ((Worker.Snapshot
             (AsyncRouter.self
                (Scenario.pending Scenario.vehicle (Some Scenario.fetcher)))).2
          = Some (Scenario.locals Scenario.vehicle (Some Scenario.fetcher)))
    as Hs by (vm_compute; reflexivity).
  assert (engine_run
            (AsyncRouter.heap
               (Scenario.pending Scenario.vehicle (Some Scenario.fetcher)))
            (Scenario.locals Scenario.vehicle (Some Scenario.fetcher))
          = Some (Scenario.call Scenario.vehicle))
    as Hr by (vm_compute; reflexivity).
  assert (outcome (Scenario.call Scenario.vehicle) = Returns NoError)
    as Ho by reflexivity.
  split; [exact Hc|]. split; [exact Hs|]. split; [exact Hr|].
  split; [exact Ho|].
  exact (proj1 (proj2 (proj2 (proj2
    (absent_fetch_and_upgrade false Scenario.timer _ _ _ _ _ Hc Hs Hr Ho))))).
Defined.

(** ** Cancelling the active delegate *)

Section ActiveDelegate.
Import AsyncRouter.

Lemma ResetDelegate_no_delegate (w : World) :
  m_delegate (self (ResetDelegate w)) = None.
Proof.
  unfold ResetDelegate. by destruct (m_delegate (self w)) eqn:E.
Qed.

Lemma ResetDelegate_queue (w : World) :
  gui (ResetDelegate w) = gui w /\ log (ResetDelegate w) = log w
  /\ length (heap (ResetDelegate w)) = length (heap w).
Proof.
  unfold ResetDelegate. destruct (m_delegate (self w)); simpl; [|done].
  by rewrite length_alter.
Qed.

(** The proxy that was active is the same object with its flag set. *)
Lemma ResetDelegate_cancels (w : World) (d : Handle)
    (p : RouterDelegateProxy.t) :
  m_delegate (self w) = Some d ->
  heap w !! d = Some p ->
  heap (ResetDelegate w) !! d = Some (RouterDelegateProxy.Cancel p).
Proof.
  intros Hd Hp. unfold ResetDelegate. rewrite Hd. cbn [heap].
  by rewrite list_lookup_alter_eq, Hp.
Qed.

(** The other proxies are not touched. *)
Lemma ResetDelegate_others (w : World) (d : Handle) :
  m_delegate (self w) <> Some d ->
  heap (ResetDelegate w) !! d = heap w !! d.
Proof.
  intros Hd. unfold ResetDelegate.
  destruct (m_delegate (self w)) as [d'|]; cbn [heap]; [|done].
  apply list_lookup_alter_ne. congruence.
Qed.

Lemma ResetDelegate_members (w : World) :
  self (ResetDelegate w) = set_delegate None (self w).
Proof.
  unfold ResetDelegate. destruct (m_delegate (self w)) eqn:E; [done|].
  destruct (self w); simpl in *. by rewrite E.
Qed.

Lemma clear_state_handling_heap (w : World) :
  heap (Worker.clear_state_handling w) = heap w.
Proof.
  unfold Worker.clear_state_handling.
  destruct (m_router (self w)); [|done]. by destruct (m_clearState (self w)).
Qed.

(** Once the proxy behind [d] is cancelled, a closure calling into it
    reaches no user callback. *)
Lemma run_task_cancelled (fmt : Formatting) (heap : list RouterDelegateProxy.t)
    (d : Handle) (p : RouterDelegateProxy.t) (task : UiTask) :
  heap !! d = Some p ->
  RouterDelegate_IsCancelled (RouterDelegateProxy.m_delegate p) = true ->
  calls_into d task = true ->
  run_task fmt heap task = [].
Proof.
  intros Hp Hc Ht.
  destruct task; simpl in Ht; try discriminate;
    apply bool_decide_eq_true in Ht; subst; simpl; rewrite Hp.
  - unfold RouterDelegateProxy.OnReady. rewrite Hc.
    by destruct (RouterDelegateProxy.m_onReadyOwnership p).
  - unfold RouterDelegateProxy.OnNeedMoreMaps. rewrite Hc.
    by destruct (RouterDelegateProxy.m_onNeedMoreMaps p).
  - unfold RouterDelegateProxy.OnRemoveRoute. rewrite Hc.
    by destruct (RouterDelegateProxy.m_removeRoute p).
Qed.

End ActiveDelegate.

(** ** Requests the worker does not execute *)

(** C8: when the worker finds a request but no engine or no active
    delegate, its [CalculateRoute()] returns having posted no closure and
    caused no event (no call of the engine or the fetcher, no user callback,
    no statistics); the has-request flag is cleared and nothing else of the
    dispatcher, the heap, the queue or the log has changed. *)
Theorem request_dropped_silently (dbg : bool) (timer : Timer)
    (w : AsyncRouter.World) :
  AsyncRouter.m_hasRequest (AsyncRouter.self w) = true ->
  AsyncRouter.m_router (AsyncRouter.self w) = None
  \/ AsyncRouter.m_delegate (AsyncRouter.self w) = None ->
  exists w',
    Worker.CalculateRoute dbg timer w = Some w'
    /\ new_tasks w w' = []
    /\ new_events w w' = []
    /\ AsyncRouter.m_hasRequest (AsyncRouter.self w') = false
    /\ w' = AsyncRouter.mkWorld
              (AsyncRouter.set_hasRequest false (AsyncRouter.self w))
              (AsyncRouter.heap w) (AsyncRouter.gui w) (AsyncRouter.log w).
Proof.
  intros Hreq Hmissing.
  assert (Worker.CalculateRoute dbg timer w
          = Some (AsyncRouter.mkWorld
                    (AsyncRouter.set_hasRequest false (AsyncRouter.self w))
                    (AsyncRouter.heap w) (AsyncRouter.gui w)
                    (AsyncRouter.log w))) as Hc.
  { unfold Worker.CalculateRoute, Worker.Snapshot. rewrite Hreq. simpl.
    destruct Hmissing as [Hr|Hd].
    - by rewrite Hr.
    - rewrite Hd. by destruct (AsyncRouter.m_router (AsyncRouter.self w)). }
  eexists. split; [exact Hc|].
  unfold new_tasks, new_events. simpl. by rewrite !drop_all.
Qed.

Lemma request_dropped_silently_witness :
  AsyncRouter.m_hasRequest
    (AsyncRouter.self (Scenario.submit Scenario.fresh)) = true
  /\ (AsyncRouter.m_router
        (AsyncRouter.self (Scenario.submit Scenario.fresh)) = None
      \/ AsyncRouter.m_delegate
           (AsyncRouter.self (Scenario.submit Scenario.fresh)) = None)
  /\ exists w',
       Worker.CalculateRoute false Scenario.timer
         (Scenario.submit Scenario.fresh) = Some w'
       /\ new_tasks (Scenario.submit Scenario.fresh) w' = []
       /\ new_events (Scenario.submit Scenario.fresh) w' = []
       /\ AsyncRouter.m_hasRequest (AsyncRouter.self w') = false
       /\ w' = AsyncRouter.mkWorld
                 (AsyncRouter.set_hasRequest false
                    (AsyncRouter.self (Scenario.submit Scenario.fresh)))
                 (AsyncRouter.heap (Scenario.submit Scenario.fresh))
                 (AsyncRouter.gui (Scenario.submit Scenario.fresh))
                 (AsyncRouter.log (Scenario.submit Scenario.fresh)).
Proof.
  assert (AsyncRouter.m_hasRequest
            (AsyncRouter.self (Scenario.submit Scenario.fresh)) = true)
    as Hreq by reflexivity.
  assert (AsyncRouter.m_router
            (AsyncRouter.self (Scenario.submit Scenario.fresh)) = None
          \/ AsyncRouter.m_delegate
               (AsyncRouter.self (Scenario.submit Scenario.fresh)) = None)
    as Hmissing by (left; reflexivity).
  split; [exact Hreq|]. split; [exact Hmissing|].
  exact (request_dropped_silently false Scenario.timer
           (Scenario.submit Scenario.fresh) Hreq Hmissing).
Defined.

(** C10: when the exit flag is set as the worker wakes, the turn ends the
    loop, whether or not a request is pending: the clear-state handling has
    run (the engine's [ClearState] is called and the flag reset when the
    flag was set and an engine is installed), and nothing else has happened:
    no closure is posted, the engine's [CalculateRoute] and the fetcher are
    not called, and the pending request is still in its slot.  After the
    destructor's part under the lock this is what the worker does, and the
    delegate that was active has been cancelled. *)
Theorem exit_precedes_request (dbg : bool) (timer : Timer)
    (w : AsyncRouter.World) :
  AsyncRouter.m_threadExit (AsyncRouter.self w) = true ->
  AsyncRouter.m_hasRequest (AsyncRouter.self w) = true ->
  Worker.ThreadFunc_turn dbg timer w = Worker.Breaks (Worker.clear_state_handling w)
  /\ new_tasks w (Worker.clear_state_handling w) = []
  /\ new_events w (Worker.clear_state_handling w) =
     match AsyncRouter.m_router (AsyncRouter.self w) with
     | Some router =>
         if AsyncRouter.m_clearState (AsyncRouter.self w)
         then [EvClearState (IRouter.GetName router)] else []
     | None => []
     end
  /\ AsyncRouter.m_hasRequest
       (AsyncRouter.self (Worker.clear_state_handling w)) = true
  /\ AsyncRouter.m_routeCounter
       (AsyncRouter.self (Worker.clear_state_handling w))
     = AsyncRouter.m_routeCounter (AsyncRouter.self w)
  /\ (is_Some (AsyncRouter.m_router (AsyncRouter.self w)) ->
      AsyncRouter.m_clearState
        (AsyncRouter.self (Worker.clear_state_handling w)) = false)
  /\ Worker.ThreadFunc dbg [timer] w
     = Some (true, Worker.clear_state_handling w)
  /\ (forall w0 : AsyncRouter.World,
        w = AsyncRouter.Destroy w0 ->
        AsyncRouter.m_delegate (AsyncRouter.self w) = None
        /\ forall d p,
             AsyncRouter.m_delegate (AsyncRouter.self w0) = Some d ->
             AsyncRouter.heap w0 !! d = Some p ->
             AsyncRouter.heap (Worker.clear_state_handling w) !! d
             = Some (RouterDelegateProxy.Cancel p)).
Proof.
  intros Hexit Hreq.
  assert (forall w0 : AsyncRouter.World,
        w = AsyncRouter.Destroy w0 ->
        AsyncRouter.m_delegate (AsyncRouter.self w) = None
        /\ forall d p,
             AsyncRouter.m_delegate (AsyncRouter.self w0) = Some d ->
             AsyncRouter.heap w0 !! d = Some p ->
             AsyncRouter.heap (Worker.clear_state_handling w) !! d
             = Some (RouterDelegateProxy.Cancel p)) as Hdestroy.
  { intros w0 ->. split.
    - unfold AsyncRouter.Destroy. simpl. apply ResetDelegate_no_delegate.
    - intros d p Hd Hp. rewrite clear_state_handling_heap.
      unfold AsyncRouter.Destroy. simpl.
      by apply ResetDelegate_cancels. }
  assert (Worker.ThreadFunc_turn dbg timer w
          = Worker.Breaks (Worker.clear_state_handling w)) as Hturn.
  { unfold Worker.ThreadFunc_turn. rewrite Hexit. simpl.
    unfold Worker.clear_state_handling.
    destruct (AsyncRouter.m_router (AsyncRouter.self w)); [|by rewrite Hexit].
    destruct (AsyncRouter.m_clearState (AsyncRouter.self w)); simpl;
      by rewrite Hexit. }
  split; [exact Hturn|].
  assert (Worker.ThreadFunc dbg [timer] w
          = Some (true, Worker.clear_state_handling w)) as Hthread
    by (simpl; by rewrite Hturn).
  split; [|split; [|split; [|split; [|split; [|split;
    [exact Hthread|exact Hdestroy]]]]]];
    clear Hturn Hthread Hdestroy;
    unfold new_tasks, new_events, Worker.clear_state_handling;
    destruct (AsyncRouter.m_router (AsyncRouter.self w)) as [router|];
    destruct (AsyncRouter.m_clearState (AsyncRouter.self w)) eqn:Ec; simpl;
    rewrite ?drop_all, ?drop_app_length, ?Ec; try done;
    by intros [? ?].
Qed.

(** ** The dispatcher's members around an execution *)

Section Frame.
Import AsyncRouter.

Lemma Snapshot_Some (a a' : t) (l : Worker.Locals) :
  Worker.Snapshot a = (a', Some l) ->
  a' = set_routeCounter (uint64_incr (m_routeCounter a)) (set_hasRequest false a)
  /\ m_hasRequest a = true
  /\ m_delegate a = Some (Worker.delegate l)
  /\ m_router a = Some (Worker.router l)
  /\ Worker.routeId l = uint64_incr (m_routeCounter a).
Proof.
  unfold Worker.Snapshot.
  destruct (m_hasRequest a) eqn:Hreq; simpl; [|done].
  destruct (m_router a) as [router|] eqn:Hr; [|done].
  destruct (m_delegate a) as [d|] eqn:Hd; [|done].
  by intros [= <- <-].
Qed.

Lemma Snapshot_None (a a' : t) :
  Worker.Snapshot a = (a', None) -> a' = set_hasRequest false a.
Proof.
  unfold Worker.Snapshot.
  destruct (negb (m_hasRequest a)); [by intros [= <-]|].
  simpl. destruct (m_router a); [|by intros [= <-]].
  destruct (m_delegate a); [done|by intros [= <-]].
Qed.

(** A call that begins with [ResetDelegate] leaves the queue alone and sets
    the flag of the proxy that was active. *)
Lemma cancelling_call (dbg : bool) (fmt : Formatting) (act : Action)
    (w w' : World) (d : nat) (p : RouterDelegateProxy.t) :
  cancels_delegate act = true ->
  step dbg fmt act w = Some w' ->
  m_delegate (self w) = Some d ->
  heap w !! d = Some p ->
  gui w' = gui w /\ heap w' !! d = Some (RouterDelegateProxy.Cancel p).
Proof.
  intros Hact Hstep Hd Hp.
  destruct act; try discriminate; simpl in Hstep; injection Hstep as <-.
  - unfold SetRouter. simpl.
    split; [apply ResetDelegate_queue|by apply ResetDelegate_cancels].
  - unfold AsyncRouter.CalculateRoute. cbn [gui heap].
    pose proof (ResetDelegate_queue
                  (mkWorld (set_request checkpoints direction adjustToPrevRoute
                              (self w)) (heap w) (gui w) (log w)))
      as (Hgui & _ & Hlen).
    split; [exact Hgui|].
    rewrite lookup_app_l.
    + by apply ResetDelegate_cancels.
    + rewrite Hlen. simpl. by apply lookup_lt_Some in Hp.
  - unfold ClearState.
    split; [exact (proj1 (ResetDelegate_queue _))|].
    by apply ResetDelegate_cancels.
Qed.

End Frame.

(** C9 (as amended): the block under the lock copies the request slot.  After
    an executed request the dispatcher's members are the ones before with
    the has-request flag cleared and the route counter incremented, so
    checkpoints, start direction, adjust flag, engine, fetcher and active
    delegate are unchanged, and so is the heap.  The proxy of the finished
    request is still the active delegate; the next [CalculateRoute],
    [SetRouter] or [ClearState] sets its flag, and then every closure still
    in the queue that calls into it reaches no user callback, while a queued
    progress or point-check closure, which holds a copy of the callback,
    still calls it. *)
Theorem snapshot_copies_delegate_stays (dbg : bool) (fmt : Formatting)
    (timer : Timer) (w w' : AsyncRouter.World) (l : Worker.Locals) :
  Worker.CalculateRoute dbg timer w = Some w' ->
  (Worker.Snapshot (AsyncRouter.self w)).2 = Some l ->
  (Worker.Snapshot (AsyncRouter.self w)).1 = AsyncRouter.self w'
  /\ AsyncRouter.self w' =
     AsyncRouter.set_routeCounter
       (uint64_incr (AsyncRouter.m_routeCounter (AsyncRouter.self w)))
       (AsyncRouter.set_hasRequest false (AsyncRouter.self w))
  /\ AsyncRouter.m_checkpoints (AsyncRouter.self w')
     = AsyncRouter.m_checkpoints (AsyncRouter.self w)
  /\ AsyncRouter.m_startDirection (AsyncRouter.self w')
     = AsyncRouter.m_startDirection (AsyncRouter.self w)
  /\ AsyncRouter.m_adjustToPrevRoute (AsyncRouter.self w')
     = AsyncRouter.m_adjustToPrevRoute (AsyncRouter.self w)
  /\ AsyncRouter.m_router (AsyncRouter.self w')
     = AsyncRouter.m_router (AsyncRouter.self w)
  /\ AsyncRouter.m_absentFetcher (AsyncRouter.self w')
     = AsyncRouter.m_absentFetcher (AsyncRouter.self w)
  /\ AsyncRouter.m_delegate (AsyncRouter.self w') = Some (Worker.delegate l)
  /\ AsyncRouter.m_delegate (AsyncRouter.self w)  = Some (Worker.delegate l)
  /\ AsyncRouter.m_hasRequest (AsyncRouter.self w') = false
  /\ AsyncRouter.heap w' = AsyncRouter.heap w
  /\ forall (act : Action) (w'' : AsyncRouter.World),
       cancels_delegate act = true ->
       step dbg fmt act w' = Some w'' ->
       AsyncRouter.gui w'' = AsyncRouter.gui w'
       /\ (exists p,
             AsyncRouter.heap w'' !! Worker.delegate l = Some p
             /\ RouterDelegate_IsCancelled (RouterDelegateProxy.m_delegate p)
                = true)
       /\ (forall task,
             task ∈ AsyncRouter.gui w'' ->
             calls_into (Worker.delegate l) task = true ->
             run_task fmt (AsyncRouter.heap w'') task = [])
       /\ (forall task,
             task ∈ AsyncRouter.gui w'' ->
             listener_task task ->
             exists call, run_task fmt (AsyncRouter.heap w'') task = [call]).
Proof.
  intros Hc Hs.
  destruct (CalculateRoute_inv dbg timer w w' l Hc Hs)
    as (out & He & Hself & Hheap & _ & _).
  destruct (Execute_inv dbg _ timer l out He)
    as (proxy & _ & _ & _ & Hp & _).
  destruct (Worker.Snapshot (AsyncRouter.self w)) as [a ol] eqn:Hsnap.
  simpl in Hs, Hself. subst ol.
  destruct (Snapshot_Some _ _ _ Hsnap) as (Ha & Hreq & Hd & Hr & Hid).
  rewrite Hself, Ha.
  repeat (split; [done|]).
  intros act w'' Hact Hstep.
  assert (AsyncRouter.m_delegate (AsyncRouter.self w')
          = Some (Worker.delegate l)) as Hd' by by rewrite Hself, Ha.
  rewrite <- Hheap in Hp.
  destruct (cancelling_call dbg fmt act w' w'' _ proxy Hact Hstep Hd' Hp)
    as [Hgui Hcancel].
  split; [exact Hgui|]. split; [by eexists|]. split.
  - intros task _ Hcalls.
    by apply (run_task_cancelled fmt _ (Worker.delegate l)
                (RouterDelegateProxy.Cancel proxy)).
  - intros task _ Hlistener.
    destruct task; simpl in Hlistener; try contradiction; by eexists.
Qed.

Lemma snapshot_copies_delegate_stays_witness :
  Worker.CalculateRoute false Scenario.timer
    (Scenario.pending Scenario.vehicle None)
  = Some (Scenario.served Scenario.vehicle None)
  /\ (Worker.Snapshot
        (AsyncRouter.self (Scenario.pending Scenario.vehicle None))).2
     = Some (Scenario.locals Scenario.vehicle None)
  /\ AsyncRouter.m_delegate
       (AsyncRouter.self (Scenario.served Scenario.vehicle None))
     = Some 0
  /\ AsyncRouter.heap (Scenario.served Scenario.vehicle None)
     = AsyncRouter.heap (Scenario.pending Scenario.vehicle None).
Proof.
  assert (Worker.CalculateRoute false Scenario.timer
            (Scenario.pending Scenario.vehicle None)
          = Some (Scenario.served Scenario.vehicle None))
    as Hc by (vm_compute; reflexivity).
  assert ((Worker.Snapshot
             (AsyncRouter.self (Scenario.pending Scenario.vehicle None))).2
          = Some (Scenario.locals Scenario.vehicle None))
    as Hs by (vm_compute; reflexivity).
  split; [exact Hc|]. split; [exact Hs|].
  pose proof (snapshot_copies_delegate_stays false Scenario.fmt Scenario.timer
                _ _ _ Hc Hs) as H.
  split; [exact (proj1 (proj2 (proj2 (proj2 (proj2 (proj2 (proj2 (proj2 H))))))))|].
  exact (proj1 (proj2 (proj2 (proj2 (proj2 (proj2 (proj2 (proj2 (proj2
           (proj2 (proj2 H))))))))))).
Defined.

(** C9 as stated fails: the engine [Scenario.vehicle] reports progress once,
    so the queue of the served request begins with a progress closure.  The
    next [CalculateRoute] cancels the proxy of that request (handle 0, with
    the progress callback 4) and leaves the closure where it is; when the GUI
    thread runs it, callback 4 is called. *)
Lemma progress_closure_outlives_cancel :
  AsyncRouter.m_delegate
    (AsyncRouter.self (Scenario.served Scenario.vehicle None)) = Some 0
  /\ (RouterDelegateProxy.m_onProgress
        <$> AsyncRouter.heap Scenario.resubmitted !! 0) = Some (Some 4)
  /\ (RouterDelegate_IsCancelled
        <$> (RouterDelegateProxy.m_delegate
               <$> AsyncRouter.heap Scenario.resubmitted !! 0)) = Some true
  /\ head (AsyncRouter.gui Scenario.resubmitted)
     = Some (GuiProgress 4 0.5%float)
  /\ new_events Scenario.resubmitted
       (RunGuiTask Scenario.fmt Scenario.resubmitted)
     = [EvUser (CallProgress 4 0.5%float)].
Proof. vm_compute. repeat split; reflexivity. Qed.

(** ** [ClearState] while no engine is installed *)

(** While no engine is installed the worker's clear-state handling leaves
    the flag as [ClearState] set it, and a worker that finds neither exit
    nor request goes round its loop without changing anything. *)
Lemma clear_state_flag_stays (w : AsyncRouter.World) :
  AsyncRouter.m_router (AsyncRouter.self w) = None ->
  Worker.clear_state_handling (AsyncRouter.ClearState w)
  = AsyncRouter.ClearState w
  /\ (forall dbg timer,
        AsyncRouter.m_threadExit (AsyncRouter.self w) = false ->
        AsyncRouter.m_hasRequest (AsyncRouter.self w) = false ->
        Worker.ThreadFunc_turn dbg timer (AsyncRouter.ClearState w)
        = Worker.Continues (AsyncRouter.ClearState w)).
Proof.
  intros Hr.
  assert (AsyncRouter.self (AsyncRouter.ClearState w)
          = AsyncRouter.set_delegate None
              (AsyncRouter.set_clearState true (AsyncRouter.self w))) as Hself
    by (unfold AsyncRouter.ClearState; by rewrite ResetDelegate_members).
  assert (Worker.clear_state_handling (AsyncRouter.ClearState w)
          = AsyncRouter.ClearState w) as Hhandling
    by (unfold Worker.clear_state_handling; rewrite Hself; simpl;
        by rewrite Hr).
  split; [exact Hhandling|].
  intros dbg timer Hexit Hreq. unfold Worker.ThreadFunc_turn.
  rewrite Hhandling, Hself. simpl. by rewrite Hexit, Hreq.
Qed.

(** C7 (as amended): with no engine installed, [ClearState] is not a no-op:
    it sets the clear-state flag and it cancels and uninstalls the active
    delegate, the other proxies being untouched.  It leaves queue, log,
    engine, fetcher, request slot, has-request flag, exit flag and route
    counter as they are, and no engine is called, by it or by the worker's
    clear-state handling after it. *)
Theorem ClearState_without_engine (w : AsyncRouter.World) :
  AsyncRouter.m_router (AsyncRouter.self w) = None ->
  AsyncRouter.self (AsyncRouter.ClearState w)
  = AsyncRouter.set_delegate None
      (AsyncRouter.set_clearState true (AsyncRouter.self w))
  /\ AsyncRouter.m_clearState (AsyncRouter.self (AsyncRouter.ClearState w))
     = true
  /\ AsyncRouter.m_delegate (AsyncRouter.self (AsyncRouter.ClearState w))
     = None
  /\ AsyncRouter.gui (AsyncRouter.ClearState w) = AsyncRouter.gui w
  /\ AsyncRouter.log (AsyncRouter.ClearState w) = AsyncRouter.log w
  /\ (forall d p,
        AsyncRouter.m_delegate (AsyncRouter.self w) = Some d ->
        AsyncRouter.heap w !! d = Some p ->
        AsyncRouter.heap (AsyncRouter.ClearState w) !! d
        = Some (RouterDelegateProxy.Cancel p))
  /\ (forall d,
        AsyncRouter.m_delegate (AsyncRouter.self w) <> Some d ->
        AsyncRouter.heap (AsyncRouter.ClearState w) !! d
        = AsyncRouter.heap w !! d)
  /\ AsyncRouter.log (Worker.clear_state_handling (AsyncRouter.ClearState w))
     = AsyncRouter.log w.
Proof.
  intros Hr.
  assert (AsyncRouter.self (AsyncRouter.ClearState w)
          = AsyncRouter.set_delegate None
              (AsyncRouter.set_clearState true (AsyncRouter.self w))) as Hself
    by (unfold AsyncRouter.ClearState; by rewrite ResetDelegate_members).
  assert (AsyncRouter.log (AsyncRouter.ClearState w) = AsyncRouter.log w)
    as Hlog by exact (proj1 (proj2 (ResetDelegate_queue _))).
  split; [exact Hself|]. split; [by rewrite Hself|]. split; [by rewrite Hself|].
  split; [exact (proj1 (ResetDelegate_queue _))|].
  split; [exact Hlog|].
  split; [|split].
  - intros d p Hd Hp. unfold AsyncRouter.ClearState.
    by apply ResetDelegate_cancels.
  - intros d Hd. unfold AsyncRouter.ClearState.
    by rewrite ResetDelegate_others.
  - by rewrite (proj1 (clear_state_flag_stays w Hr)).
Qed.

Lemma ClearState_without_engine_witness :
  AsyncRouter.m_router (AsyncRouter.self (Scenario.submit Scenario.fresh))
  = None
  /\ AsyncRouter.m_clearState
       (AsyncRouter.self
          (AsyncRouter.ClearState (Scenario.submit Scenario.fresh)))
     = true
  /\ AsyncRouter.m_delegate
       (AsyncRouter.self
          (AsyncRouter.ClearState (Scenario.submit Scenario.fresh)))
     = None.
Proof.
  assert (AsyncRouter.m_router
            (AsyncRouter.self (Scenario.submit Scenario.fresh)) = None)
    as Hr by reflexivity.
  split; [exact Hr|].
  pose proof (ClearState_without_engine (Scenario.submit Scenario.fresh) Hr)
    as H.
  split; [exact (proj1 (proj2 H))|exact (proj1 (proj2 (proj2 H)))].
Defined.

(** C7 as stated fails: on a dispatcher without an engine to which a request
    has been submitted, [ClearState] sets the clear-state flag, uninstalls
    the active delegate and sets the flag of its proxy. *)
Lemma ClearState_without_engine_changes_state :
  AsyncRouter.m_router (AsyncRouter.self (Scenario.submit Scenario.fresh))
  = None
  /\ AsyncRouter.m_clearState
       (AsyncRouter.self (Scenario.submit Scenario.fresh)) = false
  /\ AsyncRouter.m_clearState
       (AsyncRouter.self
          (AsyncRouter.ClearState (Scenario.submit Scenario.fresh))) = true
  /\ AsyncRouter.m_delegate
       (AsyncRouter.self (Scenario.submit Scenario.fresh)) = Some 0
  /\ AsyncRouter.m_delegate
       (AsyncRouter.self
          (AsyncRouter.ClearState (Scenario.submit Scenario.fresh))) = None
  /\ (RouterDelegateProxy.m_delegate
        <$> AsyncRouter.heap (Scenario.submit Scenario.fresh) !! 0)
     = Some (mkRouterDelegate false 0)
  /\ (RouterDelegateProxy.m_delegate
        <$> AsyncRouter.heap
              (AsyncRouter.ClearState (Scenario.submit Scenario.fresh)) !! 0)
     = Some (mkRouterDelegate true 0)
  /\ AsyncRouter.ClearState (Scenario.submit Scenario.fresh)
     <> Scenario.submit Scenario.fresh.
Proof.
  repeat (split; [vm_compute; reflexivity|]).
  intros H.
  apply (f_equal (fun w => AsyncRouter.m_clearState (AsyncRouter.self w))) in H.
  vm_compute in H. discriminate H.
Qed.

(** ** Route ids over the dispatcher's lifetime *)

Section RouteIds.
Import AsyncRouter.

Lemma issued_ids_app (e1 e2 : list Event) :
  issued_ids (e1 ++ e2) = issued_ids e1 ++ issued_ids e2.
Proof. unfold issued_ids. by rewrite routes_handed_app, fmap_app. Qed.

Lemma issued_ids_user (calls : list UserCall) :
  issued_ids (EvUser <$> calls) = [].
Proof. induction calls as [|call calls IH]; [done|exact IH]. Qed.

Lemma Conclude_hands_no_route (timer : Timer) (l : Worker.Locals)
    (run : EngineRun) (post : Worker.Out) :
  Worker.Conclude timer l run = Some (tt, post) ->
  routes_handed (Worker.emitted post) = [].
Proof.
  destruct (outcome run) as [code|msg] eqn:Ho.
  - destruct (Conclude_Returns timer l run code Ho) as (post' & Hd & ->).
    intros [= <-]. cbn [Worker.emitted].
    pose proof (Deliver_out timer l (route_after run) code) as Hd'.
    cbv zeta in Hd'. rewrite Hd' in Hd. injection Hd as <-.
    cbn [Worker.emitted].
    change (?x :: ?l) with ([x] ++ l).
    rewrite !routes_handed_app, !routes_handed_LogCode.
    by destruct (_ && _).
  - rewrite (Conclude_Throws timer l run msg Ho), Catch_out.
    by intros [= <-].
Qed.

(** An executed request hands one route to the engine, tagged with the
    counter after its increment. *)
Lemma CalculateRoute_ids_executed (dbg : bool) (timer : Timer) (w w' : World)
    (l : Worker.Locals) :
  Worker.CalculateRoute dbg timer w = Some w' ->
  (Worker.Snapshot (self w)).2 = Some l ->
  issued_ids (log w')
  = issued_ids (log w) ++ [uint64_incr (m_routeCounter (self w))]
  /\ m_routeCounter (self w') = uint64_incr (m_routeCounter (self w))
  /\ Worker.routeId l = uint64_incr (m_routeCounter (self w)).
Proof.
  unfold Worker.CalculateRoute.
  destruct (Worker.Snapshot (self w)) as [a ol] eqn:Hs. simpl.
  intros Hc ->.
  destruct (Worker.Execute dbg (heap w) timer l) as [[[] out]|] eqn:He;
    [|done].
  injection Hc as <-. cbn [log self].
  destruct (Snapshot_Some _ _ _ Hs) as (-> & _ & _ & _ & Hid).
  split; [|done].
  destruct (Execute_inv dbg _ timer l out He)
    as (proxy & run & pre & post & _ & _ & _ & Hpost & _ & ->).
  rewrite !issued_ids_app. unfold issued_ids at 2 3.
  rewrite routes_handed_prologue, (Conclude_hands_no_route _ _ _ _ Hpost).
  simpl. by rewrite Hid, ?app_nil_r.
Qed.

(** The worker's [CalculateRoute()] either hands no route to the engine and
    leaves the counter, or hands one, tagged with the counter after its
    increment. *)
Lemma CalculateRoute_ids (dbg : bool) (timer : Timer) (w w' : World) :
  Worker.CalculateRoute dbg timer w = Some w' ->
  (issued_ids (log w') = issued_ids (log w)
   /\ m_routeCounter (self w') = m_routeCounter (self w))
  \/ (issued_ids (log w')
      = issued_ids (log w) ++ [uint64_incr (m_routeCounter (self w))]
      /\ m_routeCounter (self w') = uint64_incr (m_routeCounter (self w))).
Proof.
  intros Hc.
  destruct (Worker.Snapshot (self w)) as [a [l|]] eqn:Hs.
  - right.
    destruct (CalculateRoute_ids_executed dbg timer w w' l Hc)
      as (? & ? & _); [by rewrite Hs|done].
  - left. unfold Worker.CalculateRoute in Hc. rewrite Hs in Hc.
    injection Hc as <-. cbn [log self].
    by rewrite (Snapshot_None _ _ Hs).
Qed.

Lemma step_ids (dbg : bool) (fmt : Formatting) (act : Action) (w w' : World) :
  step dbg fmt act w = Some w' ->
  (issued_ids (log w') = issued_ids (log w)
   /\ m_routeCounter (self w') = m_routeCounter (self w))
  \/ (issued_ids (log w')
      = issued_ids (log w) ++ [uint64_incr (m_routeCounter (self w))]
      /\ m_routeCounter (self w') = uint64_incr (m_routeCounter (self w))).
Proof.
  destruct act; simpl.
  - intros [= <-]. left. unfold SetRouter. cbn [log self].
    rewrite ResetDelegate_members.
    by rewrite (proj1 (proj2 (ResetDelegate_queue w))).
  - intros [= <-]. left. unfold AsyncRouter.CalculateRoute. cbn [log self].
    rewrite ResetDelegate_members.
    by rewrite (proj1 (proj2 (ResetDelegate_queue _))).
  - intros [= <-]. left. unfold ClearState.
    rewrite ResetDelegate_members.
    by rewrite (proj1 (proj2 (ResetDelegate_queue _))).
  - unfold Worker.ThreadFunc_turn.
    destruct (negb _); [by intros [= <-]; left|].
    assert (issued_ids (log (Worker.clear_state_handling w))
            = issued_ids (log w)
            /\ m_routeCounter (self (Worker.clear_state_handling w))
               = m_routeCounter (self w)) as [Hids Hcount].
    { unfold Worker.clear_state_handling.
      destruct (m_router (self w)); [|done].
      destruct (m_clearState (self w)); [|done].
      cbn [log self]. by rewrite issued_ids_app, app_nil_r. }
    destruct (m_threadExit _); [by intros [= <-]; left|].
    destruct (negb _); [by intros [= <-]; left|].
    destruct (Worker.CalculateRoute dbg timer (Worker.clear_state_handling w))
      as [w2|] eqn:Hc; [|done].
    intros [= <-]. rewrite <- Hids, <- Hcount.
    by apply (CalculateRoute_ids dbg timer).
  - intros [= <-]. left. unfold RunGuiTask.
    destruct (gui w); [done|]. cbn [log self].
    by rewrite issued_ids_app, issued_ids_user, app_nil_r.
Qed.

Lemma uint64_incr_mod (n : nat) :
  uint64_incr (Z.of_nat n mod 2 ^ 64) = (Z.of_nat (S n) mod 2 ^ 64)%Z.
Proof.
  unfold uint64_incr. rewrite Zplus_mod_idemp_l. f_equal. lia.
Qed.

(** The ids issued so far are 1, 2, ... modulo 2^64, and the counter is
    their number modulo 2^64. *)
Lemma run_ids (dbg : bool) (fmt : Formatting) (acts : list Action)
    (w w' : World) (n : nat) :
  run dbg fmt acts w = Some w' ->
  issued_ids (log w) = (fun k => (Z.of_nat k mod 2 ^ 64)%Z) <$> seq 1 n ->
  m_routeCounter (self w) = (Z.of_nat n mod 2 ^ 64)%Z ->
  exists n',
    issued_ids (log w') = (fun k => (Z.of_nat k mod 2 ^ 64)%Z) <$> seq 1 n'
    /\ m_routeCounter (self w') = (Z.of_nat n' mod 2 ^ 64)%Z.
Proof.
  revert w n. induction acts as [|act acts IH]; intros w n; simpl.
  - intros [= <-] Hids Hc. by exists n.
  - destruct (step dbg fmt act w) as [w1|] eqn:Hstep; [|done].
    intros Hrun Hids Hc.
    destruct (step_ids dbg fmt act w w1 Hstep) as [[Hi Hn]|[Hi Hn]].
    + apply (IH w1 n Hrun); congruence.
    + apply (IH w1 (S n) Hrun).
      * rewrite Hi, Hids, Hc, uint64_incr_mod, seq_S, fmap_app. done.
      * by rewrite Hn, Hc, uint64_incr_mod.
Qed.

Lemma ids_below_wrap (n : nat) :
  (Z.of_nat n < 2 ^ 64)%Z ->
  (fun k => (Z.of_nat k mod 2 ^ 64)%Z) <$> seq 1 n = Z.of_nat <$> seq 1 n.
Proof.
  intros Hn. apply list_fmap_ext. intros i k Hk.
  apply list_elem_of_lookup_2, elem_of_seq in Hk.
  apply Z.mod_small. lia.
Qed.

Lemma ids_increase (s n : nat) : StronglySorted Z.lt (Z.of_nat <$> seq s n).
Proof.
  revert s. induction n as [|n IH]; intros s; simpl; constructor.
  - apply IH.
  - apply Forall_fmap, Forall_forall. intros k Hk.
    apply elem_of_seq in Hk. simpl. lia.
Qed.

Lemma clear_state_handling_members (w : World) :
  m_threadExit (self (Worker.clear_state_handling w)) = m_threadExit (self w)
  /\ m_hasRequest (self (Worker.clear_state_handling w)) = m_hasRequest (self w)
  /\ m_router (self (Worker.clear_state_handling w)) = m_router (self w)
  /\ m_delegate (self (Worker.clear_state_handling w)) = m_delegate (self w)
  /\ m_routeCounter (self (Worker.clear_state_handling w))
     = m_routeCounter (self w)
  /\ issued_ids (log (Worker.clear_state_handling w)) = issued_ids (log w).
Proof.
  unfold Worker.clear_state_handling.
  destruct (m_router (self w)) eqn:Hr; [|done].
  destruct (m_clearState (self w)); [|by rewrite Hr].
  cbn [log self]. by rewrite issued_ids_app, app_nil_r.
Qed.

(** A turn of the worker that finds a request, an engine and the active
    delegate's proxy executes the request, provided no listener call of the
    engine stops at a [CHECK]; here the engine makes none. *)
Lemma turn_executes (dbg : bool) (timer : Timer) (w : World) (r : IRouter.t)
    (d : nat) (proxy : RouterDelegateProxy.t) :
  m_threadExit (self w) = false ->
  m_hasRequest (self w) = true ->
  m_router (self w) = Some r ->
  m_delegate (self w) = Some d ->
  heap w !! d = Some proxy ->
  (forall cps dir adj dlg route,
     reported (IRouter.CalculateRoute r cps dir adj dlg route) = []) ->
  exists w',
    Worker.ThreadFunc_turn dbg timer w = Worker.Continues w'
    /\ m_router (self w') = Some r
    /\ m_threadExit (self w') = false
    /\ issued_ids (log w')
       = issued_ids (log w) ++ [uint64_incr (m_routeCounter (self w))]
    /\ m_routeCounter (self w') = uint64_incr (m_routeCounter (self w)).
Proof.
  intros Hexit Hreq Hr Hd Hp Hquiet.
  destruct (clear_state_handling_members w)
    as (Hexit1 & Hreq1 & Hr1 & Hd1 & Hc1 & Hids1).
  pose proof (clear_state_handling_heap w) as Hheap1.
  remember (Worker.clear_state_handling w) as w1 eqn:Ew1.
  rewrite Hexit in Hexit1. rewrite Hreq in Hreq1. rewrite Hr in Hr1.
  rewrite Hd in Hd1.
  destruct (Worker.Snapshot (self w1)) as [a ol] eqn:Hs.
  assert (exists l, ol = Some l /\ Worker.delegate l = d /\ Worker.router l = r)
    as (l & -> & Hld & Hlr).
  { unfold Worker.Snapshot in Hs. rewrite Hreq1 in Hs. simpl in Hs.
    rewrite Hr1, Hd1 in Hs. injection Hs as <- <-. by eexists. }
  assert (exists out, Worker.Execute dbg (heap w1) timer l = Some (tt, out))
    as [out He].
  { assert (heap w1 !! Worker.delegate l = Some proxy) as Hp1
      by by rewrite Hheap1, Hld.
    assert (exists run, engine_run (heap w1) l = Some run) as [run Hrun]
      by (unfold engine_run; rewrite Hp1; by eexists).
    destruct (Conclude_total timer l run) as [post Hpost].
    rewrite (Execute_eq dbg _ timer l proxy run post Hp1 Hrun Hpost).
    unfold engine_run in Hrun. rewrite Hp1 in Hrun. injection Hrun as <-.
    rewrite Hlr, Hquiet. simpl. by eexists. }
  assert (Worker.CalculateRoute dbg timer w1
          = Some (mkWorld a (heap w1) (gui w1 ++ Worker.scheduled out)
                    (log w1 ++ Worker.emitted out))) as Hc
    by (unfold Worker.CalculateRoute; by rewrite Hs, He).
  eexists. split.
  - unfold Worker.ThreadFunc_turn. rewrite Hreq, orb_true_r. simpl.
    rewrite <- Ew1. by rewrite Hexit1, Hreq1, Hc.
  - destruct (CalculateRoute_ids_executed dbg timer w1 _ l Hc)
      as (Hi & Hn & _); [by rewrite Hs|].
    rewrite Hi, Hn, Hids1, Hc1. cbn [self].
    destruct (Snapshot_Some _ _ _ Hs) as (-> & _).
    simpl. by rewrite Hr1, Hexit1.
Qed.

End RouteIds.

Section Wrap.
Import AsyncRouter.

Lemma run_app (dbg : bool) (fmt : Formatting) (acts1 acts2 : list Action)
    (w : World) :
  run dbg fmt (acts1 ++ acts2) w
  = match run dbg fmt acts1 w with
    | Some w1 => run dbg fmt acts2 w1
    | None => None
    end.
Proof.
  revert w. induction acts1 as [|act acts1 IH]; intros w; simpl; [done|].
  destruct (step dbg fmt act w); [apply IH|done].
Qed.

(** One more request is submitted to a live dispatcher with the engine
    [Scenario.lost] and is served: its route gets the next id. *)
Lemma cycle_runs (w : World) :
  m_router (self w) = Some Scenario.lost ->
  m_threadExit (self w) = false ->
  exists w',
    run false Scenario.fmt Scenario.cycle w = Some w'
    /\ m_router (self w') = Some Scenario.lost
    /\ m_threadExit (self w') = false
    /\ issued_ids (log w')
       = issued_ids (log w) ++ [uint64_incr (m_routeCounter (self w))]
    /\ m_routeCounter (self w') = uint64_incr (m_routeCounter (self w)).
Proof.
  intros Hr Hexit.
  set (w1 := AsyncRouter.CalculateRoute Scenario.checkpoints Scenario.direction
               false (Some 1) (Some 2) (Some 3) (Some 4) 0 w).
  pose proof (step_ids false Scenario.fmt
                (DoCalculateRoute Scenario.checkpoints Scenario.direction false
                   (Some 1) (Some 2) (Some 3) (Some 4) 0) w w1 eq_refl)
    as [[Hids Hcount]|[Hids Hcount]].
  2: { exfalso. unfold w1, AsyncRouter.CalculateRoute in Hids.
       cbn [log] in Hids.
       rewrite (proj1 (proj2 (ResetDelegate_queue _))) in Hids.
       cbn [log] in Hids.
       apply (f_equal length) in Hids. rewrite length_app in Hids.
       simpl in Hids. lia. }
  assert (self w1
          = set_hasRequest true
              (set_delegate (Some (length (heap w)))
                 (set_delegate None
                    (set_request Scenario.checkpoints Scenario.direction false
                       (self w))))) as Hself.
  { unfold w1, AsyncRouter.CalculateRoute. cbn [self heap].
    rewrite ResetDelegate_members.
    by rewrite (proj2 (proj2 (ResetDelegate_queue _))). }
  assert (exists proxy, heap w1 !! length (heap w) = Some proxy) as [proxy Hp].
  { unfold w1, AsyncRouter.CalculateRoute. cbn [heap].
    pose proof (proj2 (proj2 (ResetDelegate_queue
                  (mkWorld (set_request Scenario.checkpoints Scenario.direction
                              false (self w)) (heap w) (gui w) (log w)))))
      as Hlen.
    cbn [heap] in Hlen. rewrite <- Hlen.
    rewrite list_lookup_middle by done. by eexists. }
  destruct (turn_executes false Scenario.timer w1 Scenario.lost
              (length (heap w)) proxy)
    as (w2 & Hturn & Hr2 & Hexit2 & Hids2 & Hcount2);
    try (rewrite Hself; simpl; done); try done.
  exists w2. split.
  - unfold Scenario.cycle. simpl. fold w1. by rewrite Hturn.
  - by rewrite Hids2, Hcount2, Hids, Hcount.
Qed.

(** [n] requests submitted one after the other to the dispatcher
    [Scenario.serving] and served: the ids are 1, ..., n modulo 2^64. *)
Lemma cycles_run (n : nat) :
  exists w,
    run false Scenario.fmt (Scenario.cycles n) Scenario.serving = Some w
    /\ m_router (self w) = Some Scenario.lost
    /\ m_threadExit (self w) = false
    /\ issued_ids (log w) = (fun k => (Z.of_nat k mod 2 ^ 64)%Z) <$> seq 1 n
    /\ m_routeCounter (self w) = (Z.of_nat n mod 2 ^ 64)%Z.
Proof.
  induction n as [|n (w & Hrun & Hr & Hexit & Hids & Hcount)].
  - exists Scenario.serving. by vm_compute.
  - destruct (cycle_runs w Hr Hexit) as (w' & Hrun' & Hr' & Hexit' & Hids' & Hc').
    exists w'. cbn [Scenario.cycles]. rewrite run_app, Hrun.
    split; [exact Hrun'|]. split; [exact Hr'|]. split; [exact Hexit'|].
    rewrite Hids', Hc', Hids, Hcount, uint64_incr_mod.
    split; [|done]. by rewrite seq_S, fmap_app.
Qed.

(** After as many served requests as the counter can count, the next id is
    0. *)
Lemma wrap_after (n : nat) :
  Z.of_nat n = uint64_max ->
  exists w w',
    run false Scenario.fmt (Scenario.cycles n) Scenario.serving = Some w
    /\ last (issued_ids (log w)) = Some uint64_max
    /\ run false Scenario.fmt Scenario.cycle w = Some w'
    /\ issued_ids (log w') = issued_ids (log w) ++ [0%Z].
Proof.
  intros Hn.
  destruct (cycles_run n) as (w & Hrun & Hr & Hexit & Hids & Hcount).
  destruct (cycle_runs w Hr Hexit) as (w' & Hrun' & _ & _ & Hids' & _).
  exists w, w'. split; [exact Hrun|]. split; [|split; [exact Hrun'|]].
  - rewrite Hids. destruct n as [|m]; [done|].
    rewrite seq_S, fmap_app.
    change ((fun k => (Z.of_nat k mod 2 ^ 64)%Z) <$> [1 + m])
      with [(Z.of_nat (S m) mod 2 ^ 64)%Z].
    rewrite last_snoc, Hn. reflexivity.
  - rewrite Hids', Hcount, uint64_incr_mod. do 2 f_equal.
    rewrite Nat2Z.inj_succ, Hn. reflexivity.
Qed.

End Wrap.

(** C6 (as amended): the route counter starts at 0 and is incremented,
    modulo 2^64, exactly once per executed request and never otherwise, and
    the route of an executed request is tagged with the counter after its
    increment.  So over any run of a dispatcher the ids handed out are 1, 2,
    3, ... taken modulo 2^64, the first being 1, and the counter is their
    number modulo 2^64; as long as fewer than 2^64 requests have been
    executed they are 1, 2, ..., n: strictly increasing and without
    repetition, each the counter before the request plus one. *)
Theorem route_ids_count_up (dbg : bool) (fmt : Formatting)
    (routingStatisticsCallback pointCheckCallback : option nat)
    (checkpoints : Checkpoints) (direction : m2.PointD) (adjust : bool)
    (acts : list Action) (w : AsyncRouter.World) :
  run dbg fmt acts
    (AsyncRouter.make routingStatisticsCallback pointCheckCallback checkpoints
       direction adjust) = Some w ->
  let ids := issued_ids (AsyncRouter.log w) in
  AsyncRouter.m_routeCounter
    (AsyncRouter.self
       (AsyncRouter.make routingStatisticsCallback pointCheckCallback
          checkpoints direction adjust)) = 0%Z
  /\ AsyncRouter.m_routeCounter (AsyncRouter.self w)
     = (Z.of_nat (length ids) mod 2 ^ 64)%Z
  /\ ids = (fun k => (Z.of_nat k mod 2 ^ 64)%Z) <$> seq 1 (length ids)
  /\ (ids <> [] -> head ids = Some 1%Z)
  /\ ((Z.of_nat (length ids) < 2 ^ 64)%Z ->
      ids = Z.of_nat <$> seq 1 (length ids)
      /\ StronglySorted Z.lt ids
      /\ NoDup ids)
  /\ (forall (a a' : AsyncRouter.t) (l : Worker.Locals),
        Worker.Snapshot a = (a', Some l) ->
        Worker.routeId l = uint64_incr (AsyncRouter.m_routeCounter a)
        /\ AsyncRouter.m_routeCounter a' = Worker.routeId l
        /\ ((0 <= AsyncRouter.m_routeCounter a < uint64_max)%Z ->
            Worker.routeId l = (AsyncRouter.m_routeCounter a + 1)%Z))
  /\ (forall (a a' : AsyncRouter.t),
        Worker.Snapshot a = (a', None) ->
        AsyncRouter.m_routeCounter a' = AsyncRouter.m_routeCounter a).
Proof.
  intros Hrun ids.
  destruct (run_ids dbg fmt acts _ w 0 Hrun eq_refl eq_refl) as (n & Hids & Hc).
  fold ids in Hids.
  assert (length ids = n) as Hlen
    by (rewrite Hids; by rewrite length_fmap, length_seq).
  rewrite Hlen.
  split; [reflexivity|]. split; [exact Hc|]. split; [exact Hids|].
  split; [|split; [|split]].
  - rewrite Hids. destruct n; [done|]. reflexivity.
  - intros Hn. rewrite Hids, (ids_below_wrap n Hn).
    split; [done|]. split; [apply ids_increase|].
    apply (NoDup_fmap_2 Z.of_nat), NoDup_seq.
  - intros a a' l Hs.
    destruct (Snapshot_Some a a' l Hs) as (-> & _ & _ & _ & Hid).
    split; [exact Hid|]. split; [by rewrite Hid|].
    intros Hrange. rewrite Hid. unfold uint64_incr, uint64_max in *.
    apply Z.mod_small. lia.
  - intros a a' Hs. by rewrite (Snapshot_None a a' Hs).
Qed.

Lemma route_ids_count_up_witness :
  run false Scenario.fmt (DoSetRouter (Some Scenario.lost) None :: Scenario.cycles 2)
    (AsyncRouter.make (Some 9) None Scenario.checkpoints Scenario.direction false)
  = Some Scenario.twice
  /\ issued_ids (AsyncRouter.log Scenario.twice)
     = (fun k => (Z.of_nat k mod 2 ^ 64)%Z)
         <$> seq 1 (length (issued_ids (AsyncRouter.log Scenario.twice)))
  /\ AsyncRouter.m_routeCounter (AsyncRouter.self Scenario.twice)
     = (Z.of_nat (length (issued_ids (AsyncRouter.log Scenario.twice)))
        mod 2 ^ 64)%Z.
Proof.
  assert (run false Scenario.fmt
            (DoSetRouter (Some Scenario.lost) None :: Scenario.cycles 2)
            (AsyncRouter.make (Some 9) None Scenario.checkpoints
               Scenario.direction false)
          = Some Scenario.twice) as Hrun by (vm_compute; reflexivity).
  split; [exact Hrun|].
  pose proof (route_ids_count_up false Scenario.fmt _ _ _ _ _ _ _ Hrun) as H.
  split; [exact (proj1 (proj2 (proj2 H)))|exact (proj1 (proj2 H))].
Defined.

(** C6 as stated fails: the dispatcher [Scenario.serving] is given a
    request and serves it 2^64 - 1 times over; the last id handed out is
    2^64 - 1, the counter's largest value.  The next served request gets the
    id 0, which is neither larger than the one before nor the counter before
    the request plus one. *)
Lemma route_id_wraps :
  exists w w' : AsyncRouter.World,
    run false Scenario.fmt (Scenario.cycles (Z.to_nat uint64_max))
      Scenario.serving = Some w
    /\ last (issued_ids (AsyncRouter.log w)) = Some uint64_max
    /\ run false Scenario.fmt Scenario.cycle w = Some w'
    /\ issued_ids (AsyncRouter.log w')
       = issued_ids (AsyncRouter.log w) ++ [0%Z].
Proof.
  apply wrap_after. apply Z2Nat.id. unfold uint64_max. lia.
Qed.

Lemma exit_precedes_request_witness :
  AsyncRouter.m_threadExit
    (AsyncRouter.self
       (AsyncRouter.Destroy (Scenario.pending Scenario.vehicle None))) = true
  /\ AsyncRouter.m_hasRequest
       (AsyncRouter.self
          (AsyncRouter.Destroy (Scenario.pending Scenario.vehicle None)))
     = true
  /\ Worker.ThreadFunc false [Scenario.timer]
       (AsyncRouter.Destroy (Scenario.pending Scenario.vehicle None))
     = Some (true,
             Worker.clear_state_handling
               (AsyncRouter.Destroy (Scenario.pending Scenario.vehicle None)))
  /\ new_tasks (AsyncRouter.Destroy (Scenario.pending Scenario.vehicle None))
       (Worker.clear_state_handling
          (AsyncRouter.Destroy (Scenario.pending Scenario.vehicle None)))
     = [].
Proof.
  assert (AsyncRouter.m_threadExit
            (AsyncRouter.self
               (AsyncRouter.Destroy (Scenario.pending Scenario.vehicle None)))
          = true) as Hexit by reflexivity.
  assert (AsyncRouter.m_hasRequest
            (AsyncRouter.self
               (AsyncRouter.Destroy (Scenario.pending Scenario.vehicle None)))
          = true) as Hreq by reflexivity.
  split; [exact Hexit|]. split; [exact Hreq|].
  pose proof (exit_precedes_request false Scenario.timer _ Hexit Hreq) as H.
  split; [exact (proj1 (proj2 (proj2 (proj2 (proj2 (proj2 (proj2 H)))))))|].
  exact (proj1 (proj2 H)).
Defined.

(** ** The worker's body returns *)

Section Returns.
Import AsyncRouter.

Lemma make_valid (routingStatisticsCallback pointCheckCallback : option nat)
    (checkpoints : Checkpoints) (direction : m2.PointD) (adjust : bool) :
  handles_valid
    (make routingStatisticsCallback pointCheckCallback checkpoints direction
       adjust).
Proof. intros d Hd. discriminate Hd. Qed.

(** The worker's [CalculateRoute()] touches neither the heap nor the active
    delegate. *)
Lemma CalculateRoute_keeps_delegate (dbg : bool) (timer : Timer) (w w' : World) :
  Worker.CalculateRoute dbg timer w = Some w' ->
  heap w' = heap w /\ m_delegate (self w') = m_delegate (self w).
Proof.
  unfold Worker.CalculateRoute.
  destruct (Worker.Snapshot (self w)) as [a [l|]] eqn:Hs.
  - destruct (Worker.Execute dbg (heap w) timer l) as [[[] out]|]; [|done].
    intros [= <-]. by destruct (Snapshot_Some _ _ _ Hs) as (-> & _).
  - intros [= <-]. by rewrite (Snapshot_None _ _ Hs).
Qed.

Lemma step_valid (dbg : bool) (fmt : Formatting) (act : Action) (w w' : World) :
  handles_valid w -> step dbg fmt act w = Some w' -> handles_valid w'.
Proof.
  intros Hw. destruct act; simpl.
  - intros [= <-] d. unfold SetRouter. cbn [self set_router m_delegate].
    by rewrite ResetDelegate_no_delegate.
  - intros [= <-] d. unfold AsyncRouter.CalculateRoute.
    cbn [self heap set_hasRequest set_delegate m_delegate].
    intros [= <-]. rewrite length_app. simpl. lia.
  - intros [= <-] d. unfold ClearState. by rewrite ResetDelegate_no_delegate.
  - unfold Worker.ThreadFunc_turn.
    destruct (negb _); [by intros [= <-]|].
    pose proof (clear_state_handling_heap w) as Hh.
    destruct (clear_state_handling_members w) as (_ & _ & _ & Hd & _).
    assert (handles_valid (Worker.clear_state_handling w)) as Hw1
      by (intros d; rewrite Hh, Hd; apply Hw).
    destruct (m_threadExit _); [by intros [= <-]|].
    destruct (negb _); [by intros [= <-]|].
    destruct (Worker.CalculateRoute dbg timer (Worker.clear_state_handling w))
      as [w2|] eqn:Hc; [|done].
    intros [= <-] d.
    destruct (CalculateRoute_keeps_delegate dbg timer _ _ Hc) as [-> ->].
    apply Hw1.
  - intros [= <-]. unfold RunGuiTask. by destruct (gui w).
Qed.

(** Over a run of a dispatcher the active delegate is always an object of
    the heap. *)
Lemma run_valid (dbg : bool) (fmt : Formatting) (acts : list Action)
    (w w' : World) :
  handles_valid w -> run dbg fmt acts w = Some w' -> handles_valid w'.
Proof.
  revert w. induction acts as [|act acts IH]; intros w Hw; simpl.
  - by intros [= <-].
  - destruct (step dbg fmt act w) as [w1|] eqn:Hstep; [|done].
    apply IH. by apply (step_valid dbg fmt act w).
Qed.

(** The listeners stop only at the [CHECK] of the debug build. *)
Lemma listeners_return (dbg : bool) (proxy : RouterDelegateProxy.t)
    (calls : list DelegateCall) :
  (dbg = true -> is_Some (RouterDelegateProxy.m_onPointCheck proxy)) ->
  exists pre, Worker.for_each (Worker.listener dbg proxy) calls = Some (tt, pre).
Proof.
  intros Hcheck. induction calls as [|call calls [pre IH]]; simpl.
  - by eexists.
  - rewrite IH.
    destruct call as [progress|pt]; simpl.
    + rewrite for_each_RunOnGuiThread. by eexists.
    + unfold RouterDelegateProxy.OnPointCheck. destruct dbg.
      * destruct (Hcheck eq_refl) as [cb ->].
        destruct (RouterDelegate_IsCancelled _); simpl; by eexists.
      * simpl. by eexists.
Qed.

(** Without [SHOW_ROUTE_DEBUG_MARKS], or with a point-check callback, the
    worker's [CalculateRoute()] returns. *)
Lemma CalculateRoute_returns (dbg : bool) (timer : Timer) (w : World) :
  handles_valid w ->
  (dbg = true ->
   forall d p,
     m_delegate (self w) = Some d -> heap w !! d = Some p ->
     is_Some (RouterDelegateProxy.m_onPointCheck p)) ->
  exists w', Worker.CalculateRoute dbg timer w = Some w'.
Proof.
  intros Hw Hcheck. unfold Worker.CalculateRoute.
  destruct (Worker.Snapshot (self w)) as [a [l|]] eqn:Hs; [|by eexists].
  destruct (Snapshot_Some _ _ _ Hs) as (_ & _ & Hd & _).
  destruct (lookup_lt_is_Some_2 _ _ (Hw _ Hd)) as [proxy Hp].
  assert (exists run, engine_run (heap w) l = Some run) as [run Hrun]
    by (unfold engine_run; rewrite Hp; by eexists).
  destruct (Conclude_total timer l run) as [post Hpost].
  rewrite (Execute_eq dbg _ timer l proxy run post Hp Hrun Hpost).
  destruct (listeners_return dbg proxy (reported run)) as [pre ->];
    [|by eexists].
  intros Hdbg. by apply (Hcheck Hdbg _ _ Hd).
Qed.

End Returns.

(** ** What every run keeps *)

Section Consistency.
Import AsyncRouter.

Lemma listener_task_calls_into (d : nat) (task : UiTask) :
  listener_task task -> calls_into d task = false.
Proof. by destruct task. Qed.

(** The closures the body posts after the engine's call go to the proxy of
    the request. *)
Lemma Conclude_targets (timer : Timer) (l : Worker.Locals) (run : EngineRun)
    (post : Worker.Out) :
  Worker.Conclude timer l run = Some (tt, post) ->
  forall task d,
    task ∈ Worker.scheduled post -> calls_into d task = true ->
    d = Worker.delegate l.
Proof.
  destruct (outcome run) as [code|msg] eqn:Ho.
  - destruct (Conclude_Returns timer l run code Ho) as (post' & Hd & ->).
    intros [= <-]. cbn [Worker.scheduled].
    pose proof (Deliver_out timer l (route_after run) code) as Hd'.
    cbv zeta in Hd'. rewrite Hd' in Hd. injection Hd as <-.
    cbn [Worker.scheduled]. intros task d Ht Hc.
    rewrite elem_of_cons, elem_of_app in Ht. destruct Ht as [->|[Ht|Ht]].
    + done.
    + destruct (bool_decide (code = NoError)); [|by apply elem_of_nil in Ht].
      apply list_elem_of_singleton in Ht. subst. simpl in Hc.
      by apply bool_decide_eq_true in Hc.
    + destruct (bool_decide (Worker.Upgrade (drained l code) code = NoError));
        [by apply elem_of_nil in Ht|].
      destruct (bool_decide (Worker.Upgrade (drained l code) code
                             = NeedMoreMaps));
        apply list_elem_of_singleton in Ht; subst; simpl in Hc;
        by apply bool_decide_eq_true in Hc.
  - rewrite (Conclude_Throws timer l run msg Ho), Catch_out.
    intros [= <-] task d Ht Hc. cbn [Worker.scheduled] in Ht.
    apply elem_of_cons in Ht as [->|Ht]; [done|].
    apply list_elem_of_singleton in Ht. subst. simpl in Hc.
    by apply bool_decide_eq_true in Hc.
Qed.

Lemma Execute_targets (dbg : bool) (heap : list RouterDelegateProxy.t)
    (timer : Timer) (l : Worker.Locals) (out : Worker.Out) :
  Worker.Execute dbg heap timer l = Some (tt, out) ->
  forall task d,
    task ∈ Worker.scheduled out -> calls_into d task = true ->
    d = Worker.delegate l.
Proof.
  intros He task d Ht Hc.
  destruct (Execute_inv dbg heap timer l out He)
    as (proxy & run & pre & post & _ & _ & Hl & Hpost & Hs & _).
  rewrite Hs, elem_of_app in Ht. destruct Ht as [Ht|Ht].
  - destruct (listeners_out dbg proxy _ pre Hl) as [Hf _].
    rewrite Forall_forall in Hf.
    by rewrite (listener_task_calls_into d task (Hf task Ht)) in Hc.
  - by apply (Conclude_targets timer l run post Hpost task).
Qed.

(** After [ResetDelegate] every proxy of the heap has its flag set. *)
Lemma ResetDelegate_all_cancelled (w : World) :
  others_cancelled w ->
  forall d p,
    heap (ResetDelegate w) !! d = Some p ->
    RouterDelegate_IsCancelled (RouterDelegateProxy.m_delegate p) = true.
Proof.
  intros Ho d p. unfold ResetDelegate.
  destruct (m_delegate (self w)) as [d0|] eqn:Hd; cbn [heap].
  - rewrite list_lookup_alter. destruct (decide (d0 = d)) as [->|Hne].
    + destruct (heap w !! d) as [p0|]; [|done]. by intros [= <-].
    + intros Hp. apply (Ho d p Hp). rewrite Hd. congruence.
  - intros Hp. apply (Ho d p Hp). by rewrite Hd.
Qed.

Lemma clear_state_handling_gui (w : World) :
  gui (Worker.clear_state_handling w) = gui w.
Proof.
  unfold Worker.clear_state_handling.
  destruct (m_router (self w)); [|done]. by destruct (m_clearState (self w)).
Qed.

(** The worker's [CalculateRoute()] adds to the queue only closures of
    listeners and closures for the active delegate. *)
Lemma CalculateRoute_queue (dbg : bool) (timer : Timer) (w w' : World) :
  Worker.CalculateRoute dbg timer w = Some w' ->
  exists tasks,
    gui w' = gui w ++ tasks
    /\ forall task d,
         task ∈ tasks -> calls_into d task = true ->
         m_delegate (self w) = Some d.
Proof.
  unfold Worker.CalculateRoute.
  destruct (Worker.Snapshot (self w)) as [a [l|]] eqn:Hs.
  - destruct (Worker.Execute dbg (heap w) timer l) as [[[] out]|] eqn:He;
      [|done].
    intros [= <-]. exists (Worker.scheduled out). split; [done|].
    intros task d Ht Hc.
    destruct (Snapshot_Some _ _ _ Hs) as (_ & _ & -> & _).
    f_equal. symmetry. by apply (Execute_targets dbg _ timer l out He task).
  - intros [= <-]. exists []. cbn [gui]. split; [by rewrite app_nil_r|].
    intros task d Ht. by apply elem_of_nil in Ht.
Qed.

Lemma call_public_consistent (c : PublicCall) (w : World) :
  consistent w -> consistent (call_public c w).
Proof.
  intros (Hv & Ho & Ha & Hq).
  assert (forall w0 : World,
            heap w0 = heap (ResetDelegate w) -> gui w0 = gui w ->
            m_delegate (self w0) = None -> consistent w0) as Hreset.
  { intros w0 Hh Hg Hd. split; [|split; [|split]].
    - intros d. by rewrite Hd.
    - intros d p Hp _. rewrite Hh in Hp.
      by apply (ResetDelegate_all_cancelled w Ho d p).
    - intros d p. by rewrite Hd.
    - intros task d Ht Hc. rewrite Hh, (proj2 (proj2 (ResetDelegate_queue w))).
      rewrite Hg in Ht. by apply (Hq task d). }
  destruct c; simpl.
  - apply Hreset; unfold SetRouter; cbn [heap gui self set_router m_delegate];
      [done|apply ResetDelegate_queue|apply ResetDelegate_no_delegate].
  - unfold AsyncRouter.CalculateRoute.
    set (w1 := mkWorld (set_request checkpoints direction adjustToPrevRoute
                          (self w)) (heap w) (gui w) (log w)).
    assert (others_cancelled w1) as Ho1 by exact Ho.
    pose proof (ResetDelegate_all_cancelled w1 Ho1) as Hall.
    destruct (ResetDelegate_queue w1) as (Hg & _ & Hlen).
    cbn [gui heap] in Hg, Hlen.
    split; [|split; [|split]];
      unfold handles_valid, others_cancelled, active_live, queue_valid;
      cbn [self heap gui set_hasRequest set_delegate m_delegate].
    + intros d [= <-]. rewrite length_app. simpl. lia.
    + intros d p Hp Hd.
      destruct (decide (d < length (heap (ResetDelegate w1)))) as [Hlt|Hge].
      * rewrite lookup_app_l in Hp by done. by apply (Hall d p).
      * apply lookup_lt_Some in Hp. rewrite length_app in Hp. simpl in Hp.
        exfalso. apply Hd. f_equal. lia.
    + intros d p [= <-]. rewrite list_lookup_middle by done.
      by intros [= <-].
    + intros task d Ht Hc. rewrite Hg in Ht. rewrite length_app, Hlen.
      pose proof (Hq task d Ht Hc) as Hlt. simpl. lia.
  - unfold ClearState.
    set (w1 := mkWorld (set_clearState true (self w)) (heap w) (gui w) (log w)).
    assert (consistent w1) as (Hv1 & Ho1 & Ha1 & Hq1) by done.
    split; [|split; [|split]].
    + intros d. by rewrite ResetDelegate_no_delegate.
    + intros d p Hp _. by apply (ResetDelegate_all_cancelled w1 Ho1 d p).
    + intros d p. by rewrite ResetDelegate_no_delegate.
    + intros task d Ht Hc. rewrite (proj2 (proj2 (ResetDelegate_queue w1))).
      rewrite (proj1 (ResetDelegate_queue w1)) in Ht. by apply (Hq1 task d).
  - apply Hreset; unfold Destroy; cbn [heap gui self set_threadExit m_delegate];
      [done|apply ResetDelegate_queue|apply ResetDelegate_no_delegate].
Qed.

Lemma step_consistent (dbg : bool) (fmt : Formatting) (act : Action)
    (w w' : World) :
  consistent w -> step dbg fmt act w = Some w' -> consistent w'.
Proof.
  intros Hw. destruct act; simpl.
  - intros [= <-]. by apply (call_public_consistent (CallSetRouter router fetcher)).
  - intros [= <-].
    by apply (call_public_consistent
                (CallCalculateRoute checkpoints direction adjustToPrevRoute
                   readyCallback needMoreMapsCallback removeRouteCallback
                   progressCallback timeout)).
  - intros [= <-]. by apply (call_public_consistent CallClearState).
  - unfold Worker.ThreadFunc_turn.
    destruct (negb _); [by intros [= <-]|].
    pose proof (clear_state_handling_heap w) as Hh.
    pose proof (clear_state_handling_gui w) as Hg.
    destruct (clear_state_handling_members w) as (_ & _ & _ & Hd & _).
    assert (consistent (Worker.clear_state_handling w)) as Hw1.
    { destruct Hw as (Hv & Ho & Ha & Hq). split; [|split; [|split]].
      - intros d. rewrite Hh, Hd. apply Hv.
      - intros d p. rewrite Hh, Hd. apply Ho.
      - intros d p. rewrite Hh, Hd. apply Ha.
      - intros task d. rewrite Hh, Hg. apply Hq. }
    destruct (m_threadExit _); [by intros [= <-]|].
    destruct (negb _); [by intros [= <-]|].
    destruct (Worker.CalculateRoute dbg timer (Worker.clear_state_handling w))
      as [w2|] eqn:Hc; [|done].
    intros [= <-].
    destruct (CalculateRoute_keeps_delegate dbg timer _ _ Hc) as [Hh2 Hd2].
    destruct (CalculateRoute_queue dbg timer _ _ Hc) as (tasks & Hg2 & Ht).
    destruct Hw1 as (Hv1 & Ho1 & Ha1 & Hq1). split; [|split; [|split]].
    + intros d. rewrite Hh2, Hd2. apply Hv1.
    + intros d p. rewrite Hh2, Hd2. apply Ho1.
    + intros d p. rewrite Hh2, Hd2. apply Ha1.
    + intros task d. rewrite Hh2, Hg2, elem_of_app. intros [Hin|Hin] Hcalls.
      * by apply (Hq1 task d).
      * apply Hv1. by apply (Ht task d).
  - intros [= <-]. unfold RunGuiTask.
    destruct (gui w) as [|task rest] eqn:Hg; [done|].
    destruct Hw as (Hv & Ho & Ha & Hq). split; [|split; [|split]]; try done.
    intros task' d Ht Hc. cbn [gui heap] in *. apply (Hq task' d); [|done].
    rewrite Hg. by apply elem_of_cons; right.
Qed.

Lemma make_consistent (routingStatisticsCallback pointCheckCallback : option nat)
    (checkpoints : Checkpoints) (direction : m2.PointD) (adjust : bool) :
  consistent
    (make routingStatisticsCallback pointCheckCallback checkpoints direction
       adjust).
Proof.
  split; [|split; [|split]].
  - intros d Hd. discriminate Hd.
  - intros d p Hp. discriminate Hp.
  - intros d p Hd. discriminate Hd.
  - intros task d Ht. by apply elem_of_nil in Ht.
Qed.

Lemma run_consistent (dbg : bool) (fmt : Formatting) (acts : list Action)
    (w w' : World) :
  consistent w -> run dbg fmt acts w = Some w' -> consistent w'.
Proof.
  revert w. induction acts as [|act acts IH]; intros w Hw; simpl.
  - by intros [= <-].
  - destruct (step dbg fmt act w) as [w1|] eqn:Hstep; [|done].
    apply IH. by apply (step_consistent dbg fmt act w).
Qed.

End Consistency.

(** ** Live and cancelled proxies *)

Section LiveProxy.
Import AsyncRouter.

(** A call of the public interface leaves the queue as it is, and every
    proxy that was in the heap before it has its flag set after it. *)
Lemma call_public_cancels_all (c : PublicCall) (w : World) :
  others_cancelled w ->
  gui (call_public c w) = gui w
  /\ forall d, d < length (heap w) ->
       exists p, heap (call_public c w) !! d = Some p
                 /\ RouterDelegate_IsCancelled (RouterDelegateProxy.m_delegate p)
                    = true.
Proof.
  intros Ho.
  assert (forall w1 : World,
            others_cancelled w1 ->
            forall d, d < length (heap w1) ->
              exists p, heap (ResetDelegate w1) !! d = Some p
                        /\ RouterDelegate_IsCancelled
                             (RouterDelegateProxy.m_delegate p) = true) as Hall.
  { intros w1 Ho1 d Hd.
    rewrite <- (proj2 (proj2 (ResetDelegate_queue w1))) in Hd.
    destruct (lookup_lt_is_Some_2 _ _ Hd) as [p Hp]. exists p.
    split; [done|]. by apply (ResetDelegate_all_cancelled w1 Ho1 d). }
  destruct c; simpl.
  - split; [exact (proj1 (ResetDelegate_queue w))|]. by apply Hall.
  - unfold AsyncRouter.CalculateRoute. cbn [gui heap].
    set (w1 := mkWorld (set_request checkpoints direction adjustToPrevRoute
                          (self w)) (heap w) (gui w) (log w)).
    split; [exact (proj1 (ResetDelegate_queue w1))|].
    intros d Hd. destruct (Hall w1 Ho d Hd) as (p & Hp & Hc).
    exists p. split; [|done]. rewrite lookup_app_l; [done|].
    by apply lookup_lt_Some in Hp.
  - unfold ClearState.
    set (w1 := mkWorld (set_clearState true (self w)) (heap w) (gui w) (log w)).
    split; [exact (proj1 (ResetDelegate_queue w1))|]. by apply (Hall w1).
  - split; [exact (proj1 (ResetDelegate_queue w))|]. by apply Hall.
Qed.

Lemma delegate_task_calls_into (task : UiTask) :
  delegate_task task = true -> exists d, calls_into d task = true.
Proof.
  destruct task; try discriminate; intros _; eexists; simpl;
    by apply bool_decide_eq_true.
Qed.

Lemma ResetDelegate_idle (w : World) :
  m_delegate (self w) = None -> ResetDelegate w = w.
Proof. intros Hd. unfold ResetDelegate. by rewrite Hd. Qed.

End LiveProxy.

(** X1: over any run of a dispatcher, a proxy of the heap has its
    cancellation flag clear exactly when it is the active delegate, and the
    active delegate is an object of the heap: at most one proxy is live. *)
Theorem one_live_proxy (dbg : bool) (fmt : Formatting)
    (routingStatisticsCallback pointCheckCallback : option nat)
    (checkpoints : Checkpoints) (direction : m2.PointD) (adjust : bool)
    (acts : list Action) (w : AsyncRouter.World) :
  run dbg fmt acts
    (AsyncRouter.make routingStatisticsCallback pointCheckCallback checkpoints
       direction adjust) = Some w ->
  (forall (d : nat) (p : RouterDelegateProxy.t),
     AsyncRouter.heap w !! d = Some p ->
     (RouterDelegate_IsCancelled (RouterDelegateProxy.m_delegate p) = false
      <-> AsyncRouter.m_delegate (AsyncRouter.self w) = Some d))
  /\ (forall d : nat,
        AsyncRouter.m_delegate (AsyncRouter.self w) = Some d ->
        is_Some (AsyncRouter.heap w !! d)).
Proof.
  intros Hrun.
  destruct (run_consistent dbg fmt acts _ w (make_consistent _ _ _ _ _) Hrun)
    as (Hv & Ho & Ha & _).
  split.
  - intros d p Hp. split.
    + intros Hlive.
      destruct (decide (AsyncRouter.m_delegate (AsyncRouter.self w) = Some d))
        as [|Hne]; [done|].
      rewrite (Ho d p Hp Hne) in Hlive. discriminate Hlive.
    + intros Hd. by apply (Ha d p).
  - intros d Hd. apply lookup_lt_is_Some_2. by apply Hv.
Qed.

Lemma one_live_proxy_witness :
  run false Scenario.fmt
    (DoSetRouter (Some Scenario.lost) None :: Scenario.cycles 2)
    (AsyncRouter.make (Some 9) None Scenario.checkpoints Scenario.direction false)
  = Some Scenario.twice
  /\ forall d : nat,
       AsyncRouter.m_delegate (AsyncRouter.self Scenario.twice) = Some d ->
       is_Some (AsyncRouter.heap Scenario.twice !! d).
Proof.
  assert (run false Scenario.fmt
            (DoSetRouter (Some Scenario.lost) None :: Scenario.cycles 2)
            (AsyncRouter.make (Some 9) None Scenario.checkpoints
               Scenario.direction false)
          = Some Scenario.twice) as Hrun by (vm_compute; reflexivity).
  split; [exact Hrun|].
  exact (proj2 (one_live_proxy false Scenario.fmt _ _ _ _ _ _ _ Hrun)).
Defined.

(** X2: at any point of a run, once a call of the public interface
    ([SetRouter], [CalculateRoute], [ClearState] or the destructor) has
    returned, none of the [OnReady], [OnNeedMoreMaps] and [OnRemoveRoute]
    closures that were in the GUI thread's queue reaches a user callback when
    it runs; the queue itself is as it was. *)
Theorem stale_closures_are_dead (dbg : bool) (fmt : Formatting)
    (routingStatisticsCallback pointCheckCallback : option nat)
    (checkpoints : Checkpoints) (direction : m2.PointD) (adjust : bool)
    (acts : list Action) (w : AsyncRouter.World) (c : PublicCall) :
  run dbg fmt acts
    (AsyncRouter.make routingStatisticsCallback pointCheckCallback checkpoints
       direction adjust) = Some w ->
  AsyncRouter.gui (call_public c w) = AsyncRouter.gui w
  /\ forall task : UiTask,
       task ∈ AsyncRouter.gui (call_public c w) ->
       delegate_task task = true ->
       run_task fmt (AsyncRouter.heap (call_public c w)) task = [].
Proof.
  intros Hrun.
  destruct (run_consistent dbg fmt acts _ w (make_consistent _ _ _ _ _) Hrun)
    as (_ & Ho & _ & Hq).
  destruct (call_public_cancels_all c w Ho) as [Hg Hall].
  split; [exact Hg|].
  intros task Ht Hdel. rewrite Hg in Ht.
  destruct (delegate_task_calls_into task Hdel) as [d Hd].
  destruct (Hall d (Hq task d Ht Hd)) as (p & Hp & Hc).
  by apply (run_task_cancelled fmt _ d p).
Qed.

Lemma stale_closures_are_dead_witness :
  run false Scenario.fmt
    [DoSetRouter (Some Scenario.vehicle) None;
     DoCalculateRoute Scenario.checkpoints Scenario.direction false
       (Some 1) (Some 2) (Some 3) (Some 4) 0;
     DoWorkerTurn Scenario.timer]
    (AsyncRouter.make (Some 9) None Scenario.checkpoints Scenario.direction false)
  = Some (Scenario.served Scenario.vehicle None)
  /\ AsyncRouter.gui (call_public CallClearState
                        (Scenario.served Scenario.vehicle None))
     = AsyncRouter.gui (Scenario.served Scenario.vehicle None).
Proof.
  assert (run false Scenario.fmt
            [DoSetRouter (Some Scenario.vehicle) None;
             DoCalculateRoute Scenario.checkpoints Scenario.direction false
               (Some 1) (Some 2) (Some 3) (Some 4) 0;
             DoWorkerTurn Scenario.timer]
            (AsyncRouter.make (Some 9) None Scenario.checkpoints
               Scenario.direction false)
          = Some (Scenario.served Scenario.vehicle None)) as Hrun
    by (vm_compute; reflexivity).
  split; [exact Hrun|].
  exact (proj1 (stale_closures_are_dead false Scenario.fmt _ _ _ _ _ _ _
                  CallClearState Hrun)).
Defined.

(** X3: [SetRouter] twice is [SetRouter] with the arguments of the second
    call: the engine and fetcher of the last call are installed, the delegate
    that was active before the first call is cancelled once and uninstalled,
    and nothing else differs. *)
Theorem SetRouter_twice (router1 router2 : option IRouter.t)
    (fetcher1 fetcher2 : option IOnlineFetcher.t) (w : AsyncRouter.World) :
  AsyncRouter.SetRouter router2 fetcher2
    (AsyncRouter.SetRouter router1 fetcher1 w)
  = AsyncRouter.SetRouter router2 fetcher2 w
  /\ AsyncRouter.m_router
       (AsyncRouter.self
          (AsyncRouter.SetRouter router2 fetcher2
             (AsyncRouter.SetRouter router1 fetcher1 w))) = router2
  /\ AsyncRouter.m_absentFetcher
       (AsyncRouter.self
          (AsyncRouter.SetRouter router2 fetcher2
             (AsyncRouter.SetRouter router1 fetcher1 w))) = fetcher2.
Proof.
  split; [|split; reflexivity].
  unfold AsyncRouter.SetRouter at 1.
  rewrite ResetDelegate_idle.
  - unfold AsyncRouter.SetRouter. cbn [AsyncRouter.self AsyncRouter.heap
      AsyncRouter.gui AsyncRouter.log]. reflexivity.
  - unfold AsyncRouter.SetRouter.
    cbn [AsyncRouter.self AsyncRouter.set_router AsyncRouter.m_delegate].
    apply ResetDelegate_no_delegate.
Qed.

(** ** Where the worker stops *)

Section Stops.
Import AsyncRouter.

Lemma step_point_check (dbg : bool) (fmt : Formatting) (act : Action)
    (w w' : World) :
  point_check_set w -> step dbg fmt act w = Some w' -> point_check_set w'.
Proof.
  intros [Hcb Hheap].
  assert (forall w1 : World,
            heap w1 = heap w ->
            Forall (fun p => is_Some (RouterDelegateProxy.m_onPointCheck p))
                   (heap (ResetDelegate w1))) as Hreset.
  { intros w1 Hh. unfold ResetDelegate.
    destruct (m_delegate (self w1)); cbn [heap]; rewrite Hh; [|done].
    by apply Forall_alter. }
  destruct act; simpl.
  - intros [= <-]. split.
    + unfold SetRouter. cbn [self set_router m_pointCheckCallback].
      by rewrite ResetDelegate_members.
    + by apply Hreset.
  - intros [= <-]. unfold AsyncRouter.CalculateRoute.
    set (w1 := mkWorld (set_request checkpoints direction adjustToPrevRoute
                          (self w)) (heap w) (gui w) (log w)).
    assert (m_pointCheckCallback (self (ResetDelegate w1))
            = m_pointCheckCallback (self w)) as Hsame
      by by rewrite ResetDelegate_members.
    split; cbn [self heap set_hasRequest set_delegate m_pointCheckCallback].
    + by rewrite Hsame.
    + apply Forall_app. split; [by apply Hreset|].
      constructor; [|done]. simpl. by rewrite Hsame.
  - intros [= <-]. unfold ClearState. split.
    + by rewrite ResetDelegate_members.
    + by apply Hreset.
  - unfold Worker.ThreadFunc_turn.
    destruct (negb _); [by intros [= <-]|].
    assert (point_check_set (Worker.clear_state_handling w)) as [Hcb1 Hheap1].
    { split; [|by rewrite clear_state_handling_heap].
      unfold Worker.clear_state_handling.
      destruct (m_router (self w)); [|done].
      by destruct (m_clearState (self w)). }
    destruct (m_threadExit _); [by intros [= <-]|].
    destruct (negb _); [by intros [= <-]|].
    destruct (Worker.CalculateRoute dbg timer (Worker.clear_state_handling w))
      as [w2|] eqn:Hc; [|done].
    intros [= <-].
    destruct (CalculateRoute_keeps_delegate dbg timer _ _ Hc) as [Hh2 _].
    split; [|by rewrite Hh2].
    unfold Worker.CalculateRoute in Hc.
    destruct (Worker.Snapshot (self (Worker.clear_state_handling w)))
      as [a [l|]] eqn:Hs.
    + destruct (Worker.Execute _ _ _ _) as [[[] out]|]; [|done].
      injection Hc as <-. by destruct (Snapshot_Some _ _ _ Hs) as (-> & _).
    + injection Hc as <-. by rewrite (Snapshot_None _ _ Hs).
  - intros [= <-]. unfold RunGuiTask. by destruct (gui w).
Qed.

(** A step that cannot stop at a [CHECK] is taken. *)
Lemma step_returns (dbg : bool) (fmt : Formatting) (act : Action) (w : World) :
  handles_valid w ->
  (dbg = true -> point_check_set w) ->
  exists w', step dbg fmt act w = Some w'.
Proof.
  intros Hv Hcheck. destruct act; simpl; try by eexists.
  unfold Worker.ThreadFunc_turn.
  destruct (negb _); [by eexists|].
  destruct (m_threadExit _); [by eexists|].
  destruct (negb _); [by eexists|].
  destruct (CalculateRoute_returns dbg timer (Worker.clear_state_handling w))
    as [w' ->]; [| |by eexists].
  - intros d. rewrite clear_state_handling_heap.
    destruct (clear_state_handling_members w) as (_ & _ & _ & -> & _).
    apply Hv.
  - intros Hdbg d p _ Hp. rewrite clear_state_handling_heap in Hp.
    destruct (Hcheck Hdbg) as [_ Hall]. rewrite Forall_forall in Hall.
    apply Hall. by apply list_elem_of_lookup_2 in Hp.
Qed.

Lemma run_returns (dbg : bool) (fmt : Formatting) (acts : list Action)
    (w : World) :
  handles_valid w ->
  (dbg = true -> point_check_set w) ->
  exists w', run dbg fmt acts w = Some w'.
Proof.
  revert w. induction acts as [|act acts IH]; intros w Hv Hcheck; simpl.
  - by eexists.
  - destruct (step_returns dbg fmt act w Hv Hcheck) as [w1 Hstep].
    rewrite Hstep. apply IH.
    + by apply (step_valid dbg fmt act w).
    + intros Hdbg. by apply (step_point_check dbg fmt act w); [apply Hcheck|].
Qed.

(** With the debug marks compiled in and no point-check callback, the
    listeners stop at the first point-check report. *)
Lemma listeners_abort (proxy : RouterDelegateProxy.t)
    (calls : list DelegateCall) (pt : m2.PointD) :
  RouterDelegateProxy.m_onPointCheck proxy = None ->
  EngineOnPointCheck pt ∈ calls ->
  Worker.for_each (Worker.listener true proxy) calls = None.
Proof.
  intros Hcb. induction calls as [|call calls IH]; intros Hin.
  - by apply elem_of_nil in Hin.
  - apply elem_of_cons in Hin as [<-|Hin]; simpl.
    + unfold RouterDelegateProxy.OnPointCheck. by rewrite Hcb.
    + rewrite (IH Hin). by destruct (Worker.listener true proxy call) as [[]|].
Qed.

(** How a turn that goes on went. *)
Lemma turn_Continues (dbg : bool) (timer : Timer) (w w' : World) :
  Worker.ThreadFunc_turn dbg timer w = Worker.Continues w' ->
  m_threadExit (self w) = false
  /\ ((m_hasRequest (self w) = false /\ w' = Worker.clear_state_handling w)
      \/ (m_hasRequest (self w) = true
          /\ Worker.CalculateRoute dbg timer (Worker.clear_state_handling w)
             = Some w')).
Proof.
  unfold Worker.ThreadFunc_turn.
  destruct (negb _); [done|].
  destruct (clear_state_handling_members w) as (-> & -> & _).
  destruct (m_threadExit (self w)); [done|].
  destruct (m_hasRequest (self w)); simpl.
  - destruct (Worker.CalculateRoute _ _ _); [|done]. intros [= <-].
    split; [done|]. by right.
  - intros [= <-]. split; [done|]. by left.
Qed.

Lemma clear_state_handling_flag (w : World) :
  is_Some (m_router (self w)) ->
  m_clearState (self (Worker.clear_state_handling w)) = false.
Proof.
  intros [r Hr]. unfold Worker.clear_state_handling. rewrite Hr.
  by destruct (m_clearState (self w)) eqn:Hc.
Qed.

(** The worker's [CalculateRoute()] clears the has-request flag and leaves
    the exit and clear-state flags and the engine. *)
Lemma CalculateRoute_flags (dbg : bool) (timer : Timer) (w w' : World) :
  Worker.CalculateRoute dbg timer w = Some w' ->
  m_hasRequest (self w') = false
  /\ m_threadExit (self w') = m_threadExit (self w)
  /\ m_clearState (self w') = m_clearState (self w)
  /\ m_router (self w') = m_router (self w).
Proof.
  unfold Worker.CalculateRoute.
  destruct (Worker.Snapshot (self w)) as [a [l|]] eqn:Hs.
  - destruct (Worker.Execute _ _ _ _) as [[[] out]|]; [|done].
    intros [= <-]. by destruct (Snapshot_Some _ _ _ Hs) as (-> & _).
  - intros [= <-]. by rewrite (Snapshot_None _ _ Hs).
Qed.

(** A request without an active delegate is taken out of the slot and
    nothing else happens. *)
Lemma CalculateRoute_without_delegate (dbg : bool) (timer : Timer) (w : World) :
  m_delegate (self w) = None ->
  Worker.CalculateRoute dbg timer w
  = Some (mkWorld (set_hasRequest false (self w)) (heap w) (gui w) (log w)).
Proof.
  intros Hd. unfold Worker.CalculateRoute, Worker.Snapshot.
  destruct (m_hasRequest (self w)); simpl; [|done].
  destruct (m_router (self w)); [|done]. by rewrite Hd.
Qed.

End Stops.

(** X4: when [SHOW_ROUTE_DEBUG_MARKS] is not defined, or the dispatcher was
    constructed with a point-check callback, no run of a dispatcher stops at
    a [CHECK] or reaches a proxy that is not there: every call of the public
    interface, every turn of the worker and every closure of the GUI thread
    returns. *)
Theorem run_never_aborts (dbg : bool) (fmt : Formatting)
    (routingStatisticsCallback pointCheckCallback : option nat)
    (checkpoints : Checkpoints) (direction : m2.PointD) (adjust : bool)
    (acts : list Action) :
  (dbg = true -> is_Some pointCheckCallback) ->
  exists w : AsyncRouter.World,
    run dbg fmt acts
      (AsyncRouter.make routingStatisticsCallback pointCheckCallback
         checkpoints direction adjust) = Some w.
Proof.
  intros Hcheck. apply run_returns.
  - apply make_valid.
  - intros Hdbg. split; [exact (Hcheck Hdbg)|constructor].
Qed.

Lemma run_never_aborts_witness :
  (true = true -> is_Some (Some 7))
  /\ exists w : AsyncRouter.World,
       run true Scenario.fmt
         (DoSetRouter (Some Scenario.vehicle) None :: Scenario.cycle)
         (AsyncRouter.make None (Some 7) Scenario.checkpoints Scenario.direction
            false) = Some w.
Proof.
  assert (true = true -> is_Some (Some 7)) as Hcheck by (intros _; by eexists).
  split; [exact Hcheck|].
  exact (run_never_aborts true Scenario.fmt None (Some 7) Scenario.checkpoints
           Scenario.direction false
           (DoSetRouter (Some Scenario.vehicle) None :: Scenario.cycle) Hcheck).
Defined.

(** X5: with [SHOW_ROUTE_DEBUG_MARKS] defined and a proxy without a
    point-check callback, a point-check report of the engine stops the
    worker's [CalculateRoute()] at [CHECK(m_onPointCheck, ())], whether the
    proxy is cancelled or not; without the debug marks the same report posts
    nothing. *)
Theorem point_check_without_callback_aborts
    (heap : list RouterDelegateProxy.t) (timer : Timer) (l : Worker.Locals)
    (proxy : RouterDelegateProxy.t) (run : EngineRun) (pt : m2.PointD) :
  heap !! Worker.delegate l = Some proxy ->
  RouterDelegateProxy.m_onPointCheck proxy = None ->
  engine_run heap l = Some run ->
  EngineOnPointCheck pt ∈ reported run ->
  Worker.Execute true heap timer l = None
  /\ RouterDelegateProxy.OnPointCheck true proxy pt = None
  /\ RouterDelegateProxy.OnPointCheck true (RouterDelegateProxy.Cancel proxy) pt
     = None
  /\ RouterDelegateProxy.OnPointCheck false proxy pt = Some [].
Proof.
  intros Hp Hcb Hrun Hin.
  destruct (Conclude_total timer l run) as [post Hpost].
  rewrite (Execute_eq true heap timer l proxy run post Hp Hrun Hpost).
  rewrite (listeners_abort proxy (reported run) pt Hcb Hin).
  unfold RouterDelegateProxy.OnPointCheck. simpl. by rewrite Hcb.
Qed.

Lemma point_check_without_callback_aborts_witness :
  AsyncRouter.heap (Scenario.pending Scenario.marker None)
    !! Worker.delegate (Scenario.locals Scenario.marker None)
  = Some (RouterDelegateProxy.make (Some 1) (Some 2) (Some 3) None (Some 4) 0)
  /\ RouterDelegateProxy.m_onPointCheck
       (RouterDelegateProxy.make (Some 1) (Some 2) (Some 3) None (Some 4) 0)
     = None
  /\ engine_run (AsyncRouter.heap (Scenario.pending Scenario.marker None))
       (Scenario.locals Scenario.marker None)
     = Some (Scenario.call Scenario.marker)
  /\ EngineOnPointCheck (m2.mkPointD 5%float 6%float)
     ∈ reported (Scenario.call Scenario.marker)
  /\ Worker.Execute true (AsyncRouter.heap (Scenario.pending Scenario.marker None))
       Scenario.timer (Scenario.locals Scenario.marker None) = None.
Proof.
  assert (AsyncRouter.heap (Scenario.pending Scenario.marker None)
            !! Worker.delegate (Scenario.locals Scenario.marker None)
          = Some (RouterDelegateProxy.make (Some 1) (Some 2) (Some 3) None
                    (Some 4) 0)) as Hp by (vm_compute; reflexivity).
  assert (RouterDelegateProxy.m_onPointCheck
            (RouterDelegateProxy.make (Some 1) (Some 2) (Some 3) None (Some 4) 0)
          = None) as Hcb by reflexivity.
  assert (engine_run (AsyncRouter.heap (Scenario.pending Scenario.marker None))
            (Scenario.locals Scenario.marker None)
          = Some (Scenario.call Scenario.marker)) as Hrun
    by (vm_compute; reflexivity).
  assert (EngineOnPointCheck (m2.mkPointD 5%float 6%float)
          ∈ reported (Scenario.call Scenario.marker)) as Hin
    by (simpl; apply list_elem_of_here).
  split; [exact Hp|]. split; [exact Hcb|]. split; [exact Hrun|].
  split; [exact Hin|].
  exact (proj1 (point_check_without_callback_aborts _ Scenario.timer _ _ _ _
                  Hp Hcb Hrun Hin)).
Defined.

Section Turns.
Import AsyncRouter.

Lemma clear_state_handling_log (w : World) :
  exists events,
    log (Worker.clear_state_handling w) = log w ++ events
    /\ engine_calls events = [] /\ fetcher_kicks events = [].
Proof.
  unfold Worker.clear_state_handling.
  destruct (m_router (self w)) as [r|];
    [|by exists []; rewrite app_nil_r].
  destruct (m_clearState (self w)); [by eexists|].
  exists []. by rewrite app_nil_r.
Qed.

End Turns.

(** X6: with an engine installed, a turn of the worker's loop that goes on
    leaves all three of the exit, has-request and clear-state flags clear, so
    the worker's next wait blocks until the GUI thread calls in again. *)
Theorem worker_sleeps_after_turn (dbg dbg' : bool) (timer timer' : Timer)
    (w w' : AsyncRouter.World) :
  Worker.ThreadFunc_turn dbg timer w = Worker.Continues w' ->
  is_Some (AsyncRouter.m_router (AsyncRouter.self w)) ->
  AsyncRouter.m_threadExit (AsyncRouter.self w') = false
  /\ AsyncRouter.m_hasRequest (AsyncRouter.self w') = false
  /\ AsyncRouter.m_clearState (AsyncRouter.self w') = false
  /\ Worker.ThreadFunc_turn dbg' timer' w' = Worker.Waits.
Proof.
  intros Hturn Hr.
  destruct (turn_Continues dbg timer w w' Hturn) as [Hexit Hcases].
  destruct (clear_state_handling_members w) as (Hexit1 & Hreq1 & _).
  pose proof (clear_state_handling_flag w Hr) as Hclear1.
  assert (AsyncRouter.m_threadExit (AsyncRouter.self w') = false
          /\ AsyncRouter.m_hasRequest (AsyncRouter.self w') = false
          /\ AsyncRouter.m_clearState (AsyncRouter.self w') = false)
    as (He & Hq & Hc).
  { destruct Hcases as [[Hreq ->]|[Hreq Hcalc]].
    - by rewrite Hexit1, Hreq1, Hclear1, Hexit, Hreq.
    - destruct (CalculateRoute_flags dbg timer _ _ Hcalc) as (-> & -> & -> & _).
      by rewrite Hexit1, Hclear1, Hexit. }
  repeat (split; [done|]).
  unfold Worker.ThreadFunc_turn. by rewrite He, Hq, Hc.
Qed.

Lemma worker_sleeps_after_turn_witness :
  Worker.ThreadFunc_turn false Scenario.timer
    (Scenario.pending Scenario.vehicle None)
  = Worker.Continues (Scenario.served Scenario.vehicle None)
  /\ is_Some (AsyncRouter.m_router
                (AsyncRouter.self (Scenario.pending Scenario.vehicle None)))
  /\ Worker.ThreadFunc_turn false Scenario.timer
       (Scenario.served Scenario.vehicle None) = Worker.Waits.
Proof.
  assert (Worker.ThreadFunc_turn false Scenario.timer
            (Scenario.pending Scenario.vehicle None)
          = Worker.Continues (Scenario.served Scenario.vehicle None)) as Hturn
    by (vm_compute; reflexivity).
  assert (is_Some (AsyncRouter.m_router
                     (AsyncRouter.self (Scenario.pending Scenario.vehicle None))))
    as Hr by (by eexists).
  split; [exact Hturn|]. split; [exact Hr|].
  exact (proj2 (proj2 (proj2
    (worker_sleeps_after_turn false false Scenario.timer Scenario.timer _ _
       Hturn Hr)))).
Defined.

(** X7: on a dispatcher without an engine, without a request and not
    exiting, the worker after [ClearState] neither sleeps nor returns: each
    turn finds the clear-state flag set, changes nothing and goes round
    again, however many turns it takes. *)
Theorem worker_spins_without_engine (dbg : bool) (timers : list Timer)
    (w : AsyncRouter.World) :
  AsyncRouter.m_router (AsyncRouter.self w) = None ->
  AsyncRouter.m_threadExit (AsyncRouter.self w) = false ->
  AsyncRouter.m_hasRequest (AsyncRouter.self w) = false ->
  Worker.ThreadFunc dbg timers (AsyncRouter.ClearState w) = None
  /\ forall timer,
       Worker.ThreadFunc_turn dbg timer (AsyncRouter.ClearState w)
       = Worker.Continues (AsyncRouter.ClearState w).
Proof.
  intros Hr Hexit Hreq.
  destruct (clear_state_flag_stays w Hr) as [_ Hturn].
  split; [|by intros timer; apply Hturn].
  induction timers as [|timer timers IH]; [done|].
  simpl. by rewrite (Hturn dbg timer Hexit Hreq).
Qed.

Lemma worker_spins_without_engine_witness :
  AsyncRouter.m_router (AsyncRouter.self Scenario.fresh) = None
  /\ AsyncRouter.m_threadExit (AsyncRouter.self Scenario.fresh) = false
  /\ AsyncRouter.m_hasRequest (AsyncRouter.self Scenario.fresh) = false
  /\ Worker.ThreadFunc false [Scenario.timer; Scenario.timer; Scenario.timer]
       (AsyncRouter.ClearState Scenario.fresh) = None.
Proof.
  assert (AsyncRouter.m_router (AsyncRouter.self Scenario.fresh) = None)
    as Hr by reflexivity.
  assert (AsyncRouter.m_threadExit (AsyncRouter.self Scenario.fresh) = false)
    as Hexit by reflexivity.
  assert (AsyncRouter.m_hasRequest (AsyncRouter.self Scenario.fresh) = false)
    as Hreq by reflexivity.
  split; [exact Hr|]. split; [exact Hexit|]. split; [exact Hreq|].
  exact (proj1 (worker_spins_without_engine false
                  [Scenario.timer; Scenario.timer; Scenario.timer]
                  Scenario.fresh Hr Hexit Hreq)).
Defined.

(** X8: on an idle dispatcher with an engine, [ClearState] makes the worker
    call the engine's [ClearState] exactly once, reset the flag and go back
    to sleep; nothing is posted and the engine's [CalculateRoute] is not
    called. *)
Theorem ClearState_with_engine (dbg : bool) (timer1 timer2 : Timer)
    (timers : list Timer) (w : AsyncRouter.World) (router : IRouter.t) :
  AsyncRouter.m_router (AsyncRouter.self w) = Some router ->
  AsyncRouter.m_threadExit (AsyncRouter.self w) = false ->
  AsyncRouter.m_hasRequest (AsyncRouter.self w) = false ->
  Worker.ThreadFunc dbg (timer1 :: timer2 :: timers) (AsyncRouter.ClearState w)
  = Some (false,
          AsyncRouter.mkWorld
            (AsyncRouter.set_clearState false
               (AsyncRouter.self (AsyncRouter.ClearState w)))
            (AsyncRouter.heap (AsyncRouter.ClearState w))
            (AsyncRouter.gui w)
            (AsyncRouter.log w ++ [EvClearState (IRouter.GetName router)])).
Proof.
  intros Hr Hexit Hreq.
  assert (AsyncRouter.self (AsyncRouter.ClearState w)
          = AsyncRouter.set_delegate None
              (AsyncRouter.set_clearState true (AsyncRouter.self w))) as Hself
    by (unfold AsyncRouter.ClearState; by rewrite ResetDelegate_members).
  destruct (ResetDelegate_queue
              (AsyncRouter.mkWorld
                 (AsyncRouter.set_clearState true (AsyncRouter.self w))
                 (AsyncRouter.heap w) (AsyncRouter.gui w) (AsyncRouter.log w)))
    as (Hg & Hl & _).
  change (AsyncRouter.gui (AsyncRouter.ClearState w) = AsyncRouter.gui w) in Hg.
  change (AsyncRouter.log (AsyncRouter.ClearState w) = AsyncRouter.log w) in Hl.
  cbn [Worker.ThreadFunc].
  unfold Worker.ThreadFunc_turn at 1, Worker.clear_state_handling.
  rewrite Hself. simpl. rewrite Hr, Hg, Hl.
  repeat (first [rewrite Hexit | rewrite Hreq]; simpl).
  unfold Worker.ThreadFunc_turn. simpl.
  repeat (first [rewrite Hexit | rewrite Hreq]; simpl).
  reflexivity.
Qed.

Lemma ClearState_with_engine_witness :
  AsyncRouter.m_router (AsyncRouter.self Scenario.serving) = Some Scenario.lost
  /\ AsyncRouter.m_threadExit (AsyncRouter.self Scenario.serving) = false
  /\ AsyncRouter.m_hasRequest (AsyncRouter.self Scenario.serving) = false
  /\ Worker.ThreadFunc false [Scenario.timer; Scenario.timer]
       (AsyncRouter.ClearState Scenario.serving)
     = Some (false,
             AsyncRouter.mkWorld
               (AsyncRouter.set_clearState false
                  (AsyncRouter.self (AsyncRouter.ClearState Scenario.serving)))
               (AsyncRouter.heap (AsyncRouter.ClearState Scenario.serving))
               (AsyncRouter.gui Scenario.serving)
               (AsyncRouter.log Scenario.serving
                ++ [EvClearState (IRouter.GetName Scenario.lost)])).
Proof.
  assert (AsyncRouter.m_router (AsyncRouter.self Scenario.serving)
          = Some Scenario.lost) as Hr by reflexivity.
  assert (AsyncRouter.m_threadExit (AsyncRouter.self Scenario.serving) = false)
    as Hexit by reflexivity.
  assert (AsyncRouter.m_hasRequest (AsyncRouter.self Scenario.serving) = false)
    as Hreq by reflexivity.
  split; [exact Hr|]. split; [exact Hexit|]. split; [exact Hreq|].
  exact (ClearState_with_engine false Scenario.timer Scenario.timer []
           Scenario.serving Scenario.lost Hr Hexit Hreq).
Defined.

(** X9: a request that is still in its slot when [SetRouter] or
    [ClearState] is called is lost: at its next turn the worker takes it out
    of the slot without calling the engine's [CalculateRoute] or the fetcher
    and without posting anything, so no callback of that request will ever
    run. *)
Theorem pending_request_lost (dbg : bool) (timer : Timer) (c : PublicCall)
    (w : AsyncRouter.World) :
  (exists router fetcher, c = CallSetRouter router fetcher) \/ c = CallClearState ->
  AsyncRouter.m_threadExit (AsyncRouter.self w) = false ->
  AsyncRouter.m_hasRequest (AsyncRouter.self w) = true ->
  exists w' : AsyncRouter.World,
    Worker.ThreadFunc_turn dbg timer (call_public c w) = Worker.Continues w'
    /\ new_tasks (call_public c w) w' = []
    /\ engine_calls (new_events (call_public c w) w') = []
    /\ fetcher_kicks (new_events (call_public c w) w') = []
    /\ AsyncRouter.m_hasRequest (AsyncRouter.self w') = false
    /\ AsyncRouter.m_delegate (AsyncRouter.self w') = None
    /\ AsyncRouter.m_routeCounter (AsyncRouter.self w')
       = AsyncRouter.m_routeCounter (AsyncRouter.self w).
Proof.
  intros Hc Hexit Hreq.
  set (w1 := call_public c w).
  assert (AsyncRouter.m_delegate (AsyncRouter.self w1) = None
          /\ AsyncRouter.m_threadExit (AsyncRouter.self w1) = false
          /\ AsyncRouter.m_hasRequest (AsyncRouter.self w1) = true
          /\ AsyncRouter.m_routeCounter (AsyncRouter.self w1)
             = AsyncRouter.m_routeCounter (AsyncRouter.self w))
    as (Hd1 & Hexit1 & Hreq1 & Hn1).
  { unfold w1. destruct Hc as [(router & fetcher & ->)| ->]; simpl.
    - unfold AsyncRouter.SetRouter. cbn [AsyncRouter.self].
      rewrite ResetDelegate_members. by simpl.
    - unfold AsyncRouter.ClearState. rewrite ResetDelegate_members. by simpl. }
  destruct (clear_state_handling_members w1)
    as (Hexit2 & Hreq2 & _ & Hd2 & Hn2 & _).
  destruct (clear_state_handling_log w1) as (events & Hlog & Hcalls & Hkicks).
  pose proof (clear_state_handling_gui w1) as Hgui.
  rewrite Hd1 in Hd2. rewrite Hexit1 in Hexit2. rewrite Hreq1 in Hreq2.
  eexists. split.
  - unfold Worker.ThreadFunc_turn. rewrite Hreq1, orb_true_r. simpl.
    rewrite Hexit2, Hreq2. simpl.
    by rewrite (CalculateRoute_without_delegate dbg timer _ Hd2).
  - unfold new_tasks, new_events. cbn [AsyncRouter.gui AsyncRouter.log
      AsyncRouter.self].
    rewrite Hgui, Hlog, drop_all, drop_app_length.
    repeat (split; [done|]). simpl. by rewrite Hn2, Hn1.
Qed.

Lemma pending_request_lost_witness :
  ((exists router fetcher,
       CallSetRouter (Some Scenario.lost) None = CallSetRouter router fetcher)
   \/ CallSetRouter (Some Scenario.lost) None = CallClearState)
  /\ AsyncRouter.m_threadExit
       (AsyncRouter.self (Scenario.pending Scenario.vehicle None)) = false
  /\ AsyncRouter.m_hasRequest
       (AsyncRouter.self (Scenario.pending Scenario.vehicle None)) = true
  /\ exists w' : AsyncRouter.World,
       Worker.ThreadFunc_turn false Scenario.timer
         (call_public (CallSetRouter (Some Scenario.lost) None)
            (Scenario.pending Scenario.vehicle None))
       = Worker.Continues w'
       /\ new_tasks
            (call_public (CallSetRouter (Some Scenario.lost) None)
               (Scenario.pending Scenario.vehicle None)) w' = [].
Proof.
  assert ((exists router fetcher,
              CallSetRouter (Some Scenario.lost) None
              = CallSetRouter router fetcher)
          \/ CallSetRouter (Some Scenario.lost) None = CallClearState) as Hc
    by (left; by do 2 eexists).
  assert (AsyncRouter.m_threadExit
            (AsyncRouter.self (Scenario.pending Scenario.vehicle None)) = false)
    as Hexit by reflexivity.
  assert (AsyncRouter.m_hasRequest
            (AsyncRouter.self (Scenario.pending Scenario.vehicle None)) = true)
    as Hreq by reflexivity.
  split; [exact Hc|]. split; [exact Hexit|]. split; [exact Hreq|].
  destruct (pending_request_lost false Scenario.timer _ _ Hc Hexit Hreq)
    as (w' & Hturn & Htasks & _).
  exists w'. by split.
Defined.

(** ** The calls of the collaborators in an execution *)

Section Collaborators.
Import AsyncRouter.

Lemma engine_calls_app (e1 e2 : list Event) :
  engine_calls (e1 ++ e2) = engine_calls e1 ++ engine_calls e2.
Proof. apply omap_app. Qed.

Lemma fetcher_kicks_app (e1 e2 : list Event) :
  fetcher_kicks (e1 ++ e2) = fetcher_kicks e1 ++ fetcher_kicks e2.
Proof. apply omap_app. Qed.

Lemma prologue_calls (l : Worker.Locals) (proxy : RouterDelegateProxy.t) :
  engine_calls (Worker.prologue l proxy)
  = [(Worker.checkpoints l, Worker.startDirection l,
      Worker.adjustToPrevRoute l, RouterDelegateProxy.GetDelegate proxy)]
  /\ fetcher_kicks (Worker.prologue l proxy)
     = (if bool_decide (is_Some (Worker.absentFetcher l))
        then [Worker.checkpoints l] else [])
  /\ absent_fetches (Worker.prologue l proxy) = 0.
Proof. unfold Worker.prologue. by destruct (bool_decide _). Qed.

Lemma LogCode_calls (code : RouterResultCode) (t : double) :
  engine_calls [LogCode code t] = [] /\ fetcher_kicks [LogCode code t] = [].
Proof. by destruct code. Qed.

(** After the engine's call has ended the body calls neither the engine nor
    the fetcher's [GenerateRequest]. *)
Lemma Conclude_calls (timer : Timer) (l : Worker.Locals) (run : EngineRun)
    (post : Worker.Out) :
  Worker.Conclude timer l run = Some (tt, post) ->
  engine_calls (Worker.emitted post) = []
  /\ fetcher_kicks (Worker.emitted post) = [].
Proof.
  destruct (outcome run) as [code|msg] eqn:Ho.
  - destruct (Conclude_Returns timer l run code Ho) as (post' & Hd & ->).
    intros [= <-]. cbn [Worker.emitted].
    pose proof (Deliver_out timer l (route_after run) code) as Hd'.
    cbv zeta in Hd'. rewrite Hd' in Hd. injection Hd as <-.
    cbn [Worker.emitted].
    change (?x :: ?l) with ([x] ++ l).
    rewrite !engine_calls_app, !fetcher_kicks_app.
    rewrite !(proj1 (LogCode_calls _ _)), !(proj2 (LogCode_calls _ _)).
    by destruct (_ && _).
  - rewrite (Conclude_Throws timer l run msg Ho), Catch_out.
    by intros [= <-].
Qed.

(** What the locals are copies of. *)
Lemma Snapshot_locals (a a' : t) (l : Worker.Locals) :
  Worker.Snapshot a = (a', Some l) ->
  Worker.checkpoints l = m_checkpoints a
  /\ Worker.startDirection l = m_startDirection a
  /\ Worker.adjustToPrevRoute l = m_adjustToPrevRoute a
  /\ Worker.absentFetcher l = m_absentFetcher a
  /\ Worker.routingStatisticsCallback l = m_routingStatisticsCallback a
  /\ Worker.routerName l = IRouter.GetName (Worker.router l).
Proof.
  unfold Worker.Snapshot.
  destruct (m_hasRequest a); simpl; [|done].
  destruct (m_router a); [|done]. destruct (m_delegate a); [|done].
  by intros [= <- <-].
Qed.




End Collaborators.



(** ** Two requests before the worker wakes *)

Section Coalescing.
Import AsyncRouter.

(** The dispatcher after the public [CalculateRoute]. *)
Lemma CalculateRoute_submitted (checkpoints : Checkpoints)
    (direction : m2.PointD) (adjustToPrevRoute : bool)
    (readyCallback needMoreMapsCallback removeRouteCallback progressCallback
       : option nat)
    (timeout : Z) (w : World) :
  let w' :=
    AsyncRouter.CalculateRoute checkpoints direction adjustToPrevRoute
      readyCallback needMoreMapsCallback removeRouteCallback progressCallback
      timeout w in
  heap w' !! length (heap w)
  = Some (RouterDelegateProxy.make readyCallback needMoreMapsCallback
            removeRouteCallback (m_pointCheckCallback (self w))
            progressCallback timeout)
  /\ length (heap w') = S (length (heap w))
  /\ m_delegate (self w') = Some (length (heap w))
  /\ m_hasRequest (self w') = true
  /\ m_checkpoints (self w') = checkpoints
  /\ m_startDirection (self w') = direction
  /\ m_adjustToPrevRoute (self w') = adjustToPrevRoute
  /\ m_router (self w') = m_router (self w)
  /\ m_pointCheckCallback (self w') = m_pointCheckCallback (self w)
  /\ m_routeCounter (self w') = m_routeCounter (self w)
  /\ (forall d p,
        m_delegate (self w) = Some d -> heap w !! d = Some p ->
        heap w' !! d = Some (RouterDelegateProxy.Cancel p)).
Proof.
  cbv zeta. unfold AsyncRouter.CalculateRoute. cbn [self heap].
  rewrite !ResetDelegate_members.
  pose proof (ResetDelegate_queue
                (mkWorld (set_request checkpoints direction adjustToPrevRoute
                            (self w)) (heap w) (gui w) (log w)))
    as (_ & _ & Hlen).
  cbn [heap] in Hlen. rewrite Hlen.
  split; [by rewrite <- Hlen at 1; rewrite list_lookup_middle|].
  split; [rewrite length_app, Hlen; simpl; lia|].
  do 8 (split; [done|]).
  intros d p Hd Hp. rewrite lookup_app_l.
  - by apply ResetDelegate_cancels.
  - rewrite Hlen. by apply lookup_lt_Some in Hp.
Qed.

(** Handling the clear-state flag leaves the request slot as it is. *)
Lemma clear_state_handling_slot (w : World) :
  m_checkpoints (self (Worker.clear_state_handling w)) = m_checkpoints (self w)
  /\ m_startDirection (self (Worker.clear_state_handling w))
     = m_startDirection (self w)
  /\ m_adjustToPrevRoute (self (Worker.clear_state_handling w))
     = m_adjustToPrevRoute (self w).
Proof.
  unfold Worker.clear_state_handling.
  destruct (m_router (self w)); [|done]. by destruct (m_clearState (self w)).
Qed.

End Coalescing.

(** X11: when a second request is submitted before the worker has looked at
    the first, the worker's next turn calls the engine once, with the
    checkpoints, direction, flag and timeout of the second request; the
    proxy of the first request is in the heap with its flag set, no closure
    posted in the turn calls into it, and one route id is used, not two. *)
Theorem latest_request_wins (dbg : bool) (timer : Timer)
    (checkpoints1 checkpoints2 : Checkpoints)
    (direction1 direction2 : m2.PointD)
    (adjust1 adjust2 : bool)
    (ready1 needMoreMaps1 removeRoute1 progress1 : option nat)
    (ready2 needMoreMaps2 removeRoute2 progress2 : option nat)
    (timeout1 timeout2 : Z) (w w3 : AsyncRouter.World) :
  let w1 :=
    AsyncRouter.CalculateRoute checkpoints1 direction1 adjust1 ready1
      needMoreMaps1 removeRoute1 progress1 timeout1 w in
  let w2 :=
    AsyncRouter.CalculateRoute checkpoints2 direction2 adjust2 ready2
      needMoreMaps2 removeRoute2 progress2 timeout2 w1 in
  Worker.ThreadFunc_turn dbg timer w2 = Worker.Continues w3 ->
  is_Some (AsyncRouter.m_router (AsyncRouter.self w)) ->
  engine_calls (new_events w2 w3)
  = [(checkpoints2, direction2, adjust2, mkRouterDelegate false timeout2)]
  /\ AsyncRouter.heap w3 !! length (AsyncRouter.heap w)
     = Some (RouterDelegateProxy.Cancel
               (RouterDelegateProxy.make ready1 needMoreMaps1 removeRoute1
                  (AsyncRouter.m_pointCheckCallback (AsyncRouter.self w))
                  progress1 timeout1))
  /\ Forall (fun task => calls_into (length (AsyncRouter.heap w)) task = false)
            (new_tasks w2 w3)
  /\ AsyncRouter.m_hasRequest (AsyncRouter.self w3) = false
  /\ AsyncRouter.m_routeCounter (AsyncRouter.self w3)
     = uint64_incr (AsyncRouter.m_routeCounter (AsyncRouter.self w)).
Proof.
  intros w1 w2 Hturn [router Hrouter].
  destruct (CalculateRoute_submitted checkpoints1 direction1 adjust1 ready1
              needMoreMaps1 removeRoute1 progress1 timeout1 w)
    as (Hp1 & Hlen1 & Hd1 & _ & _ & _ & _ & Hr1 & Hpc1 & Hn1 & _).
  fold w1 in Hp1, Hlen1, Hd1, Hr1, Hpc1, Hn1.
  destruct (CalculateRoute_submitted checkpoints2 direction2 adjust2 ready2
              needMoreMaps2 removeRoute2 progress2 timeout2 w1)
    as (Hp2 & Hlen2 & Hd2 & Hreq2 & Hc2 & Hs2 & Ha2 & Hr2 & _ & Hn2 & Hold).
  fold w2 in Hp2, Hlen2, Hd2, Hreq2, Hc2, Hs2, Ha2, Hr2, Hn2, Hold.
  specialize (Hold _ _ Hd1 Hp1).
  destruct (turn_Continues dbg timer w2 w3 Hturn)
    as (_ & [[Hreq _]|[_ Hcalc]]); [congruence|].
  set (wc := Worker.clear_state_handling w2) in *.
  destruct (clear_state_handling_members w2)
    as (_ & Hreqc & Hrc & Hdc & Hnc & _).
  destruct (clear_state_handling_slot w2) as (Hcc & Hsc & Hac).
  pose proof (clear_state_handling_heap w2) as Hheap.
  destruct (clear_state_handling_log w2) as (ev1 & Hlog1 & Hcalls1 & _).
  fold wc in Hreqc, Hrc, Hdc, Hnc, Hcc, Hsc, Hac, Hheap, Hlog1.
  destruct (Worker.Snapshot (AsyncRouter.self wc)) as [a [l|]] eqn:Hsnap.
  2: { unfold Worker.Snapshot in Hsnap.
       rewrite Hreqc, Hreq2 in Hsnap. simpl in Hsnap.
       rewrite Hrc, Hr2, Hr1, Hrouter, Hdc, Hd2 in Hsnap. done. }
  destruct (Snapshot_Some _ _ _ Hsnap) as (Ha & _ & Hdl & _ & _).
  destruct (Snapshot_locals _ _ _ Hsnap) as (Hlc & Hls & Hla & _).
  assert ((Worker.Snapshot (AsyncRouter.self wc)).2 = Some l) as Hsnap2
    by by rewrite Hsnap.
  destruct (CalculateRoute_inv dbg timer wc w3 l Hcalc Hsnap2)
    as (out & He & Hself & Hheap3 & Htasks & Hevents).
  destruct (Execute_inv dbg _ timer l out He)
    as (proxy & run & pre & post & Hp & _ & _ & Hpost & _ & Hem).
  assert (Worker.delegate l = length (AsyncRouter.heap w1)) as Hdl'
    by (rewrite Hdc, Hd2 in Hdl; congruence).
  rewrite Hheap, Hdl', Hp2 in Hp. injection Hp as <-.
  assert (AsyncRouter.gui wc = AsyncRouter.gui w2
          /\ AsyncRouter.log wc = AsyncRouter.log w2 ++ ev1) as [Hgui Hlogc].
  { split; [|exact Hlog1]. unfold wc, Worker.clear_state_handling.
    destruct (AsyncRouter.m_router (AsyncRouter.self w2)); [|done].
    by destruct (AsyncRouter.m_clearState (AsyncRouter.self w2)). }
  assert (new_tasks w2 w3 = new_tasks wc w3) as ->
    by (unfold new_tasks; by rewrite Hgui).
  assert (new_events w2 w3 = ev1 ++ new_events wc w3) as ->.
  { unfold new_events in *.
    assert (exists evs, AsyncRouter.log w3 = AsyncRouter.log wc ++ evs)
      as [evs Hevs].
    { unfold Worker.CalculateRoute in Hcalc. rewrite Hsnap, He in Hcalc.
      injection Hcalc as <-. by eexists. }
    rewrite Hevs, Hlogc, drop_app_length, <- app_assoc.
    by rewrite drop_app_length. }
  split; [|split; [|split; [|split]]].
  - rewrite engine_calls_app, Hcalls1, Hevents, Hem, engine_calls_app.
    rewrite (proj1 (prologue_calls l _)).
    rewrite (proj1 (Conclude_calls timer l run post Hpost)).
    by rewrite Hlc, Hls, Hla, Hcc, Hsc, Hac, Hc2, Hs2, Ha2.
  - rewrite Hheap3, Hheap. exact Hold.
  - rewrite Htasks. apply Forall_forall. intros task Ht.
    destruct (calls_into (length (AsyncRouter.heap w)) task) eqn:Hc; [|done].
    pose proof (Execute_targets dbg _ timer l out He task _ Ht Hc) as Heq.
    rewrite Hdl', Hlen1 in Heq. lia.
  - rewrite Hself, Hsnap. simpl. by rewrite Ha.
  - rewrite Hself, Hsnap. simpl. rewrite Ha. simpl.
    by rewrite Hnc, Hn2, Hn1.
Qed.

Lemma latest_request_wins_witness :
  Worker.ThreadFunc_turn false Scenario.timer Scenario.superseded
  = Worker.Continues Scenario.latest
  /\ is_Some (AsyncRouter.m_router
                (AsyncRouter.self
                   (AsyncRouter.SetRouter (Some Scenario.vehicle) None
                      Scenario.fresh)))
  /\ engine_calls (new_events Scenario.superseded Scenario.latest)
     = [(Scenario.checkpoints, m2.mkPointD 1%float 0%float, true,
         mkRouterDelegate false 7)].
Proof.
  assert (Worker.ThreadFunc_turn false Scenario.timer Scenario.superseded
          = Worker.Continues Scenario.latest) as Hturn
    by (vm_compute; reflexivity).
  assert (is_Some (AsyncRouter.m_router
                     (AsyncRouter.self
                        (AsyncRouter.SetRouter (Some Scenario.vehicle) None
                           Scenario.fresh)))) as Hr by (by eexists).
  split; [exact Hturn|]. split; [exact Hr|].
  exact (proj1
    (latest_request_wins false Scenario.timer Scenario.checkpoints
       Scenario.checkpoints Scenario.direction (m2.mkPointD 1%float 0%float)
       false true (Some 1) (Some 2) (Some 3) (Some 4) (Some 5) None None None
       0 7 (AsyncRouter.SetRouter (Some Scenario.vehicle) None Scenario.fresh)
       Scenario.latest Hturn Hr)).
Defined.

(** ** What an execution posts, and what the user sees of it *)

Section Delivery.
Import AsyncRouter.

(** The progress and point-check closures run the same whatever has become
    of the proxies. *)
Lemma run_task_listener (fmt : Formatting)
    (heap1 heap2 : list RouterDelegateProxy.t) (tasks : list UiTask) :
  Forall listener_task tasks ->
  tasks ≫= run_task fmt heap1 = tasks ≫= run_task fmt heap2.
Proof.
  induction 1 as [|task tasks Ht _ IH]; [done|].
  rewrite !bind_cons, IH. by destruct task.
Qed.

(** The closures of a cancelled proxy make no call. *)
Lemma run_tasks_cancelled (fmt : Formatting)
    (heap : list RouterDelegateProxy.t) (d : nat) (p : RouterDelegateProxy.t)
    (tasks : list UiTask) :
  heap !! d = Some p ->
  RouterDelegate_IsCancelled (RouterDelegateProxy.m_delegate p) = true ->
  Forall (fun task => calls_into d task = true) tasks ->
  tasks ≫= run_task fmt heap = [].
Proof.
  intros Hp Hc. induction 1 as [|task tasks Ht _ IH]; [done|].
  by rewrite bind_cons, IH, (run_task_cancelled fmt heap d p task Hp Hc Ht).
Qed.

(** A call of the public interface sets the flag of the active delegate. *)
Lemma call_public_cancels_active (c : PublicCall) (w : World) (d : nat)
    (p : RouterDelegateProxy.t) :
  m_delegate (self w) = Some d ->
  heap w !! d = Some p ->
  heap (call_public c w) !! d = Some (RouterDelegateProxy.Cancel p).
Proof.
  intros Hd Hp.
  destruct c as [router fetcher
                |checkpoints direction adjust ready needMoreMaps removeRoute
                   progress timeout| |]; simpl.
  - unfold SetRouter. cbn [heap]. by apply ResetDelegate_cancels.
  - by apply (CalculateRoute_submitted checkpoints direction adjust ready
                needMoreMaps removeRoute progress timeout w).
  - unfold ClearState. by apply ResetDelegate_cancels.
  - unfold Destroy. cbn [heap]. by apply ResetDelegate_cancels.
Qed.

(** The closures posted after the engine's call: the statistics closure
    first, then those that call into the proxy of the request. *)
Lemma Conclude_posts (timer : Timer) (l : Worker.Locals) (run : EngineRun)
    (post : Worker.Out) :
  Worker.Conclude timer l run = Some (tt, post) ->
  exists results,
    Worker.scheduled post =
      match outcome run with
      | Returns code =>
          GuiSendStatistics (Worker.checkpoints l) (Worker.startDirection l)
            code (GetTotalDistanceMeters (route_after run))
            (routing_time timer) (Worker.routingStatisticsCallback l)
            (Worker.routerName l)
      | Throws msg =>
          GuiSendStatisticsException (Worker.checkpoints l)
            (Worker.startDirection l) msg (Worker.routingStatisticsCallback l)
            (Worker.routerName l)
      end :: results
    /\ Forall (fun task => calls_into (Worker.delegate l) task = true) results.
Proof.
  destruct (outcome run) as [code|msg] eqn:Ho.
  - destruct (Conclude_Returns timer l run code Ho) as (post' & Hd & ->).
    intros [= <-]. cbn [Worker.scheduled].
    pose proof (Deliver_out timer l (route_after run) code) as Hd'.
    cbv zeta in Hd'. rewrite Hd' in Hd. injection Hd as <-.
    clear Hd'. cbn [Worker.scheduled]. eexists. split; [reflexivity|].
    rewrite Forall_app. split.
    + destruct (bool_decide (code = NoError)); [|by constructor].
      constructor; [|by constructor]. simpl. by apply bool_decide_eq_true.
    + destruct (bool_decide (_ = NoError)); [by constructor|].
      destruct (bool_decide (_ = NeedMoreMaps));
        (constructor; [|by constructor]); simpl; by apply bool_decide_eq_true.
  - rewrite (Conclude_Throws timer l run msg Ho), Catch_out.
    intros [= <-]. cbn [Worker.scheduled]. eexists. split; [reflexivity|].
    constructor; [|by constructor]. simpl. by apply bool_decide_eq_true.
Qed.

End Delivery.

(** X12: the closures an execution of the worker's [CalculateRoute()] posts
    are, in this order: those of the progress and point-check listeners,
    the statistics closure, the [OnReady] closure (for [NoError], or after a
    throw) and the secondary closure.  The statistics closure holds the
    checkpoints, direction and sink of the dispatcher, the code as the engine
    returned it (before the upgrade to [NeedMoreMaps]) and the time read
    before the absent countries are fetched. *)
Theorem posted_in_order (dbg : bool) (timer : Timer)
    (w w' : AsyncRouter.World) (l : Worker.Locals) (run : EngineRun) :
  Worker.CalculateRoute dbg timer w = Some w' ->
  (Worker.Snapshot (AsyncRouter.self w)).2 = Some l ->
  engine_run (AsyncRouter.heap w) l = Some run ->
  exists (pre : list UiTask) (d : nat),
    AsyncRouter.m_delegate (AsyncRouter.self w) = Some d
    /\ Forall listener_task pre
    /\ new_tasks w w' =
       pre ++
       match outcome run with
       | Returns code =>
           let final := Worker.Upgrade (drained l code) code in
           [GuiSendStatistics (AsyncRouter.m_checkpoints (AsyncRouter.self w))
              (AsyncRouter.m_startDirection (AsyncRouter.self w)) code
              (GetTotalDistanceMeters (route_after run)) (routing_time timer)
              (AsyncRouter.m_routingStatisticsCallback (AsyncRouter.self w))
              (IRouter.GetName (Worker.router l))]
           ++ (if bool_decide (code = NoError)
               then [GuiOnReady d (route_after run) code] else [])
           ++ (if bool_decide (final = NoError) then []
               else if bool_decide (final = NeedMoreMaps)
                    then [GuiOnNeedMoreMaps d (Worker.routeId l)
                            (drained l code)]
                    else [GuiOnRemoveRoute d final])
       | Throws msg =>
           [GuiSendStatisticsException
              (AsyncRouter.m_checkpoints (AsyncRouter.self w))
              (AsyncRouter.m_startDirection (AsyncRouter.self w)) msg
              (AsyncRouter.m_routingStatisticsCallback (AsyncRouter.self w))
              (IRouter.GetName (Worker.router l));
            GuiOnReady d (route_after run) InternalError]
       end.
Proof.
  intros Hc Hs Hr.
  destruct (Worker.Snapshot (AsyncRouter.self w)) as [a l'] eqn:Hsnap.
  simpl in Hs. subst l'.
  destruct (Snapshot_Some _ _ _ Hsnap) as (_ & _ & Hd & _).
  destruct (Snapshot_locals _ _ _ Hsnap) as (Hlc & Hls & _ & _ & Hlr & Hln).
  assert ((Worker.Snapshot (AsyncRouter.self w)).2 = Some l) as Hs
    by by rewrite Hsnap.
  rewrite <- Hlc, <- Hls, <- Hlr, <- Hln.
  destruct (outcome run) as [code|msg] eqn:Ho.
  - destruct (CalculateRoute_Returns dbg timer w w' l run code Hc Hs Hr Ho)
      as (proxy & pre & _ & Hpre & Htasks & _).
    by exists pre, (Worker.delegate l).
  - destruct (CalculateRoute_Throws dbg timer w w' l run msg Hc Hs Hr Ho)
      as (proxy & pre & _ & Hpre & Htasks & _).
    by exists pre, (Worker.delegate l).
Qed.

Lemma posted_in_order_witness :
  Worker.CalculateRoute false Scenario.timer
    (Scenario.pending Scenario.faulty None)
  = Some (Scenario.served Scenario.faulty None)
  /\ (Worker.Snapshot
        (AsyncRouter.self (Scenario.pending Scenario.faulty None))).2
     = Some (Scenario.locals Scenario.faulty None)
  /\ engine_run (AsyncRouter.heap (Scenario.pending Scenario.faulty None))
       (Scenario.locals Scenario.faulty None)
     = Some (Scenario.call Scenario.faulty)
  /\ exists (pre : list UiTask) (d : nat),
       Forall listener_task pre
       /\ new_tasks (Scenario.pending Scenario.faulty None)
            (Scenario.served Scenario.faulty None)
          = pre
            ++ [GuiSendStatisticsException Scenario.checkpoints
                  Scenario.direction "bad mwm" (Some 9) "vehicle";
                GuiOnReady d (route_after (Scenario.call Scenario.faulty))
                  InternalError].
Proof.
  assert (Worker.CalculateRoute false Scenario.timer
            (Scenario.pending Scenario.faulty None)
          = Some (Scenario.served Scenario.faulty None))
    as Hc by (vm_compute; reflexivity).
  assert ((Worker.Snapshot
             (AsyncRouter.self (Scenario.pending Scenario.faulty None))).2
          = Some (Scenario.locals Scenario.faulty None))
    as Hs by (vm_compute; reflexivity).
  assert (engine_run (AsyncRouter.heap (Scenario.pending Scenario.faulty None))
            (Scenario.locals Scenario.faulty None)
          = Some (Scenario.call Scenario.faulty))
    as Hr by (vm_compute; reflexivity).
  split; [exact Hc|]. split; [exact Hs|]. split; [exact Hr|].
  destruct (posted_in_order false Scenario.timer _ _ _ _ Hc Hs Hr)
    as (pre & d & _ & Hpre & Htasks).
  exists pre, d. split; [exact Hpre|]. exact Htasks.
Defined.

(** X13: when a call of the public interface ([SetRouter],
    [CalculateRoute], [ClearState] or the destructor) comes after the worker
    has served a request and before the GUI thread has run the closures of
    that request, the user's ready, need-more-maps and remove-route
    callbacks are not called, but the calls of the progress and point-check
    closures and the call of the statistics sink are made all the same. *)
Theorem superseded_result_is_counted (dbg : bool) (fmt : Formatting)
    (timer : Timer) (w w' : AsyncRouter.World) (l : Worker.Locals)
    (run : EngineRun) (c : PublicCall) :
  Worker.CalculateRoute dbg timer w = Some w' ->
  (Worker.Snapshot (AsyncRouter.self w)).2 = Some l ->
  engine_run (AsyncRouter.heap w) l = Some run ->
  exists pre : list UiTask,
    Forall listener_task pre
    /\ new_tasks w w' ≫= run_task fmt (AsyncRouter.heap (call_public c w'))
       = (pre ≫= run_task fmt (AsyncRouter.heap w))
         ++ match outcome run with
            | Returns code =>
                SendStatistics fmt
                  (GetStart (AsyncRouter.m_checkpoints (AsyncRouter.self w)))
                  (AsyncRouter.m_startDirection (AsyncRouter.self w))
                  (GetFinish (AsyncRouter.m_checkpoints (AsyncRouter.self w)))
                  code (GetTotalDistanceMeters (route_after run))
                  (routing_time timer)
                  (AsyncRouter.m_routingStatisticsCallback (AsyncRouter.self w))
                  (IRouter.GetName (Worker.router l))
            | Throws msg =>
                SendStatisticsException fmt
                  (GetStart (AsyncRouter.m_checkpoints (AsyncRouter.self w)))
                  (AsyncRouter.m_startDirection (AsyncRouter.self w))
                  (GetFinish (AsyncRouter.m_checkpoints (AsyncRouter.self w)))
                  msg
                  (AsyncRouter.m_routingStatisticsCallback (AsyncRouter.self w))
                  (IRouter.GetName (Worker.router l))
            end.
Proof.
  intros Hc Hs Hr.
  destruct (CalculateRoute_inv dbg timer w w' l Hc Hs)
    as (out & He & Hself & Hheap & -> & _).
  destruct (Execute_inv dbg _ timer l out He)
    as (proxy & run' & pre & post & Hp & Hr' & Hl & Hpost & -> & _).
  rewrite Hr in Hr'. injection Hr' as <-.
  destruct (Worker.Snapshot (AsyncRouter.self w)) as [a l'] eqn:Hsnap.
  simpl in Hs, Hself. subst l'.
  destruct (Snapshot_Some _ _ _ Hsnap) as (Ha & _ & Hd & _).
  destruct (Snapshot_locals _ _ _ Hsnap) as (Hlc & Hls & _ & _ & Hlr & Hln).
  assert (AsyncRouter.m_delegate (AsyncRouter.self w')
          = Some (Worker.delegate l)) as Hd'
    by (rewrite Hself, Ha; exact Hd).
  rewrite <- Hheap in Hp.
  pose proof (call_public_cancels_active c w' _ _ Hd' Hp) as Hcancelled.
  destruct (Conclude_posts timer l run post Hpost) as (results & -> & Hres).
  exists (Worker.scheduled pre).
  split; [exact (proj1 (listeners_out _ _ _ _ Hl))|].
  rewrite bind_app, bind_cons.
  rewrite (run_tasks_cancelled fmt _ _ _ results Hcancelled eq_refl Hres).
  rewrite app_nil_r, <- Hlc, <- Hls, <- Hlr, <- Hln.
  f_equal.
  - apply run_task_listener. exact (proj1 (listeners_out _ _ _ _ Hl)).
  - by destruct (outcome run).
Qed.

Lemma superseded_result_is_counted_witness :
  Worker.CalculateRoute false Scenario.timer
    (Scenario.pending Scenario.vehicle None)
  = Some (Scenario.served Scenario.vehicle None)
  /\ (Worker.Snapshot
        (AsyncRouter.self (Scenario.pending Scenario.vehicle None))).2
     = Some (Scenario.locals Scenario.vehicle None)
  /\ engine_run (AsyncRouter.heap (Scenario.pending Scenario.vehicle None))
       (Scenario.locals Scenario.vehicle None)
     = Some (Scenario.call Scenario.vehicle)
  /\ exists pre : list UiTask,
       new_tasks (Scenario.pending Scenario.vehicle None)
         (Scenario.served Scenario.vehicle None)
       ≫= run_task Scenario.fmt
            (AsyncRouter.heap
               (call_public CallClearState
                  (Scenario.served Scenario.vehicle None)))
       = (pre
          ≫= run_task Scenario.fmt
               (AsyncRouter.heap (Scenario.pending Scenario.vehicle None)))
         ++ SendStatistics Scenario.fmt (GetStart Scenario.checkpoints)
              Scenario.direction (GetFinish Scenario.checkpoints) NoError
              1200%float 1%float (Some 9) "vehicle".
Proof.
  assert (Worker.CalculateRoute false Scenario.timer
            (Scenario.pending Scenario.vehicle None)
          = Some (Scenario.served Scenario.vehicle None))
    as Hc by (vm_compute; reflexivity).
  assert ((Worker.Snapshot
             (AsyncRouter.self (Scenario.pending Scenario.vehicle None))).2
          = Some (Scenario.locals Scenario.vehicle None))
    as Hs by (vm_compute; reflexivity).
  assert (engine_run (AsyncRouter.heap (Scenario.pending Scenario.vehicle None))
            (Scenario.locals Scenario.vehicle None)
          = Some (Scenario.call Scenario.vehicle))
    as Hr by (vm_compute; reflexivity).
  split; [exact Hc|]. split; [exact Hs|]. split; [exact Hr|].
  destruct (superseded_result_is_counted false Scenario.fmt Scenario.timer _ _
              _ _ CallClearState Hc Hs Hr) as (pre & _ & Hcalls).
  exists pre. exact Hcalls.
Defined.

(** ** The fetcher, the listeners and the log lines *)

Section Reports.
Import AsyncRouter.

(** The closures the listeners of a live proxy post for the reports of the
    engine. *)
Lemma listeners_live (dbg : bool) (proxy : RouterDelegateProxy.t)
    (onProgress onPointCheck : nat) (calls : list DelegateCall) :
  RouterDelegate_IsCancelled (RouterDelegateProxy.m_delegate proxy) = false ->
  RouterDelegateProxy.m_onProgress proxy = Some onProgress ->
  (dbg = true ->
   RouterDelegateProxy.m_onPointCheck proxy = Some onPointCheck) ->
  Worker.for_each (Worker.listener dbg proxy) calls
  = Some (tt,
          Worker.mkOut
            (omap (fun call =>
                     match call with
                     | EngineOnProgress progress =>
                         Some (GuiProgress onProgress progress)
                     | EngineOnPointCheck pt =>
                         if dbg then Some (GuiPointCheck onPointCheck pt)
                         else None
                     end) calls) []).
Proof.
  intros Hlive Hprogress Hcheck.
  induction calls as [|call calls IH]; [done|].
  simpl. rewrite IH. destruct call as [progress|pt]; simpl.
  - unfold RouterDelegateProxy.OnProgress. by rewrite Hprogress, Hlive.
  - unfold RouterDelegateProxy.OnPointCheck. destruct dbg; [|done].
    by rewrite (Hcheck eq_refl), Hlive.
Qed.

End Reports.

(** X14: in an execution of the worker's [CalculateRoute()] the fetcher's
    [GenerateRequest] is called once, with the checkpoints of the request,
    if a fetcher is installed, and before the engine's [CalculateRoute];
    after the engine's call neither is called again and
    [GetAbsentCountries] is called at most once.  When the engine throws,
    [GetAbsentCountries] is not called and no secondary closure is posted:
    the fetcher that was started is left as it is. *)
Theorem fetcher_protocol (dbg : bool) (timer : Timer)
    (w w' : AsyncRouter.World) (l : Worker.Locals) (run : EngineRun) :
  Worker.CalculateRoute dbg timer w = Some w' ->
  (Worker.Snapshot (AsyncRouter.self w)).2 = Some l ->
  engine_run (AsyncRouter.heap w) l = Some run ->
  exists (before after : list Event) (proxy : RouterDelegateProxy.t),
    AsyncRouter.heap w !! Worker.delegate l = Some proxy
    /\ new_events w w' =
       before
       ++ EvCalculateRoute (IRouter.GetName (Worker.router l))
            (AsyncRouter.m_checkpoints (AsyncRouter.self w))
            (AsyncRouter.m_startDirection (AsyncRouter.self w))
            (AsyncRouter.m_adjustToPrevRoute (AsyncRouter.self w))
            (RouterDelegateProxy.GetDelegate proxy)
            (new_Route (IRouter.GetName (Worker.router l)) (Worker.routeId l))
          :: after
    /\ fetcher_kicks before
       = (if bool_decide
               (is_Some (AsyncRouter.m_absentFetcher (AsyncRouter.self w)))
          then [AsyncRouter.m_checkpoints (AsyncRouter.self w)] else [])
    /\ engine_calls before = []
    /\ absent_fetches before = 0
    /\ fetcher_kicks after = []
    /\ engine_calls after = []
    /\ absent_fetches after <= 1
    /\ (forall msg,
          outcome run = Throws msg ->
          absent_fetches after = 0 /\ secondary_tasks (new_tasks w w') = []).
Proof.
  intros Hc Hs Hr.
  destruct (Worker.Snapshot (AsyncRouter.self w)) as [a l'] eqn:Hsnap.
  simpl in Hs. subst l'.
  destruct (Snapshot_locals _ _ _ Hsnap) as (Hlc & Hls & Hla & Hlf & _).
  assert ((Worker.Snapshot (AsyncRouter.self w)).2 = Some l) as Hs
    by by rewrite Hsnap.
  rewrite <- Hlc, <- Hls, <- Hla, <- Hlf.
  exists (EvLog LINFO "Calculating the route." None
          :: (if bool_decide (is_Some (Worker.absentFetcher l))
              then [EvGenerateRequest (Worker.checkpoints l)] else [])).
  destruct (outcome run) as [code|msg] eqn:Ho.
  - destruct (CalculateRoute_Returns dbg timer w w' l run code Hc Hs Hr Ho)
      as (proxy & pre & Hp & _ & _ & Hevents).
    exists ([AsyncRouter.LogCode code (routing_time timer)]
            ++ (if bool_decide (is_Some (Worker.absentFetcher l))
                   && bool_decide (code <> Cancelled)
                then [EvGetAbsentCountries] else [])
            ++ [AsyncRouter.LogCode (Worker.Upgrade (drained l code) code)
                  (routing_and_fetch_time timer)]), proxy.
    split; [exact Hp|].
    split; [rewrite Hevents; unfold Worker.prologue;
            rewrite <- !app_comm_cons; by rewrite <- app_assoc|].
    split; [by destruct (bool_decide (is_Some _))|].
    split; [by destruct (bool_decide (is_Some _))|].
    split; [by destruct (bool_decide (is_Some _))|].
    rewrite !fetcher_kicks_app, !engine_calls_app, !absent_fetches_app.
    rewrite !(proj1 (LogCode_calls _ _)), !(proj2 (LogCode_calls _ _)).
    rewrite !absent_fetches_LogCode.
    split; [by destruct (_ && _)|]. split; [by destruct (_ && _)|].
    split; [destruct (_ && _); simpl; lia|]. intros msg. done.
  - destruct (CalculateRoute_Throws dbg timer w w' l run msg Hc Hs Hr Ho)
      as (proxy & pre & Hp & Hpre & Htasks & Hevents).
    exists [EvLog LERROR "Exception happened while calculating route:" None],
           proxy.
    split; [exact Hp|].
    split; [rewrite Hevents; unfold Worker.prologue;
            rewrite <- !app_comm_cons; by rewrite <- app_assoc|].
    split; [by destruct (bool_decide (is_Some _))|].
    split; [by destruct (bool_decide (is_Some _))|].
    split; [by destruct (bool_decide (is_Some _))|].
    split; [done|]. split; [done|].
    split; [unfold absent_fetches; simpl; lia|].
    intros _ _. split; [done|].
    rewrite Htasks, secondary_tasks_app.
    by rewrite (listener_tasks_secondary pre Hpre).
Qed.

Lemma fetcher_protocol_witness :
  Worker.CalculateRoute false Scenario.timer
    (Scenario.pending Scenario.faulty (Some Scenario.fetcher))
  = Some (Scenario.served Scenario.faulty (Some Scenario.fetcher))
  /\ (Worker.Snapshot
        (AsyncRouter.self
           (Scenario.pending Scenario.faulty (Some Scenario.fetcher)))).2
     = Some (Scenario.locals Scenario.faulty (Some Scenario.fetcher))
  /\ engine_run
       (AsyncRouter.heap
          (Scenario.pending Scenario.faulty (Some Scenario.fetcher)))
       (Scenario.locals Scenario.faulty (Some Scenario.fetcher))
     = Some (Scenario.call Scenario.faulty)
  /\ exists before after : list Event,
       fetcher_kicks before = [Scenario.checkpoints]
       /\ absent_fetches after = 0
       /\ fetcher_kicks
            (new_events
               (Scenario.pending Scenario.faulty (Some Scenario.fetcher))
               (Scenario.served Scenario.faulty (Some Scenario.fetcher)))
          = fetcher_kicks before ++ fetcher_kicks after.
Proof.
  assert (Worker.CalculateRoute false Scenario.timer
            (Scenario.pending Scenario.faulty (Some Scenario.fetcher))
          = Some (Scenario.served Scenario.faulty (Some Scenario.fetcher)))
    as Hc by (vm_compute; reflexivity).
  assert ((Worker.Snapshot
             (AsyncRouter.self
                (Scenario.pending Scenario.faulty (Some Scenario.fetcher)))).2
          = Some (Scenario.locals Scenario.faulty (Some Scenario.fetcher)))
    as Hs by (vm_compute; reflexivity).
  assert (engine_run
            (AsyncRouter.heap
               (Scenario.pending Scenario.faulty (Some Scenario.fetcher)))
            (Scenario.locals Scenario.faulty (Some Scenario.fetcher))
          = Some (Scenario.call Scenario.faulty))
    as Hr by (vm_compute; reflexivity).
  split; [exact Hc|]. split; [exact Hs|]. split; [exact Hr|].
  destruct (fetcher_protocol false Scenario.timer _ _ _ _ Hc Hs Hr)
    as (before & after & proxy & _ & Hevents & Hkick & _ & _ & Hafter & _ & _
        & Hthrow).
  exists before, after. split; [exact Hkick|].
  split; [exact (proj1 (Hthrow "bad mwm" eq_refl))|].
  rewrite Hevents.
  change (?x :: after) with ([x] ++ after).
  by rewrite !fetcher_kicks_app.
Defined.

(** X15: when the proxy of the request is not cancelled and has a progress
    callback, the closures an execution posts begin with one progress
    closure per progress report of the engine, in the order of the reports,
    each holding the callback and the reported value; with
    [SHOW_ROUTE_DEBUG_MARKS] the point-check reports have their closures in
    between, without it they have none.  No other closure posted calls the
    progress or the point-check callback. *)
Theorem reports_in_order (dbg : bool) (timer : Timer)
    (w w' : AsyncRouter.World) (l : Worker.Locals) (run : EngineRun)
    (proxy : RouterDelegateProxy.t) (onProgress onPointCheck : nat) :
  Worker.CalculateRoute dbg timer w = Some w' ->
  (Worker.Snapshot (AsyncRouter.self w)).2 = Some l ->
  engine_run (AsyncRouter.heap w) l = Some run ->
  AsyncRouter.heap w !! Worker.delegate l = Some proxy ->
  RouterDelegate_IsCancelled (RouterDelegateProxy.m_delegate proxy) = false ->
  RouterDelegateProxy.m_onProgress proxy = Some onProgress ->
  (dbg = true ->
   RouterDelegateProxy.m_onPointCheck proxy = Some onPointCheck) ->
  exists rest : list UiTask,
    new_tasks w w' =
      omap (fun call =>
              match call with
              | EngineOnProgress progress =>
                  Some (GuiProgress onProgress progress)
              | EngineOnPointCheck pt =>
                  if dbg then Some (GuiPointCheck onPointCheck pt) else None
              end) (reported run)
      ++ rest
    /\ Forall (fun task => ~ listener_task task) rest.
Proof.
  intros Hc Hs Hr Hp Hlive Hprogress Hcheck.
  destruct (CalculateRoute_inv dbg timer w w' l Hc Hs)
    as (out & He & _ & _ & -> & _).
  destruct (Execute_inv dbg _ timer l out He)
    as (proxy' & run' & pre & post & Hp' & Hr' & Hl & Hpost & -> & _).
  rewrite Hr in Hr'. injection Hr' as <-.
  rewrite Hp in Hp'. injection Hp' as <-.
  rewrite (listeners_live dbg proxy onProgress onPointCheck _ Hlive Hprogress
             Hcheck) in Hl.
  injection Hl as <-. cbn [Worker.scheduled].
  exists (Worker.scheduled post). split; [done|].
  destruct (Conclude_posts timer l run post Hpost) as (results & -> & Hres).
  constructor.
  - destruct (outcome run); intros [].
  - eapply Forall_impl; [exact Hres|]. intros task Hcalls Hlistener.
    pose proof (listener_task_calls_into (Worker.delegate l) task Hlistener).
    simpl in Hcalls. congruence.
Qed.

Lemma reports_in_order_witness :
  Worker.CalculateRoute false Scenario.timer
    (Scenario.pending Scenario.vehicle None)
  = Some (Scenario.served Scenario.vehicle None)
  /\ (Worker.Snapshot
        (AsyncRouter.self (Scenario.pending Scenario.vehicle None))).2
     = Some (Scenario.locals Scenario.vehicle None)
  /\ engine_run (AsyncRouter.heap (Scenario.pending Scenario.vehicle None))
       (Scenario.locals Scenario.vehicle None)
     = Some (Scenario.call Scenario.vehicle)
  /\ AsyncRouter.heap (Scenario.pending Scenario.vehicle None)
       !! Worker.delegate (Scenario.locals Scenario.vehicle None)
     = Some (RouterDelegateProxy.make (Some 1) (Some 2) (Some 3) None
               (Some 4) 0)
  /\ exists rest : list UiTask,
       new_tasks (Scenario.pending Scenario.vehicle None)
         (Scenario.served Scenario.vehicle None)
       = [GuiProgress 4 0.5%float] ++ rest.
Proof.
  assert (Worker.CalculateRoute false Scenario.timer
            (Scenario.pending Scenario.vehicle None)
          = Some (Scenario.served Scenario.vehicle None))
    as Hc by (vm_compute; reflexivity).
  assert ((Worker.Snapshot
             (AsyncRouter.self (Scenario.pending Scenario.vehicle None))).2
          = Some (Scenario.locals Scenario.vehicle None))
    as Hs by (vm_compute; reflexivity).
  assert (engine_run (AsyncRouter.heap (Scenario.pending Scenario.vehicle None))
            (Scenario.locals Scenario.vehicle None)
          = Some (Scenario.call Scenario.vehicle))
    as Hr by (vm_compute; reflexivity).
  assert (AsyncRouter.heap (Scenario.pending Scenario.vehicle None)
            !! Worker.delegate (Scenario.locals Scenario.vehicle None)
          = Some (RouterDelegateProxy.make (Some 1) (Some 2) (Some 3) None
                    (Some 4) 0))
    as Hp by reflexivity.
  split; [exact Hc|]. split; [exact Hs|]. split; [exact Hr|].
  split; [exact Hp|].
  destruct (reports_in_order false Scenario.timer _ _ _ _ _ 4 0 Hc Hs Hr Hp
              eq_refl eq_refl (fun H => False_ind _ (diff_false_true H)))
    as (rest & Htasks & _).
  exists rest. exact Htasks.
Defined.

(** ** The log line of a code and the keys of the statistics *)

(** X16: [LogCode] writes a different line for each of the sixteen result
    codes, whatever the elapsed times are: the code of a finished request can
    be read off the log. *)
Theorem LogCode_distinguishes (code1 code2 : RouterResultCode)
    (elapsed1 elapsed2 : double) :
  code1 <> code2 ->
  AsyncRouter.LogCode code1 elapsed1 <> AsyncRouter.LogCode code2 elapsed2.
Proof.
  intros Hne Heq.
  apply (f_equal (fun e => match e with
                           | EvLog _ message _ => message
                           | _ => ""
                           end)) in Heq.
  destruct code1, code2; try done; discriminate Heq.
Qed.

Lemma LogCode_distinguishes_witness :
  NoError <> NeedMoreMaps
  /\ AsyncRouter.LogCode NoError 1%float
     <> AsyncRouter.LogCode NeedMoreMaps 1%float.
Proof.
  assert (NoError <> NeedMoreMaps) as Hne by discriminate.
  split; [exact Hne|].
  exact (LogCode_distinguishes NoError NeedMoreMaps 1%float 1%float Hne).
Defined.

(** X17: the seven keys [PrepareStatisticsData] writes are distinct, and no
    [emplace] of [SendStatistics] finds its key taken: the record of a result
    has exactly those seven keys, [result] and [elapsed], and [distance] for
    [NoError]; the record of an exception has exactly the seven and
    [exception]; both hold every entry of [PrepareStatisticsData]
    unchanged. *)
Theorem statistics_keys_exact (fmt : Formatting)
    (startPoint startDirection finalPoint : m2.PointD)
    (resultCode : RouterResultCode) (routeLenM elapsedSec : double)
    (exceptionMessage routerName : string) :
  let request : gset string :=
    {[ "name"; "startLon"; "startLat"; "startDirectionX"; "startDirectionY";
       "finalLon"; "finalLat" ]} in
  let prepared :=
    PrepareStatisticsData fmt routerName startPoint startDirection finalPoint in
  let result :=
    result_statistics fmt startPoint startDirection finalPoint resultCode
      routeLenM elapsedSec routerName in
  let exception :=
    exception_statistics fmt startPoint startDirection finalPoint
      exceptionMessage routerName in
  dom prepared = request
  /\ size prepared = 7
  /\ prepared !! "name" = Some routerName
  /\ dom result
     = request ∪ {[ "result"; "elapsed" ]}
       ∪ (if decide (NoError = resultCode) then {[ "distance" ]} else ∅)
  /\ dom exception = request ∪ {[ "exception" ]}
  /\ prepared ⊆ result
  /\ prepared ⊆ exception.
Proof.
  intros request prepared result exception.
  destruct (PrepareStatisticsData_other fmt routerName startPoint
              startDirection finalPoint) as (Hr & He & Hd & Hx).
  fold prepared in Hr, He, Hd, Hx.
  assert (dom prepared = request) as Hdom.
  { unfold prepared, PrepareStatisticsData, request. cbn [list_to_map foldr].
    cbv zeta. simpl. rewrite !dom_insert_L, dom_empty_L. set_solver. }
  split; [exact Hdom|].
  split; [by vm_compute|]. split; [by vm_compute|].
  unfold result, exception, result_statistics, exception_statistics.
  fold prepared.
  rewrite (emplace_fresh "result" _ prepared Hr).
  rewrite (emplace_fresh "elapsed"); [|by rewrite lookup_insert_ne].
  rewrite (emplace_fresh "exception" _ prepared Hx).
  split; [|split; [|split]].
  - destruct (decide (NoError = resultCode)).
    + rewrite (emplace_fresh "distance"); [|by rewrite !lookup_insert_ne].
      rewrite !dom_insert_L, Hdom. set_solver.
    + rewrite !dom_insert_L, Hdom. set_solver.
  - rewrite dom_insert_L, Hdom. set_solver.
  - destruct (decide (NoError = resultCode)).
    + rewrite (emplace_fresh "distance"); [|by rewrite !lookup_insert_ne].
      etrans; [|apply insert_subseteq; by rewrite !lookup_insert_ne].
      etrans; [|apply insert_subseteq; by rewrite !lookup_insert_ne].
      by apply insert_subseteq.
    + etrans; [|apply insert_subseteq; by rewrite !lookup_insert_ne].
      by apply insert_subseteq.
  - by apply insert_subseteq.
Qed.

(** ** A served request reaches the user *)

(** X18: when the engine returns [NoError] for a request whose proxy is not
    cancelled, and the GUI thread runs the closures of the execution before
    any other call of the public interface, the user is called in this
    order: the progress and point-check callbacks for the reports, the
    statistics sink, the ready callback, once, with the route as the engine
    left it and [NoError], and then, if the fetcher found absent countries,
    the need-more-maps callback with the route id of the execution and those
    countries.  The remove-route callback is not called. *)
Theorem served_request_reaches_user (dbg : bool) (fmt : Formatting)
    (timer : Timer) (w w' : AsyncRouter.World) (l : Worker.Locals)
    (run : EngineRun) (proxy : RouterDelegateProxy.t) :
  Worker.CalculateRoute dbg timer w = Some w' ->
  (Worker.Snapshot (AsyncRouter.self w)).2 = Some l ->
  engine_run (AsyncRouter.heap w) l = Some run ->
  AsyncRouter.heap w !! Worker.delegate l = Some proxy ->
  RouterDelegate_IsCancelled (RouterDelegateProxy.m_delegate proxy) = false ->
  outcome run = Returns NoError ->
  exists pre : list UiTask,
    Forall listener_task pre
    /\ new_tasks w w' ≫= run_task fmt (AsyncRouter.heap w')
       = (pre ≫= run_task fmt (AsyncRouter.heap w))
         ++ SendStatistics fmt
              (GetStart (AsyncRouter.m_checkpoints (AsyncRouter.self w)))
              (AsyncRouter.m_startDirection (AsyncRouter.self w))
              (GetFinish (AsyncRouter.m_checkpoints (AsyncRouter.self w)))
              NoError (GetTotalDistanceMeters (route_after run))
              (routing_time timer)
              (AsyncRouter.m_routingStatisticsCallback (AsyncRouter.self w))
              (IRouter.GetName (Worker.router l))
         ++ match RouterDelegateProxy.m_onReadyOwnership proxy with
            | Some ready => [CallReady ready (route_after run) NoError]
            | None => []
            end
         ++ match RouterDelegateProxy.m_onNeedMoreMaps proxy with
            | Some needMoreMaps =>
                if bool_decide (drained l NoError = []) then []
                else [CallNeedMoreMaps needMoreMaps (Worker.routeId l)
                        (drained l NoError)]
            | None => []
            end.
Proof.
  intros Hc Hs Hr Hp Hlive Ho.
  destruct (CalculateRoute_Returns dbg timer w w' l run NoError Hc Hs Hr Ho)
    as (proxy' & pre & _ & Hpre & Htasks & _).
  destruct (CalculateRoute_inv dbg timer w w' l Hc Hs)
    as (_ & _ & _ & Hheap & _ & _).
  destruct (Worker.Snapshot (AsyncRouter.self w)) as [a l'] eqn:Hsnap.
  simpl in Hs. subst l'.
  destruct (Snapshot_locals _ _ _ Hsnap) as (Hlc & Hls & _ & _ & Hlr & Hln).
  exists pre. split; [exact Hpre|].
  rewrite Htasks, Hheap, !bind_app, <- Hlc, <- Hls, <- Hlr, <- Hln.
  f_equal. f_equal; [by simpl; rewrite app_nil_r|].
  rewrite (bool_decide_eq_true_2 (NoError = NoError)) by done.
  unfold Worker.Upgrade.
  rewrite (bool_decide_eq_true_2 (NoError = NoError)) by done.
  f_equal.
  - simpl. rewrite Hp, app_nil_r. unfold RouterDelegateProxy.OnReady.
    rewrite Hlive.
    by destruct (RouterDelegateProxy.m_onReadyOwnership proxy).
  - destruct (bool_decide (drained l NoError = [])); simpl.
    + by destruct (RouterDelegateProxy.m_onNeedMoreMaps proxy).
    + rewrite Hp, app_nil_r. unfold RouterDelegateProxy.OnNeedMoreMaps.
      rewrite Hlive.
      by destruct (RouterDelegateProxy.m_onNeedMoreMaps proxy).
Qed.

Lemma served_request_reaches_user_witness :
  Worker.CalculateRoute false Scenario.timer
    (Scenario.pending Scenario.vehicle (Some Scenario.fetcher))
  = Some (Scenario.served Scenario.vehicle (Some Scenario.fetcher))
  /\ (Worker.Snapshot
        (AsyncRouter.self
           (Scenario.pending Scenario.vehicle (Some Scenario.fetcher)))).2
     = Some (Scenario.locals Scenario.vehicle (Some Scenario.fetcher))
  /\ engine_run
       (AsyncRouter.heap
          (Scenario.pending Scenario.vehicle (Some Scenario.fetcher)))
       (Scenario.locals Scenario.vehicle (Some Scenario.fetcher))
     = Some (Scenario.call Scenario.vehicle)
  /\ outcome (Scenario.call Scenario.vehicle) = Returns NoError
  /\ exists pre : list UiTask,
       new_tasks (Scenario.pending Scenario.vehicle (Some Scenario.fetcher))
         (Scenario.served Scenario.vehicle (Some Scenario.fetcher))
       ≫= run_task Scenario.fmt
            (AsyncRouter.heap
               (Scenario.served Scenario.vehicle (Some Scenario.fetcher)))
       = (pre
          ≫= run_task Scenario.fmt
               (AsyncRouter.heap
                  (Scenario.pending Scenario.vehicle (Some Scenario.fetcher))))
         ++ SendStatistics Scenario.fmt (GetStart Scenario.checkpoints)
              Scenario.direction (GetFinish Scenario.checkpoints) NoError
              1200%float 1%float (Some 9) "vehicle"
         ++ [CallReady 1 (route_after (Scenario.call Scenario.vehicle)) NoError]
         ++ [CallNeedMoreMaps 2 1 ["US_California"; "US_Nevada"]].
Proof.
  assert (Worker.CalculateRoute false Scenario.timer
            (Scenario.pending Scenario.vehicle (Some Scenario.fetcher))
          = Some (Scenario.served Scenario.vehicle (Some Scenario.fetcher)))
    as Hc by (vm_compute; reflexivity).
  assert ((Worker.Snapshot
             (AsyncRouter.self
                (Scenario.pending Scenario.vehicle (Some Scenario.fetcher)))).2
          = Some (Scenario.locals Scenario.vehicle (Some Scenario.fetcher)))
    as Hs by (vm_compute; reflexivity).
  assert (engine_run
            (AsyncRouter.heap
               (Scenario.pending Scenario.vehicle (Some Scenario.fetcher)))
            (Scenario.locals Scenario.vehicle (Some Scenario.fetcher))
          = Some (Scenario.call Scenario.vehicle))
    as Hr by (vm_compute; reflexivity).
  assert (outcome (Scenario.call Scenario.vehicle) = Returns NoError)
    as Ho by reflexivity.
  split; [exact Hc|]. split; [exact Hs|]. split; [exact Hr|].
  split; [exact Ho|].
  destruct (served_request_reaches_user false Scenario.fmt Scenario.timer _ _
              _ _ (RouterDelegateProxy.make (Some 1) (Some 2) (Some 3) None
                     (Some 4) 0)
              Hc Hs Hr eq_refl eq_refl Ho) as (pre & _ & Hcalls).
  exists pre. exact Hcalls.
Defined.
